(** * Cookie manager: domain matching, cookie snapshots and profile switching

    A shallow embedding of the extension's core modules:

    - [CookieManager]    utils/cookie-manager.js      (ES-module variant)
    - [CookieManagerSw]  utils/cookie-manager-sw.js   (service-worker variant)
    - [ConfigManager]    utils/config-manager(-sw).js (the two copies agree on
                         every function embedded here)
    - [ServiceWorker]    background/service-worker.js (both copies; they differ
                         only in which cookie manager they call)

    Asynchronous functions are embedded as state-passing tasks that either
    return a value or throw.  The world they run in holds the four storage
    keys, the browser's cookie jar, the service worker's guard flag, the
    answers the host will give to the upcoming calls (whether each one is
    rejected) and the log of the calls made so far.  Console output is not
    modelled.

    JavaScript objects used as maps (the cookie data, a profile's snapshot)
    are finite maps with string keys: the keys are the object's own
    properties.  Where the source reads a bucket under a cookie's domain
    with [o[key]], a key that is not the object's own but is a name every
    object inherits ("constructor", "toString", ...) reads as a function,
    and the [push] or [findIndex] that follows throws a TypeError; the
    model throws there too.  Profile ids are generated by [createProfile]
    ("profile-...") and are taken not to be such names.  The order in
    which [Object.entries] lists the buckets of a snapshot read from
    [chrome.storage] is the host's and is a parameter.  Strings are cut
    only next to the ASCII characters "." and "*", so their encoding plays
    no role. *)

From Stdlib Require Import String Ascii List Bool Arith ZArith Lia.
From stdpp Require Import gmap strings list fin_maps sorting.

Open Scope string_scope.
Open Scope list_scope.

(* ===================================================================== *)
(** ** JavaScript string primitives used by the source *)
(* ===================================================================== *)

Module Js.

(** [s.startsWith(pre)] *)
Definition startsWith (s pre : string) : bool := String.prefix pre s.

(** [s.substring(n)]: the characters of [s] from index [n] on. *)
Fixpoint substring (n : nat) (s : string) : string :=
  match n, s with
  | O, _ => s
  | S n', String _ s' => substring n' s'
  | S _, EmptyString => EmptyString
  end.

(** [s.endsWith(suf)]: the last [suf.length] characters of [s] are [suf]. *)
Definition endsWith (s suf : string) : bool :=
  if Nat.leb (String.length suf) (String.length s)
  then String.eqb (substring (String.length s - String.length suf) s) suf
  else false.

(** [s || d] on strings: the empty string is falsy. *)
Definition orElse (s d : string) : string :=
  if String.eqb s "" then d else s.

(** The property names of [Object.prototype], which every plain object
    inherits. *)
Definition inheritedNames : list string :=
  ["constructor"; "__defineGetter__"; "__defineSetter__"; "hasOwnProperty";
   "__lookupGetter__"; "__lookupSetter__"; "isPrototypeOf";
   "propertyIsEnumerable"; "toString"; "valueOf"; "__proto__";
   "toLocaleString"].

Definition inheritedName (key : string) : bool :=
  existsb (String.eqb key) inheritedNames.

End Js.

(** The expression [d.startsWith('.') ? d.substring(1) : d], which the source
    repeats wherever it needs a cookie's domain without its leading dot. *)
Definition stripLeadingDot (d : string) : string :=
  if Js.startsWith d "." then Js.substring 1 d else d.

(* ===================================================================== *)
(** ** Data model *)
(* ===================================================================== *)

(** A cookie as the browser delivers it and as the snapshot stores it: the
    nine attributes the source reads and copies.  [expirationDate] is a
    number that is only copied and tested for truthiness. *)
Record Cookie := mkCookie {
  name : string;
  value : string;
  domain : string;
  path : string;
  secure : bool;
  httpOnly : bool;
  sameSite : string;
  expirationDate : option Z;
  storeId : string
}.

Module Profile.
(** [domains] may be missing from a stored profile object. *)
Record t := mk {
  id : string;
  name : string;
  domains : option (list string);
  enabled : bool;
  createdAt : Z
}.
End Profile.

(** The argument of [chrome.cookies.set]. *)
Module Details.
Record t := mk {
  url : string;
  name : string;
  value : string;
  path : string;
  secure : bool;
  httpOnly : bool;
  sameSite : string;
  expirationDate : option Z
}.
End Details.

(** The cookie-data mapping: profile id, then domain key, then records. *)
Abbreviation Snapshot := (gmap string (list Cookie)).
Abbreviation CookieData := (gmap string (gmap string (list Cookie))).

Inductive StorageKey :=
| KProfiles          (* 'profiles' *)
| KActiveProfileId   (* 'activeProfileId' *)
| KPluginEnabled     (* 'pluginEnabled' *)
| KCookieData.       (* 'cookieData' *)

(** Calls into the host: chrome.storage.local and chrome.cookies. *)
Inductive Event :=
| StorageGet (k : StorageKey)
| StorageSet (k : StorageKey)
| CookiesGetAll (filter : option string)
| CookiesSet (d : Details.t)
| CookiesRemove (url name : string).

Record World := mkWorld {
  profiles : list Profile.t;          (* storage key 'profiles' *)
  activeProfileId : option string;    (* storage key 'activeProfileId' *)
  pluginEnabled : option bool;        (* storage key 'pluginEnabled' *)
  cookieData : CookieData;            (* storage key 'cookieData' *)
  jar : list Cookie;                  (* the browser's live cookies *)
  isSwitchingProfile : bool;          (* the service worker's guard flag *)
  faults : list bool;                 (* true: the next host call is rejected *)
  trace : list Event                  (* host calls made so far, oldest first *)
}.

Definition logCall (e : Event) (w : World) : World :=
  mkWorld (profiles w) (activeProfileId w) (pluginEnabled w) (cookieData w)
          (jar w) (isSwitchingProfile w) (tail (faults w)) (trace w ++ [e]).

Definition setActiveProfileId (v : option string) (w : World) : World :=
  mkWorld (profiles w) v (pluginEnabled w) (cookieData w)
          (jar w) (isSwitchingProfile w) (faults w) (trace w).

Definition setCookieData (v : CookieData) (w : World) : World :=
  mkWorld (profiles w) (activeProfileId w) (pluginEnabled w) v
          (jar w) (isSwitchingProfile w) (faults w) (trace w).

Definition setJar (v : list Cookie) (w : World) : World :=
  mkWorld (profiles w) (activeProfileId w) (pluginEnabled w) (cookieData w)
          v (isSwitchingProfile w) (faults w) (trace w).

Definition setSwitching (v : bool) (w : World) : World :=
  mkWorld (profiles w) (activeProfileId w) (pluginEnabled w) (cookieData w)
          (jar w) v (faults w) (trace w).

Definition setProfiles (v : list Profile.t) (w : World) : World :=
  mkWorld v (activeProfileId w) (pluginEnabled w) (cookieData w)
          (jar w) (isSwitchingProfile w) (faults w) (trace w).

Definition setPluginEnabledKey (v : option bool) (w : World) : World :=
  mkWorld (profiles w) (activeProfileId w) v (cookieData w)
          (jar w) (isSwitchingProfile w) (faults w) (trace w).

(* ===================================================================== *)
(** ** Tasks: asynchronous functions that return or throw *)
(* ===================================================================== *)

Inductive Error :=
| ProfileNotFound            (* new Error('配置不存在') *)
| TypeError                  (* a method read off an inherited property *)
| HostError (e : Event).     (* the host rejected this call *)

Inductive Outcome (A : Type) :=
| Returned (a : A)
| Thrown (e : Error).
Arguments Returned {A} a.
Arguments Thrown {A} e.

Definition Task (A : Type) : Type := World -> Outcome A * World.

Definition ret {A} (a : A) : Task A := fun w => (Returned a, w).

Definition throw {A} (e : Error) : Task A := fun w => (Thrown e, w).

Definition bind {A B} (m : Task A) (k : A -> Task B) : Task B :=
  fun w =>
    match m w with
    | (Returned a, w') => k a w'
    | (Thrown e, w') => (Thrown e, w')
    end.

Declare Scope task_scope.
Delimit Scope task_scope with task.
Notation "'let*' x ':=' m 'in' k" := (bind m (fun x => k))
  (at level 10, x name, m at level 100, k at level 200) : task_scope.
Notation "m '>>' k" := (bind m (fun _ => k))
  (at level 100, k at level 200, right associativity) : task_scope.
Open Scope task_scope.

(** [try { m } catch (error) { h error }] *)
Definition tryCatch {A} (m : Task A) (h : Error -> Task A) : Task A :=
  fun w =>
    match m w with
    | (Returned a, w') => (Returned a, w')
    | (Thrown e, w') => h e w'
    end.

(** [try { m } finally { fin }]: the completion of [m] is kept unless [fin]
    itself throws. *)
Definition tryFinally {A} (m : Task A) (fin : Task unit) : Task A :=
  fun w =>
    match m w with
    | (r, w') =>
        match fin w' with
        | (Returned _, w'') => (r, w'')
        | (Thrown e, w'') => (Thrown e, w'')
        end
    end.

(** [for (const x of xs) { await f x }] *)
Fixpoint forEach {A} (xs : list A) (f : A -> Task unit) : Task unit :=
  match xs with
  | [] => ret tt
  | x :: xs' => f x >> forEach xs' f
  end.

Definition gets {A} (f : World -> A) : Task A := fun w => (Returned (f w), w).

Definition modify (f : World -> World) : Task unit := fun w => (Returned tt, f w).

(** One call into the host: it is logged, consumes the host's next answer and
    is rejected when that answer says so. *)
Definition host (e : Event) : Task unit :=
  fun w =>
    match faults w with
    | true :: _ => (Thrown (HostError e), logCall e w)
    | _ => (Returned tt, logCall e w)
    end.

(* ===================================================================== *)
(** ** The host: chrome.storage.local and chrome.cookies *)
(* ===================================================================== *)

(** utils/storage.js, [getStorage]: resolves with the stored data or rejects
    with the host's last error. *)
Definition getStorage {A} (k : StorageKey) (read : World -> A) : Task A :=
  host (StorageGet k) >> gets read.

(** utils/storage.js, [setStorage] *)
Definition setStorage (k : StorageKey) (write : World -> World) : Task unit :=
  host (StorageSet k) >> modify write.

(** What the browser does with the cookie calls it accepts is not part of the
    repository; it is a parameter of the development.  So is the order in
    which an object read from [chrome.storage] lists its keys: every read
    hands back a fresh object, built by the host. *)
Record Browser := mkBrowser {
  (* which cookies [chrome.cookies.getAll({domain})] retains *)
  domainFilter : string -> Cookie -> bool;
  (* the jar after an accepted [chrome.cookies.set] *)
  jarSet : Details.t -> list Cookie -> list Cookie;
  (* the jar after an accepted [chrome.cookies.remove({url, name})] *)
  jarRemove : string -> string -> list Cookie -> list Cookie;
  (* [Object.entries] of a snapshot read from storage: its buckets, each
     once, in the order the object lists its keys *)
  entries : Snapshot -> list (string * list Cookie);
  entries_all : forall snap, entries snap ≡ₚ map_to_list snap
}.

Section Chrome.
Context (B : Browser).

(** [chrome.cookies.getAll(filter)]: [{}] retrieves every cookie. *)
Definition cookies_getAll (filter : option string) : Task (list Cookie) :=
  host (CookiesGetAll filter) >>
  gets (fun w => match filter with
                 | None => jar w
                 | Some d => List.filter (domainFilter B d) (jar w)
                 end).

Definition cookies_set (d : Details.t) : Task unit :=
  host (CookiesSet d) >> modify (fun w => setJar (jarSet B d (jar w)) w).

Definition cookies_remove (url name : string) : Task unit :=
  host (CookiesRemove url name) >>
  modify (fun w => setJar (jarRemove B url name (jar w)) w).
End Chrome.

(** The [updates] argument of [updateProfile]: the fields it carries. *)
Module Updates.
Record t := mk {
  id : option string;
  name : option string;
  domains : option (list string);
  enabled : option bool;
  createdAt : option Z
}.

(** [{}] *)
Definition none : t := mk None None None None None.

(** [{ domains }] *)
Definition ofDomains (ds : list string) : t := mk None None (Some ds) None None.
End Updates.

(** [{ ...profile, ...updates }] *)
Definition applyUpdates (profile : Profile.t) (updates : Updates.t) : Profile.t :=
  {| Profile.id := default (Profile.id profile) (Updates.id updates);
     Profile.name := default (Profile.name profile) (Updates.name updates);
     Profile.domains :=
       match Updates.domains updates with
       | Some ds => Some ds
       | None => Profile.domains profile
       end;
     Profile.enabled := default (Profile.enabled profile) (Updates.enabled updates);
     Profile.createdAt :=
       default (Profile.createdAt profile) (Updates.createdAt updates) |}.

(** What [createProfile] takes from the JavaScript runtime: the id string it
    builds from [Date.now()] and [Math.random()], the later [Date.now()] of
    [createdAt], and [String.prototype.trim]. *)
Record Runtime := mkRuntime {
  freshId : string;
  freshTime : Z;
  trim : string -> string
}.

(* ===================================================================== *)
(** ** utils/config-manager.js and utils/config-manager-sw.js *)
(* ===================================================================== *)

Module ConfigManager.

(** [data[STORAGE_KEY_PROFILES] || []] *)
Definition getProfiles : Task (list Profile.t) :=
  getStorage KProfiles profiles.

(** [data[STORAGE_KEY_ACTIVE_PROFILE_ID] || null]: an empty id is falsy. *)
Definition getActiveProfileId : Task (option string) :=
  getStorage KActiveProfileId
    (fun w => match activeProfileId w with
              | Some i => if String.eqb i "" then None else Some i
              | None => None
              end).

Definition getActiveProfile : Task (option Profile.t) :=
  let* activeId := getActiveProfileId in
  match activeId with
  | None => ret None
  | Some activeId =>
      let* profiles := getProfiles in
      ret (List.find (fun p => String.eqb (Profile.id p) activeId) profiles)
  end.

(** [data[STORAGE_KEY_PLUGIN_ENABLED] !== false] *)
Definition isPluginEnabled : Task bool :=
  getStorage KPluginEnabled
    (fun w => match pluginEnabled w with
              | Some false => false
              | _ => true
              end).

Definition switchProfile (profileId : string) : Task unit :=
  let* profiles := getProfiles in
  match List.find (fun p => String.eqb (Profile.id p) profileId) profiles with
  | None => throw ProfileNotFound
  | Some _ => setStorage KActiveProfileId (setActiveProfileId (Some profileId))
  end.

Definition setPluginEnabled (enabled : bool) : Task unit :=
  setStorage KPluginEnabled (setPluginEnabledKey (Some enabled)).

Definition createProfile (rt : Runtime) (name : string) (domains : list string)
  : Task Profile.t :=
  let* profiles := getProfiles in
  let newProfile :=
    {| Profile.id := freshId rt;
       Profile.name := trim rt name;
       Profile.domains := Some domains;
       Profile.enabled := true;
       Profile.createdAt := freshTime rt |} in
  setStorage KProfiles (setProfiles (profiles ++ [newProfile])) >>
  ret newProfile.

(** [activeId === profileId] holds for a stored, non-empty id only. *)
Definition deleteProfile (profileId : string) : Task unit :=
  let* profiles := getProfiles in
  let filtered :=
    List.filter (fun p => negb (String.eqb (Profile.id p) profileId)) profiles in
  setStorage KProfiles (setProfiles filtered) >>
  let* activeId := getActiveProfileId in
  match activeId with
  | Some i =>
      if String.eqb i profileId
      then setStorage KActiveProfileId (setActiveProfileId None)
      else ret tt
  | None => ret tt
  end.

Definition updateProfile (profileId : string) (updates : Updates.t)
  : Task Profile.t :=
  let* profiles := getProfiles in
  match list_find (fun p => Profile.id p = profileId) profiles with
  | None => throw ProfileNotFound
  | Some (index, profile) =>
      let updated := applyUpdates profile updates in
      setStorage KProfiles (setProfiles (<[index := updated]> profiles)) >>
      ret updated
  end.

(** utils/config-manager.js only. *)
Definition addDomainToProfile (profileId domain : string) : Task unit :=
  let* profile := updateProfile profileId Updates.none in
  let domains := default [] (Profile.domains profile) in
  if negb (existsb (String.eqb domain) domains)
  then updateProfile profileId (Updates.ofDomains (domains ++ [domain])) >> ret tt
  else ret tt.

(** utils/config-manager.js only. *)
Definition removeDomainFromProfile (profileId domain : string) : Task unit :=
  let* profile := updateProfile profileId Updates.none in
  let domains :=
    List.filter (fun d => negb (String.eqb d domain))
                (default [] (Profile.domains profile)) in
  updateProfile profileId (Updates.ofDomains domains) >> ret tt.

End ConfigManager.

(* ===================================================================== *)
(** ** Shared pieces of the two cookie managers *)
(* ===================================================================== *)

(** The object literal both managers build from a cookie: the nine
    attributes, copied one by one. *)
Definition cookieRecord (cookie : Cookie) : Cookie :=
  {| name := name cookie;
     value := value cookie;
     domain := domain cookie;
     path := path cookie;
     secure := secure cookie;
     httpOnly := httpOnly cookie;
     sameSite := sameSite cookie;
     expirationDate := expirationDate cookie;
     storeId := storeId cookie |}.

(** [`http${cookie.secure ? 's' : ''}://${cookie.domain}${cookie.path || '/'}`] *)
Definition cookieUrl (cookie : Cookie) : string :=
  "http" +:+ (if secure cookie then "s" else "") +:+ "://" +:+
  domain cookie +:+ Js.orElse (path cookie) "/".

(** [getCookieData]: [data[STORAGE_KEY_COOKIE_DATA] || {}] *)
Definition getCookieData : Task CookieData := getStorage KCookieData cookieData.

Definition saveCookieData (cd : CookieData) : Task unit :=
  setStorage KCookieData (setCookieData cd).

(** [if (!cookieData[profileId]) cookieData[profileId] = {}] *)
Definition initProfile (profileId : string) (cd : CookieData) : CookieData :=
  match cd !! profileId with
  | Some _ => cd
  | None => <[profileId := ∅]> cd
  end.

(** [cookieData[profileId]] once it has been initialised. *)
Definition profileCookiesOf (profileId : string) (cd : CookieData) : Snapshot :=
  default ∅ (cd !! profileId).

(** [o[key]] for a bucket: a missing key reads as no records. *)
Definition bucketOf (key : string) (o : Snapshot) : list Cookie :=
  default [] (o !! key).

(** [if (!o[key]) o[key] = []; o[key].push(record)].  A bucket of the
    object's own is truthy; without one, a name every object inherits reads
    as a function, no bucket is created and [push] is not a function
    ([None]: the TypeError). *)
Definition pushRecord (key : string) (record : Cookie) (o : Snapshot)
  : option Snapshot :=
  match o !! key with
  | Some bucket => Some (<[key := bucket ++ [record]]> o)
  | None =>
      if Js.inheritedName key then None
      else Some (<[key := [record]]> o)
  end.

(** The upsert inside one bucket: [findIndex] on (name, path), then replace
    at that index or push. *)
Definition upsertRecord (cookie : Cookie) (bucket : list Cookie) : list Cookie :=
  let existingIndex :=
    fst <$> list_find (fun c => name c = name cookie ∧ path c = path cookie) bucket in
  let cookieToSave := cookieRecord cookie in
  match existingIndex with
  | Some i => <[i := cookieToSave]> bucket
  | None => bucket ++ [cookieToSave]
  end.

(** The body of [saveCookieToActiveProfile] after the bucket key is chosen:
    initialise the profile and the bucket, upsert.  As in [pushRecord], a
    key that only reads as an inherited name leaves no bucket to search:
    [findIndex] is not a function ([None]: the TypeError). *)
Definition upsertInto (profileId key : string) (cookie : Cookie)
    (cd : CookieData) : option CookieData :=
  let cd := initProfile profileId cd in
  let o := profileCookiesOf profileId cd in
  match o !! key with
  | Some bucket =>
      Some (<[profileId := <[key := upsertRecord cookie bucket]> o]> cd)
  | None =>
      if Js.inheritedName key then None
      else Some (<[profileId := <[key := upsertRecord cookie []]> o]> cd)
  end.

(** The argument [loadCookies] builds for [chrome.cookies.set]. *)
Definition cookieDetails (cookie : Cookie) : Details.t :=
  {| Details.url := cookieUrl cookie;
     Details.name := name cookie;
     Details.value := value cookie;
     Details.path := Js.orElse (path cookie) "/";
     Details.secure := secure cookie;
     Details.httpOnly := httpOnly cookie;
     Details.sameSite := Js.orElse (sameSite cookie) "no_restriction";
     Details.expirationDate :=
       match expirationDate cookie with
       | Some e => if Z.eqb e 0 then None else Some e
       | None => None
       end |}.

(** The functions the service worker calls on a cookie manager; the
    service-worker variant exports them as [global.CookieManager]. *)
Record CookieManagerApi := mkApi {
  api_saveCookieToActiveProfile : Cookie -> Task unit;
  api_saveCurrentProfileCookies : Task unit;
  api_clearAllCookies : list string -> Task unit;
  api_loadCookies : string -> Task unit
}.

(* ===================================================================== *)
(** ** utils/cookie-manager.js (ES-module variant) *)
(* ===================================================================== *)

Module CookieManager.

Definition isDomainMatch (cookieDomain targetDomain : string) : bool :=
  let normalizedCookieDomain :=
    if Js.startsWith cookieDomain "." then Js.substring 1 cookieDomain
    else cookieDomain in
  let normalizedTargetDomain :=
    if Js.startsWith targetDomain "." then Js.substring 1 targetDomain
    else targetDomain in
  if String.eqb normalizedCookieDomain normalizedTargetDomain then true
  else if Js.endsWith normalizedCookieDomain ("." +:+ normalizedTargetDomain)
  then true
  else false.

Definition isCookieInDomains (cookie : Cookie)
    (domains : option (list string)) : bool :=
  match domains with
  | None | Some [] => false
  | Some domains =>
      existsb (fun d => isDomainMatch (domain cookie) d) domains
  end.

Section WithBrowser.
Context (B : Browser).

Definition saveCookies (profileId domain : string) : Task unit :=
  tryCatch
    (let* cookies := cookies_getAll B (Some domain) in
     let* cookieData := getCookieData in
     let cookieData := initProfile profileId cookieData in
     let cookieData :=
       <[profileId := <[domain := cookieRecord <$> cookies]>
                        (profileCookiesOf profileId cookieData)]> cookieData in
     saveCookieData cookieData)
    (fun error => throw error).

Definition saveCurrentProfileCookies : Task unit :=
  let* activeProfile := ConfigManager.getActiveProfile in
  match activeProfile with
  | None => ret tt
  | Some activeProfile =>
      match Profile.domains activeProfile with
      | None | Some [] => ret tt
      | Some domains =>
          forEach domains
            (fun domain => saveCookies (Profile.id activeProfile) domain)
      end
  end.

(** Every stored bucket is an array, so [Array.isArray] never skips one.
    The object enumerated is the one just read from storage. *)
Definition loadCookies (profileId : string) : Task unit :=
  tryCatch
    (let* cookieData := getCookieData in
     match cookieData !! profileId with
     | None => ret tt
     | Some profileCookies =>
         forEach (entries B profileCookies)
           (fun entry =>
              forEach (snd entry)
                (fun cookie =>
                   tryCatch (cookies_set B (cookieDetails cookie))
                            (fun error => ret tt)))
     end)
    (fun error => throw error).

Definition clearAllCookies (excludeDomains : list string) : Task unit :=
  tryCatch
    (let* allCookies := cookies_getAll B None in
     forEach allCookies
       (fun cookie =>
          if existsb (fun d => isDomainMatch (domain cookie) d)
                     excludeDomains
          then ret tt
          else tryCatch (cookies_remove B (cookieUrl cookie) (name cookie))
                        (fun error => ret tt)))
    (fun error => throw error).

Definition clearProfileCookies (profileId : string) : Task unit :=
  let* cookieData := getCookieData in
  match cookieData !! profileId with
  | Some _ => saveCookieData (delete profileId cookieData)
  | None => ret tt
  end.

(** The bucket key is the first configured domain that matches; an empty
    string found there is falsy and ends the call. *)
Definition saveCookieToActiveProfile (cookie : Cookie) : Task unit :=
  let* activeProfile := ConfigManager.getActiveProfile in
  match activeProfile with
  | None => ret tt
  | Some activeProfile =>
      if negb (isCookieInDomains cookie (Profile.domains activeProfile))
      then ret tt
      else
        match List.find (fun d => isDomainMatch (domain cookie) d)
                        (default [] (Profile.domains activeProfile)) with
        | None => ret tt
        | Some matchedDomain =>
            if String.eqb matchedDomain "" then ret tt
            else
              let* cookieData := getCookieData in
              match upsertInto (Profile.id activeProfile) matchedDomain
                               cookie cookieData with
              | Some cookieData => saveCookieData cookieData
              | None => throw TypeError
              end
        end
  end.

Definition api : CookieManagerApi :=
  mkApi saveCookieToActiveProfile saveCurrentProfileCookies
        clearAllCookies loadCookies.
End WithBrowser.

End CookieManager.

(* ===================================================================== *)
(** ** utils/cookie-manager-sw.js (service-worker variant) *)
(* ===================================================================== *)

Module CookieManagerSw.

Definition isDomainMatch (cookieDomain targetDomain : string) : bool :=
  let normalizedCookieDomain :=
    if Js.startsWith cookieDomain "." then Js.substring 1 cookieDomain
    else cookieDomain in
  let normalizedTargetDomain :=
    if Js.startsWith targetDomain "." then Js.substring 1 targetDomain
    else targetDomain in
  if String.eqb normalizedCookieDomain normalizedTargetDomain then true
  else if Js.endsWith normalizedCookieDomain ("." +:+ normalizedTargetDomain)
  then true
  else if Js.startsWith normalizedTargetDomain "*." then
    let baseDomain := Js.substring 2 normalizedTargetDomain in
    if String.eqb normalizedCookieDomain baseDomain then true
    else if Js.endsWith normalizedCookieDomain ("." +:+ baseDomain) then true
    else false
  else false.

Definition isCookieInDomains (cookie : Cookie)
    (domains : option (list string)) : bool :=
  match domains with
  | None | Some [] => true
  | Some domains =>
      existsb (fun d => isDomainMatch (domain cookie) d) domains
  end.

(** [for (const cookie of allCookies) { ... cookiesByDomain[domain].push(..) }]
    starting from the empty object; the first push that throws ends the
    loop. *)
Definition groupByDomain (allCookies : list Cookie) : option Snapshot :=
  foldl (fun cookiesByDomain cookie =>
           cookiesByDomain ≫=
             pushRecord (stripLeadingDot (domain cookie)) (cookieRecord cookie))
        (Some ∅) allCookies.

(** The filter of the wildcard branch. *)
Definition underBase (baseDomain : string) (cookie : Cookie) : bool :=
  let cookieDomain := stripLeadingDot (domain cookie) in
  String.eqb cookieDomain baseDomain
  || Js.endsWith cookieDomain ("." +:+ baseDomain).

(** The loop of the wildcard branch: push every matched cookie onto the
    bucket of its own domain inside [cookieData[profileId]]; the first push
    that throws ends the loop. *)
Definition appendMatched (profileId : string) (matchedCookies : list Cookie)
    (cookieData : CookieData) : option CookieData :=
  foldl (fun cookieData cookie =>
           cookieData ≫= fun cookieData =>
           pushRecord (stripLeadingDot (domain cookie)) (cookieRecord cookie)
                      (profileCookiesOf profileId cookieData) ≫= fun o =>
           Some (<[profileId := o]> cookieData))
        (Some cookieData) matchedCookies.

Section WithBrowser.
Context (B : Browser).

Definition saveCookies (profileId domain : string) : Task unit :=
  tryCatch
    (let* cookies := cookies_getAll B (Some domain) in
     let* cookieData := getCookieData in
     let cookieData := initProfile profileId cookieData in
     let cookieData :=
       <[profileId := <[domain := cookieRecord <$> cookies]>
                        (profileCookiesOf profileId cookieData)]> cookieData in
     saveCookieData cookieData)
    (fun error => throw error).

Definition saveCurrentProfileCookies : Task unit :=
  let* activeProfile := ConfigManager.getActiveProfile in
  match activeProfile with
  | None => ret tt
  | Some activeProfile =>
      let saveAll :=
        tryCatch
          (let* allCookies := cookies_getAll B None in
           let* cookieData := getCookieData in
           let cookieData := initProfile (Profile.id activeProfile) cookieData in
           match groupByDomain allCookies with
           | Some cookiesByDomain =>
               let cookieData :=
                 <[Profile.id activeProfile := cookiesByDomain]> cookieData in
               saveCookieData cookieData
           | None => throw TypeError
           end)
          (fun error => throw error) in
      match Profile.domains activeProfile with
      | None | Some [] => saveAll
      | Some domains =>
          forEach domains
            (fun domain =>
               if Js.startsWith domain "*." then
                 let baseDomain := Js.substring 2 domain in
                 tryCatch
                   (let* allCookies := cookies_getAll B None in
                    let matchedCookies :=
                      List.filter (underBase baseDomain) allCookies in
                    let* cookieData := getCookieData in
                    let cookieData :=
                      initProfile (Profile.id activeProfile) cookieData in
                    match appendMatched (Profile.id activeProfile)
                                        matchedCookies cookieData with
                    | Some cookieData => saveCookieData cookieData
                    | None => throw TypeError
                    end)
                   (fun error => ret tt)
               else saveCookies (Profile.id activeProfile) domain)
      end
  end.

(** Every stored bucket is an array, so [Array.isArray] never skips one.
    The object enumerated is the one just read from storage. *)
Definition loadCookies (profileId : string) : Task unit :=
  tryCatch
    (let* cookieData := getCookieData in
     match cookieData !! profileId with
     | None => ret tt
     | Some profileCookies =>
         forEach (entries B profileCookies)
           (fun entry =>
              forEach (snd entry)
                (fun cookie =>
                   tryCatch (cookies_set B (cookieDetails cookie))
                            (fun error => ret tt)))
     end)
    (fun error => throw error).

Definition clearAllCookies (excludeDomains : list string) : Task unit :=
  tryCatch
    (let* allCookies := cookies_getAll B None in
     forEach allCookies
       (fun cookie =>
          if existsb (fun d => isDomainMatch (domain cookie) d)
                     excludeDomains
          then ret tt
          else tryCatch (cookies_remove B (cookieUrl cookie) (name cookie))
                        (fun error => ret tt)))
    (fun error => throw error).

Definition clearProfileCookies (profileId : string) : Task unit :=
  let* cookieData := getCookieData in
  match cookieData !! profileId with
  | Some _ => saveCookieData (delete profileId cookieData)
  | None => ret tt
  end.

(** The bucket key is the cookie's own domain without its leading dot. *)
Definition saveCookieToActiveProfile (cookie : Cookie) : Task unit :=
  let* activeProfile := ConfigManager.getActiveProfile in
  match activeProfile with
  | None => ret tt
  | Some activeProfile =>
      if negb (isCookieInDomains cookie (Profile.domains activeProfile))
      then ret tt
      else
        let cookieDomain := stripLeadingDot (domain cookie) in
        let* cookieData := getCookieData in
        match upsertInto (Profile.id activeProfile) cookieDomain
                         cookie cookieData with
        | Some cookieData => saveCookieData cookieData
        | None => throw TypeError
        end
  end.

Definition api : CookieManagerApi :=
  mkApi saveCookieToActiveProfile saveCurrentProfileCookies
        clearAllCookies loadCookies.
End WithBrowser.

End CookieManagerSw.

(* ===================================================================== *)
(** ** background/service-worker.js *)
(* ===================================================================== *)

(** A message from the popup: [{ action, profileId, clearCookies }]. *)
Module Message.
Record t := mk {
  action : string;
  profileId : string;
  clearCookies : option bool
}.
End Message.

(** What the listener passes to [sendResponse]: [{ success: true, ... }],
    [{ success: false, error: '未知操作' }] for an unknown action, or
    [{ success: false, error: error.message }] for a caught error. *)
Inductive Response :=
| Success
| SuccessProfile (profile : option Profile.t)
| SuccessEnabled (enabled : bool)
| UnknownAction
| Failed (error : Error).

Module ServiceWorker.
Section WithCookieManager.
(** The cookie manager the worker was loaded with: the imported ES
    modules in one copy of the file, [global.CookieManager] in the
    other. *)
Context (CM : CookieManagerApi).

(** [changeInfo] carries the cookie and whether it was removed. *)
Definition handleCookieChange (cookie : Cookie) (removed : bool) : Task unit :=
  let* switching := gets isSwitchingProfile in
  if switching then ret tt
  else
    let* enabled := ConfigManager.isPluginEnabled in
    if negb enabled then ret tt
    else
      let* activeProfile := ConfigManager.getActiveProfile in
      match activeProfile with
      | None => ret tt
      | Some _ =>
          if removed then ret tt
          else tryCatch (api_saveCookieToActiveProfile CM cookie)
                        (fun error => ret tt)
      end.

(** Step 1 of the switch: save the cookies of the profile being left. *)
Definition saveOutgoing : Task unit :=
  let* currentProfile := ConfigManager.getActiveProfile in
  match currentProfile with
  | Some _ => api_saveCurrentProfileCookies CM
  | None => ret tt
  end.

(** Step 3 of the switch: [newProfile?.domains || []] are kept. *)
Definition clearForIncoming (clearCookies : bool) : Task unit :=
  if clearCookies then
    let* newProfile := ConfigManager.getActiveProfile in
    let excludeDomains :=
      match newProfile with
      | Some p => default [] (Profile.domains p)
      | None => []
      end in
    api_clearAllCookies CM excludeDomains
  else ret tt.

(** The body of the [try] block of [switchProfile]. *)
Definition switchSteps (profileId : string) (clearCookies : bool) : Task unit :=
  saveOutgoing >>
  ConfigManager.switchProfile profileId >>
  clearForIncoming clearCookies >>
  api_loadCookies CM profileId.

Definition switchProfile (profileId : string) (clearCookies : bool) : Task unit :=
  let* switching := gets isSwitchingProfile in
  if switching then ret tt
  else
    modify (setSwitching true) >>
    tryFinally
      (tryCatch (switchSteps profileId clearCookies)
                (fun error => throw error))
      (modify (setSwitching false)).
(** The [chrome.runtime.onMessage] listener: the task it starts and the
    response that task sends. *)
Definition onMessage (message : Message.t) : Task Response :=
  tryCatch
    (if String.eqb (Message.action message) "switchProfile" then
       switchProfile (Message.profileId message)
         (match Message.clearCookies message with
          | Some false => false
          | _ => true
          end) >>
       ret Success
     else if String.eqb (Message.action message) "saveCurrentCookies" then
       api_saveCurrentProfileCookies CM >> ret Success
     else if String.eqb (Message.action message) "getActiveProfile" then
       let* profile := ConfigManager.getActiveProfile in
       ret (SuccessProfile profile)
     else if String.eqb (Message.action message) "isPluginEnabled" then
       let* enabled := ConfigManager.isPluginEnabled in
       ret (SuccessEnabled enabled)
     else ret UnknownAction)
    (fun error => ret (Failed error)).

End WithCookieManager.
End ServiceWorker.

(* ===================================================================== *)
(** ** Vocabulary of the properties *)
(* ===================================================================== *)

(** The profile [getActiveProfile] resolves to when the host answers. *)
Definition activeProfileOf (w : World) : option Profile.t :=
  match activeProfileId w with
  | Some i =>
      if String.eqb i "" then None
      else List.find (fun p => String.eqb (Profile.id p) i) (profiles w)
  | None => None
  end.

(** The profile a switch to [profileId] looks up. *)
Definition profileById (profileId : string) (w : World) : option Profile.t :=
  List.find (fun p => String.eqb (Profile.id p) profileId) (profiles w).

(** A task is stable for a relation between worlds when every run, returning
    or throwing, ends in a world related to the one it started in. *)
Definition stable {A} (R : relation World) (m : Task A) : Prop :=
  forall w, R w (snd (m w)).

(** The run leaves a component of the world as it was. *)
Definition keeps {X} (f : World -> X) : relation World :=
  fun w w' => f w' = f w.

(** The run only adds host calls that satisfy [P] to the log. *)
Definition emits (P : Event -> Prop) : relation World :=
  fun w w' => exists evs, trace w' = trace w ++ evs /\ Forall P evs.

(** The run maintains a property of the stored cookie data. *)
Definition maintains (I : CookieData -> Prop) : relation World :=
  fun w w' => I (cookieData w) -> I (cookieData w').

(** When the host rejects nothing, the task returns and the host still
    rejects nothing afterwards. *)
Definition clean {A} (m : Task A) : Prop :=
  forall w, faults w = [] ->
            (exists a, fst (m w) = Returned a) /\ faults (snd (m w)) = [].

(** When the host rejects nothing, it still rejects nothing after the run,
    whether the run returns or throws. *)
Definition calm {A} (m : Task A) : Prop :=
  forall w, faults w = [] -> faults (snd (m w)) = [].

(** Everything but the log and the host's pending answers is unchanged. *)
Definition sameState (w w' : World) : Prop :=
  profiles w' = profiles w /\ activeProfileId w' = activeProfileId w /\
  pluginEnabled w' = pluginEnabled w /\ cookieData w' = cookieData w /\
  jar w' = jar w /\ isSwitchingProfile w' = isSwitchingProfile w.

(** Host calls that change the browser's cookies. *)
Definition isCookieWrite (e : Event) : Prop :=
  match e with
  | CookiesSet _ | CookiesRemove _ _ => True
  | _ => False
  end.

(** The events of each step of a switch. *)
Definition isSaveEvent (e : Event) : Prop :=
  match e with
  | StorageGet _ | StorageSet KCookieData | CookiesGetAll _ => True
  | _ => False
  end.

Definition isClearEvent (e : Event) : Prop :=
  match e with
  | StorageGet _ | CookiesGetAll None | CookiesRemove _ _ => True
  | _ => False
  end.

Definition isLoadEvent (e : Event) : Prop :=
  match e with
  | StorageGet KCookieData | CookiesSet _ => True
  | _ => False
  end.

(** The two storage calls of the pointer step. *)
Definition isPointerEvent (e : Event) : Prop :=
  match e with
  | StorageGet KProfiles | StorageSet KActiveProfileId => True
  | _ => False
  end.

(** Identity of a record inside a bucket: the pair (name, path). *)
Definition recordKey (c : Cookie) : string * string := (name c, path c).

(** [c.name === cookie.name && c.path === cookie.path] as a boolean. *)
Definition sameKey (cookie c : Cookie) : bool :=
  String.eqb (name c) (name cookie) && String.eqb (path c) (path cookie).

Definition bucketUnique (records : list Cookie) : Prop :=
  NoDup (recordKey <$> records).

(** No bucket of any profile holds two records with the same (name, path). *)
Definition snapshotUnique (cd : CookieData) : Prop :=
  forall profileId snap key records,
    cd !! profileId = Some snap -> snap !! key = Some records ->
    bucketUnique records.

(** Every domain key is the stripped domain of some record under it. *)
Definition keysFromCookies (cd : CookieData) : Prop :=
  forall profileId snap key records,
    cd !! profileId = Some snap -> snap !! key = Some records ->
    exists r, r ∈ records /\ stripLeadingDot (domain r) = key.

(** Every bucket is non-empty and holds only records whose stripped domain
    is the bucket's key. *)
Definition ownDomainBucket (key : string) (records : list Cookie) : Prop :=
  records <> [] /\ Forall (fun r => stripLeadingDot (domain r) = key) records.

Definition bucketsByOwnDomain (cd : CookieData) : Prop :=
  forall profileId snap key records,
    cd !! profileId = Some snap -> snap !! key = Some records ->
    ownDomainBucket key records.

(** The call [clearAllCookies] issues to remove a cookie. *)
Definition removeCall (c : Cookie) : Event :=
  CookiesRemove (cookieUrl c) (name c).

(** The cookies a matcher does not find among the excluded domains. *)
Definition notExcluded (matcher : string -> string -> bool)
    (excludeDomains : list string) (cookies : list Cookie) : list Cookie :=
  List.filter
    (fun c => negb (existsb (fun d => matcher (domain c) d) excludeDomains))
    cookies.

(** The body of the loop of [clearAllCookies], for either matcher. *)
Definition clearOne (B : Browser) (matcher : string -> string -> bool)
    (excludeDomains : list string) (cookie : Cookie) : Task unit :=
  if existsb (fun d => matcher (domain cookie) d) excludeDomains
  then ret tt
  else tryCatch (cookies_remove B (cookieUrl cookie) (name cookie))
                (fun error => ret tt).

(** The pointer as [getActiveProfileId] reads it: an empty id is [null]. *)
Definition activeIdOf (w : World) : option string :=
  match activeProfileId w with
  | Some i => if String.eqb i "" then None else Some i
  | None => None
  end.

(** The pointer, when set, names a stored profile. *)
Definition pointerValid (w : World) : Prop :=
  forall i, activeIdOf w = Some i -> exists p, profileById i w = Some p.

(** The bucket stored for a profile and a domain key, if any. *)
Definition bucketAt (profileId key : string) (cd : CookieData)
  : option (list Cookie) :=
  cd !! profileId ≫= fun snap => snap !! key.

(** The call [loadCookies] issues to restore a record. *)
Definition setCall (c : Cookie) : Event := CookiesSet (cookieDetails c).

(** The records of a snapshot in the order [loadCookies] visits them:
    bucket after bucket as the host lists them, each in its own order. *)
Definition storedRecords (B : Browser) (snap : Snapshot) : list Cookie :=
  concat (snd <$> entries B snap).

(** [o[key]] finds no bucket of the object's own, but an inherited
    property: the [push] or [findIndex] on it throws. *)
Definition readsInherited (key : string) (o : Snapshot) : bool :=
  match o !! key with
  | Some _ => false
  | None => Js.inheritedName key
  end.

(** A cookie whose own domain names an inherited property. *)
Definition inheritedDomain (cookie : Cookie) : bool :=
  Js.inheritedName (stripLeadingDot (domain cookie)).

(** What [pushRecord], [groupByDomain], [appendMatched] and [upsertInto]
    produce when no lookup finds an inherited property. *)
Definition pushed (key : string) (record : Cookie) (o : Snapshot) : Snapshot :=
  <[key := bucketOf key o ++ [record]]> o.

Definition grouped (allCookies : list Cookie) : Snapshot :=
  foldl (fun o c => pushed (stripLeadingDot (domain c)) (cookieRecord c) o)
        ∅ allCookies.

Definition appended (profileId : string) (matchedCookies : list Cookie)
    (cd : CookieData) : CookieData :=
  foldl (fun cd c =>
           <[profileId := pushed (stripLeadingDot (domain c)) (cookieRecord c)
                                 (profileCookiesOf profileId cd)]> cd)
        cd matchedCookies.

Definition upserted (profileId key : string) (cookie : Cookie)
    (cd : CookieData) : CookieData :=
  <[profileId :=
      <[key := upsertRecord cookie
                 (bucketOf key (profileCookiesOf profileId cd))]>
        (profileCookiesOf profileId cd)]> cd.

(** The cookies the wildcard branch matches for a pattern, whether pushing
    them throws, and what the branch leaves in the cookie data: nothing new
    when a push throws, since the error is caught before the write. *)
Definition matchedBy (pattern : string) (cookies : list Cookie) : list Cookie :=
  List.filter (CookieManagerSw.underBase (Js.substring 2 pattern)) cookies.

Definition patternThrows (profileId pattern : string) (cookies : list Cookie)
    (cd : CookieData) : bool :=
  existsb (fun c => readsInherited (stripLeadingDot (domain c))
                                   (profileCookiesOf profileId cd))
          (matchedBy pattern cookies).

Definition afterPattern (profileId : string) (cookies : list Cookie)
    (cd : CookieData) (pattern : string) : CookieData :=
  if patternThrows profileId pattern cookies cd then cd
  else appended profileId (matchedBy pattern cookies) (initProfile profileId cd).

(** The service-worker bulk save of the active profile throws the
    TypeError: the profile has no configured domains and a live cookie's own
    domain names an inherited property. *)
Definition saveAllThrows (w : World) : bool :=
  match activeProfileOf w with
  | Some p =>
      match Profile.domains p with
      | None | Some [] => existsb inheritedDomain (jar w)
      | Some _ => false
      end
  | None => false
  end.

(** The body of the inner loop of [loadCookies] and the body of its outer
    loop. *)
Definition restoreOne (B : Browser) (cookie : Cookie) : Task unit :=
  tryCatch (cookies_set B (cookieDetails cookie)) (fun error => ret tt).

Definition restoreBucket (B : Browser) (entry : string * list Cookie)
  : Task unit :=
  forEach (snd entry) (restoreOne B).

(** The storage keys and the guard flag are unchanged; the live cookies,
    the log and the host's pending answers may differ. *)
Definition sameStorage (w w' : World) : Prop :=
  profiles w' = profiles w /\ activeProfileId w' = activeProfileId w /\
  pluginEnabled w' = pluginEnabled w /\ cookieData w' = cookieData w /\
  isSwitchingProfile w' = isSwitchingProfile w.

(** Everything but the cookie data, the log and the host's pending answers
    is unchanged. *)
Definition sameButCookieData (w w' : World) : Prop :=
  profiles w' = profiles w /\ activeProfileId w' = activeProfileId w /\
  pluginEnabled w' = pluginEnabled w /\ jar w' = jar w /\
  isSwitchingProfile w' = isSwitchingProfile w.

(** Everything but the profile list and the pointer is unchanged. *)
Definition sameButProfiles (w w' : World) : Prop :=
  pluginEnabled w' = pluginEnabled w /\ cookieData w' = cookieData w /\
  jar w' = jar w /\ isSwitchingProfile w' = isSwitchingProfile w.

(** Host calls that write to storage. *)
Definition isStorageWrite (e : Event) : Prop :=
  match e with
  | StorageSet _ => True
  | _ => False
  end.

(** A run that writes the cookie data at most once, as its last step: when
    it returns only the cookie data may have changed, and when it throws
    nothing has. *)
Definition allOrNothing {A} (m : Task A) : Prop :=
  forall w,
    match fst (m w) with
    | Returned _ => sameButCookieData w (snd (m w))
    | Thrown _ => sameState w (snd (m w))
    end.

(** Host calls other than storage writes and cookie sets. *)
Definition noStorageWriteNoSet (e : Event) : Prop :=
  match e with
  | StorageSet _ | CookiesSet _ => False
  | _ => True
  end.

(** The loop of the service-worker [saveCurrentProfileCookies] over the
    configured domains of a profile. *)
Abbreviation swDomainsLoop B profileId ds :=
  (forEach ds
     (fun domain =>
        if Js.startsWith domain "*." then
          tryCatch
            (let* allCookies := cookies_getAll B None in
             let* cookieData := getCookieData in
             match CookieManagerSw.appendMatched profileId
                     (List.filter
                        (CookieManagerSw.underBase (Js.substring 2 domain))
                        allCookies)
                     (initProfile profileId cookieData) with
             | Some cookieData => saveCookieData cookieData
             | None => throw TypeError
             end)
            (fun error => ret tt)
        else CookieManagerSw.saveCookies B profileId domain)).

(** The order of two entries of an object by their keys. *)
Definition keyLe (x y : string * list Cookie) : Prop :=
  Is_true (String.leb (fst x) (fst y)).

(** A browser for the examples: [getAll({domain})] retains the cookies of the
    domain and of its subdomains, [set] adds the described cookie to the jar
    and [remove] drops the cookies of that name whose URL is the given one;
    an object read from storage lists its keys in ascending order. *)
Definition sampleBrowser : Browser :=
  {| domainFilter := fun d c => CookieManagerSw.isDomainMatch (domain c) d;
     jarSet := fun d j =>
       j ++ [mkCookie (Details.name d) (Details.value d) "" (Details.path d)
                      (Details.secure d) (Details.httpOnly d)
                      (Details.sameSite d) (Details.expirationDate d) "0"];
     jarRemove := fun url n j =>
       List.filter (fun c => negb (String.eqb (name c) n
                                   && String.eqb (cookieUrl c) url)) j;
     entries := fun snap => merge_sort keyLe (map_to_list snap);
     entries_all := fun snap => merge_sort_Permutation keyLe (map_to_list snap) |}.

Definition sampleCookie (n d v : string) : Cookie :=
  mkCookie n v d "/" false false "lax" None "0".

(** A world with a quiet host, an empty log and the guard flag clear. *)
Definition sampleWorld (ps : list Profile.t) (active : option string)
    (cd : CookieData) (cookies : list Cookie) : World :=
  mkWorld ps active None cd cookies false [] [].

Definition workProfile (ds : option (list string)) : Profile.t :=
  Profile.mk "p-work" "Work" ds true 0.

Definition homeProfile (ds : option (list string)) : Profile.t :=
  Profile.mk "p-home" "Personal" ds true 0.

(* ===================================================================== *)
(** * Properties *)
(* ===================================================================== *)

(** ** Strings *)

Module JsFacts.

Lemma length_append (p t : string) :
  String.length (p +:+ t) = String.length p + String.length t.
Proof. induction p as [|a p IH]; simpl; [reflexivity | now rewrite IH]. Qed.

Lemma substring_append (p t : string) :
  Js.substring (String.length p) (p +:+ t) = t.
Proof. induction p as [|a p IH]; simpl; [reflexivity | exact IH]. Qed.

(** Cutting a string at an index inside it. *)
Lemma substring_split (n : nat) (s : string) :
  n <= String.length s ->
  exists p, s = p +:+ Js.substring n s.
Proof.
  revert s. induction n as [|n IH]; intros s Hn.
  - exists "". reflexivity.
  - destruct s as [|a s]; simpl in Hn; [lia|].
    destruct (IH s) as [p Hp]; [lia|].
    exists (String a p).
    change (String a s = String a (p +:+ Js.substring n s)). now f_equal.
Qed.

Lemma endsWith_true_iff (s t : string) :
  Js.endsWith s t = true <-> exists p, s = p +:+ t.
Proof.
  unfold Js.endsWith. split.
  - destruct (Nat.leb_spec (String.length t) (String.length s)) as [Hle|Hlt];
      [|discriminate].
    intros Heq. apply String.eqb_eq in Heq.
    destruct (substring_split (String.length s - String.length t) s) as [p Hp];
      [lia|].
    exists p. now rewrite Heq in Hp.
  - intros [p ->]. rewrite length_append.
    replace (String.length t <=? String.length p + String.length t)%nat
      with true by (symmetry; apply Nat.leb_le; lia).
    replace (String.length p + String.length t - String.length t)
      with (String.length p) by lia.
    rewrite substring_append. apply String.eqb_refl.
Qed.

Lemma endsWith_empty_l (t : string) :
  Js.endsWith "" ("." +:+ t) = false.
Proof. reflexivity. Qed.

Lemma startsWith_cons (a b : ascii) (s pre : string) :
  Js.startsWith (String a s) (String b pre)
  = Ascii.eqb a b && Js.startsWith s pre.
Proof.
  unfold Js.startsWith. simpl.
  destruct (ascii_dec b a) as [->|Hne].
  - now rewrite Ascii.eqb_refl.
  - destruct (Ascii.eqb_spec a b) as [->|_]; [contradiction | reflexivity].
Qed.

Lemma startsWith_empty (s : string) : Js.startsWith s "" = true.
Proof. unfold Js.startsWith. destruct s; reflexivity. Qed.

(** A string that starts with a two-character prefix and has nothing after
    it is that prefix. *)
Lemma two_char_prefix_only (a b : ascii) (s : string) :
  Js.startsWith s (String a (String b "")) && String.eqb "" (Js.substring 2 s)
  = String.eqb s (String a (String b "")).
Proof.
  destruct s as [|x [|y r]]; try reflexivity.
  - rewrite startsWith_cons. simpl. destruct (Ascii.eqb x a); reflexivity.
  - rewrite !startsWith_cons, startsWith_empty. simpl.
    destruct (Ascii.eqb x a), (Ascii.eqb y b), r; reflexivity.
Qed.

Lemma stripLeadingDot_empty : stripLeadingDot "" = "".
Proof. reflexivity. Qed.

End JsFacts.

(** ** The domain matcher *)

Module MatcherFacts.
Import JsFacts.

(** Both matchers work on the inputs with one leading dot stripped. *)
Lemma es_isDomainMatch_unfold (c p : string) :
  CookieManager.isDomainMatch c p
  = String.eqb (stripLeadingDot c) (stripLeadingDot p)
    || Js.endsWith (stripLeadingDot c) ("." +:+ stripLeadingDot p).
Proof.
  unfold CookieManager.isDomainMatch. fold (stripLeadingDot c) (stripLeadingDot p).
  cbv zeta. destruct (String.eqb _ _); simpl; [reflexivity|].
  destruct (Js.endsWith _ _); reflexivity.
Qed.

Lemma sw_isDomainMatch_unfold (c p : string) :
  CookieManagerSw.isDomainMatch c p
  = String.eqb (stripLeadingDot c) (stripLeadingDot p)
    || Js.endsWith (stripLeadingDot c) ("." +:+ stripLeadingDot p)
    || (Js.startsWith (stripLeadingDot p) "*."
        && (String.eqb (stripLeadingDot c) (Js.substring 2 (stripLeadingDot p))
            || Js.endsWith (stripLeadingDot c)
                 ("." +:+ Js.substring 2 (stripLeadingDot p)))).
Proof.
  unfold CookieManagerSw.isDomainMatch. fold (stripLeadingDot c) (stripLeadingDot p).
  cbv zeta. destruct (String.eqb (stripLeadingDot c) (stripLeadingDot p));
    simpl; [reflexivity|].
  destruct (Js.endsWith (stripLeadingDot c) ("." +:+ stripLeadingDot p));
    simpl; [reflexivity|].
  destruct (Js.startsWith (stripLeadingDot p) "*."); simpl; [|reflexivity].
  destruct (String.eqb _ _); simpl; [reflexivity|].
  destruct (Js.endsWith _ _); reflexivity.
Qed.

(** Whatever the ES-module matcher accepts, the service-worker one accepts. *)
Lemma es_match_implies_sw (c p : string) :
  CookieManager.isDomainMatch c p = true ->
  CookieManagerSw.isDomainMatch c p = true.
Proof.
  rewrite es_isDomainMatch_unfold, sw_isDomainMatch_unfold.
  intros ->. reflexivity.
Qed.

(** The wildcard rule on decomposed strings: any prefix followed by "." and
    the base matches "*." followed by the base. *)
Lemma sw_wildcard_subdomain (sub base : string) :
  Js.startsWith (sub +:+ "." +:+ base) "." = false ->
  CookieManagerSw.isDomainMatch (sub +:+ "." +:+ base) ("*." +:+ base) = true.
Proof.
  intros Hdot. rewrite sw_isDomainMatch_unfold.
  assert (Hc : stripLeadingDot (sub +:+ "." +:+ base) = sub +:+ "." +:+ base)
    by (unfold stripLeadingDot; now rewrite Hdot).
  rewrite Hc. change (stripLeadingDot ("*." +:+ base)) with ("*." +:+ base).
  change (Js.startsWith ("*." +:+ base) "*.") with (Js.startsWith base "").
  rewrite startsWith_empty.
  change (Js.substring 2 ("*." +:+ base)) with base.
  replace (Js.endsWith (sub +:+ "." +:+ base) ("." +:+ base)) with true.
  - simpl. now rewrite !orb_true_r.
  - symmetry. apply endsWith_true_iff. now exists sub.
Qed.

(** The subdomain rule on decomposed strings. *)
Lemma es_subdomain (sub base : string) :
  Js.startsWith (sub +:+ "." +:+ base) "." = false ->
  Js.startsWith base "." = false ->
  CookieManager.isDomainMatch (sub +:+ "." +:+ base) base = true.
Proof.
  intros Hdot Hbase. rewrite es_isDomainMatch_unfold.
  unfold stripLeadingDot. rewrite Hdot, Hbase.
  replace (Js.endsWith (sub +:+ "." +:+ base) ("." +:+ base)) with true.
  - now rewrite orb_true_r.
  - symmetry. apply endsWith_true_iff. now exists sub.
Qed.

Example sw_match_subdomain :
  CookieManagerSw.isDomainMatch "sub.example.com" "example.com" = true.
Proof. reflexivity. Qed.

Example sw_match_other :
  CookieManagerSw.isDomainMatch "other.com" "example.com" = false.
Proof. reflexivity. Qed.

Example sw_match_leading_dot :
  CookieManagerSw.isDomainMatch ".example.com" "example.com" = true.
Proof. reflexivity. Qed.

End MatcherFacts.

(** C1 (service-worker variant).  When the pattern, with one leading dot
    stripped, starts with "*.", [CookieManagerSw.isDomainMatch] returns true
    as soon as the cookie domain, with one leading dot stripped, equals the
    pattern's base (the pattern without "*.") or ends with "." followed by
    that base. *)
Theorem C1_sw_wildcard_rule (cookieDomain pattern : string) :
  Js.startsWith (stripLeadingDot pattern) "*." = true ->
  stripLeadingDot cookieDomain = Js.substring 2 (stripLeadingDot pattern)
  \/ Js.endsWith (stripLeadingDot cookieDomain)
       ("." +:+ Js.substring 2 (stripLeadingDot pattern)) = true ->
  CookieManagerSw.isDomainMatch cookieDomain pattern = true.
Proof.
  intros Hstar Hbase. rewrite MatcherFacts.sw_isDomainMatch_unfold, Hstar.
  destruct Hbase as [Heq | Hends].
  - rewrite Heq, String.eqb_refl. simpl. now rewrite orb_true_r.
  - rewrite Hends. simpl. now rewrite !orb_true_r.
Qed.

(** The instance named by C1: "example.com" against "*.example.com". *)
Lemma C1_sw_wildcard_rule_witness :
  CookieManagerSw.isDomainMatch "example.com" "*.example.com" = true.
Proof.
  apply (C1_sw_wildcard_rule "example.com" "*.example.com").
  - reflexivity.
  - left. reflexivity.
Defined.

(** C1 fails for the ES-module matcher, which has no wildcard rule: the
    pattern starts with "*.", the cookie domain equals its base, and the
    answer is false. *)
Lemma C1_es_counterexample :
  Js.startsWith (stripLeadingDot "*.example.com") "*." = true
  /\ stripLeadingDot "example.com" = Js.substring 2 (stripLeadingDot "*.example.com")
  /\ CookieManager.isDomainMatch "example.com" "*.example.com" = false.
Proof. repeat split. Qed.

(** C9, amended.  When at least one input is the empty string, the
    service-worker matcher returns true exactly when the two inputs are
    equal once a leading dot is stripped (both empty, or one empty and the
    other a lone "."), or the pattern is empty and the stripped cookie
    domain ends with ".", or the cookie domain is empty and the stripped
    pattern is "*."; the ES-module matcher exactly in the first two cases. *)
Theorem C9_empty_inputs (cookieDomain pattern : string) :
  cookieDomain = "" \/ pattern = "" ->
  CookieManagerSw.isDomainMatch cookieDomain pattern
  = String.eqb (stripLeadingDot cookieDomain) (stripLeadingDot pattern)
    || (String.eqb pattern "" && Js.endsWith (stripLeadingDot cookieDomain) ".")
    || (String.eqb cookieDomain "" && String.eqb (stripLeadingDot pattern) "*.")
  /\ CookieManager.isDomainMatch cookieDomain pattern
  = String.eqb (stripLeadingDot cookieDomain) (stripLeadingDot pattern)
    || (String.eqb pattern "" && Js.endsWith (stripLeadingDot cookieDomain) ".").
Proof.
  rewrite MatcherFacts.sw_isDomainMatch_unfold, MatcherFacts.es_isDomainMatch_unfold.
  intros [-> | ->].
  - rewrite JsFacts.stripLeadingDot_empty, !JsFacts.endsWith_empty_l.
    change (Js.endsWith "" ".") with false.
    rewrite andb_false_r, !orb_false_r. simpl (String.eqb "" "").
    rewrite andb_true_l. split; [|reflexivity].
    f_equal. apply JsFacts.two_char_prefix_only.
  - rewrite JsFacts.stripLeadingDot_empty. simpl.
    rewrite andb_false_r, !orb_false_r. split; reflexivity.
Qed.

(** With an empty cookie domain and an ordinary pattern the answer is false. *)
Lemma C9_empty_inputs_witness :
  CookieManagerSw.isDomainMatch "" "example.com" = false
  /\ CookieManager.isDomainMatch "" "example.com" = false.
Proof.
  destruct (C9_empty_inputs "" "example.com" (or_introl eq_refl)) as [Hsw Hes].
  split; [rewrite Hsw | rewrite Hes]; reflexivity.
Defined.

(** C9 fails as stated: one input is empty, the other is not, and both
    matchers return true. *)
Lemma C9_counterexample :
  CookieManagerSw.isDomainMatch "" "." = true
  /\ CookieManager.isDomainMatch "" "." = true
  /\ CookieManagerSw.isDomainMatch "a." "" = true
  /\ CookieManager.isDomainMatch "a." "" = true
  /\ CookieManagerSw.isDomainMatch "" "*." = true.
Proof. repeat split. Qed.

(** C10, amended.  The service-worker matcher is the ES-module matcher
    extended with the wildcard rule: it accepts what the ES-module matcher
    accepts and, for a pattern that starts with "*." once a leading dot is
    stripped, also the base domain and whatever ends with "." and the base.
    On every other pattern the two return the same boolean. *)
Theorem C10_sw_extends_es (cookieDomain pattern : string) :
  CookieManagerSw.isDomainMatch cookieDomain pattern
  = CookieManager.isDomainMatch cookieDomain pattern
    || (Js.startsWith (stripLeadingDot pattern) "*."
        && (String.eqb (stripLeadingDot cookieDomain)
                       (Js.substring 2 (stripLeadingDot pattern))
            || Js.endsWith (stripLeadingDot cookieDomain)
                 ("." +:+ Js.substring 2 (stripLeadingDot pattern)))).
Proof.
  now rewrite MatcherFacts.sw_isDomainMatch_unfold,
              MatcherFacts.es_isDomainMatch_unfold.
Qed.

(** C10 fails as stated: the two matchers disagree on a wildcard pattern. *)
Lemma C10_counterexample :
  CookieManager.isDomainMatch "example.com" "*.example.com"
  <> CookieManagerSw.isDomainMatch "example.com" "*.example.com".
Proof. discriminate. Qed.

(** C2, amended.  The service-worker [isCookieInDomains] returns true when
    the pattern list is absent or empty and otherwise exactly when some
    pattern of the list matches the cookie's domain; the ES-module
    [isCookieInDomains] returns true exactly when the list is present and
    some pattern of it matches, so false for an absent or empty list. *)
Theorem C2_isCookieInDomains (cookie : Cookie) (patterns : option (list string)) :
  (CookieManagerSw.isCookieInDomains cookie patterns = true <->
   patterns = None \/ patterns = Some [] \/
   exists ds p, patterns = Some ds /\ In p ds /\
                CookieManagerSw.isDomainMatch (domain cookie) p = true)
  /\
  (CookieManager.isCookieInDomains cookie patterns = true <->
   exists ds p, patterns = Some ds /\ In p ds /\
                CookieManager.isDomainMatch (domain cookie) p = true).
Proof.
  split.
  - destruct patterns as [[|d ds]|].
    + split; auto.
    + unfold CookieManagerSw.isCookieInDomains. rewrite existsb_exists. split.
      * intros (p & Hin & Hp). right; right. now exists (d :: ds), p.
      * intros [H | [H | (ds' & p & H & Hin & Hp)]]; try discriminate.
        injection H as <-. now exists p.
    + split; auto.
  - destruct patterns as [[|d ds]|].
    + split; [discriminate|]. intros (ds' & p & H & Hin & _).
      injection H as <-. destruct Hin.
    + unfold CookieManager.isCookieInDomains. rewrite existsb_exists. split.
      * intros (p & Hin & Hp). now exists (d :: ds), p.
      * intros (ds' & p & H & Hin & Hp). injection H as <-. now exists p.
    + split; [discriminate|]. intros (ds' & p & H & _). discriminate.
Qed.

(** C2 fails for the ES-module variant: an absent and an empty pattern list
    both give false. *)
Lemma C2_es_counterexample :
  let cookie := mkCookie "sid" "1" "example.com" "/" false false "lax" None "0" in
  CookieManager.isCookieInDomains cookie None = false
  /\ CookieManager.isCookieInDomains cookie (Some []) = false.
Proof. split; reflexivity. Qed.

(* ===================================================================== *)
(** ** Reasoning about tasks *)
(* ===================================================================== *)

#[export] Instance keeps_preorder {X} (f : World -> X) : PreOrder (keeps f).
Proof.
  split.
  - intros w. reflexivity.
  - intros w1 w2 w3 H12 H23. unfold keeps in *. congruence.
Qed.

#[export] Instance emits_preorder (P : Event -> Prop) : PreOrder (emits P).
Proof.
  split.
  - intros w. exists []. split; [now rewrite app_nil_r | constructor].
  - intros w1 w2 w3 (e1 & H1 & F1) (e2 & H2 & F2).
    exists (e1 ++ e2). split.
    + now rewrite H2, H1, app_assoc.
    + apply Forall_app. now split.
Qed.

#[export] Instance maintains_preorder (I : CookieData -> Prop) :
  PreOrder (maintains I).
Proof.
  split.
  - intros w H. exact H.
  - intros w1 w2 w3 H12 H23 H. apply H23, H12, H.
Qed.

#[export] Instance sameState_preorder : PreOrder sameState.
Proof.
  split.
  - intros w. repeat split.
  - intros w1 w2 w3 (?&?&?&?&?&?) (?&?&?&?&?&?).
    repeat split; congruence.
Qed.

Lemma emits_logCall (P : Event -> Prop) (e : Event) (w : World) :
  P e -> emits P w (logCall e w).
Proof. intros He. exists [e]. split; [reflexivity | now constructor]. Qed.

Lemma emits_same_trace (P : Event -> Prop) (w w' : World) :
  trace w' = trace w -> emits P w w'.
Proof. intros H. exists []. split; [now rewrite app_nil_r | constructor]. Qed.

Lemma emits_weaken (P Q : Event -> Prop) (w w' : World) :
  (forall e, P e -> Q e) -> emits P w w' -> emits Q w w'.
Proof.
  intros HPQ (evs & Ht & HF). exists evs. split; [exact Ht|].
  eapply Forall_impl; [exact HF | exact HPQ].
Qed.

(** Closes the goals the walker leaves at a host call or a write when the
    relation is [emits P]: [tac] shows that the logged call satisfies [P]. *)
Ltac emits_leaf tac :=
  intros;
  first [ apply emits_same_trace; reflexivity
        | apply emits_logCall; tac ].

Section Stable.
Context (R : relation World) `{!PreOrder R}.

Lemma stable_ret {A} (a : A) : stable R (ret a).
Proof. intros w. reflexivity. Qed.

Lemma stable_throw {A} (e : Error) : stable R (@throw A e).
Proof. intros w. reflexivity. Qed.

Lemma stable_gets {A} (f : World -> A) : stable R (gets f).
Proof. intros w. reflexivity. Qed.

Lemma stable_bind {A C} (m : Task A) (k : A -> Task C) :
  stable R m -> (forall a, stable R (k a)) -> stable R (bind m k).
Proof.
  intros Hm Hk w. unfold bind. specialize (Hm w).
  destruct (m w) as [[a|e] w']; simpl in *.
  - transitivity w'; [exact Hm | apply Hk].
  - exact Hm.
Qed.

Lemma stable_tryCatch {A} (m : Task A) (h : Error -> Task A) :
  stable R m -> (forall e, stable R (h e)) -> stable R (tryCatch m h).
Proof.
  intros Hm Hh w. unfold tryCatch. specialize (Hm w).
  destruct (m w) as [[a|e] w']; simpl in *.
  - exact Hm.
  - transitivity w'; [exact Hm | apply Hh].
Qed.

Lemma stable_tryFinally {A} (m : Task A) (fin : Task unit) :
  stable R m -> stable R fin -> stable R (tryFinally m fin).
Proof.
  intros Hm Hf w. unfold tryFinally. specialize (Hm w).
  destruct (m w) as [r w']. specialize (Hf w').
  destruct (fin w') as [[u|e] w'']; simpl in *; now transitivity w'.
Qed.

Lemma stable_forEach {A} (xs : list A) (f : A -> Task unit) :
  (forall x, stable R (f x)) -> stable R (forEach xs f).
Proof.
  intros Hf. induction xs as [|x xs IH]; simpl.
  - apply stable_ret.
  - apply stable_bind; [apply Hf | intros _; exact IH].
Qed.

(** One host call: accepted or rejected, it is only logged. *)
Lemma stable_host (e : Event) :
  (forall w, R w (logCall e w)) -> stable R (host e).
Proof.
  intros He w. unfold host. destruct (faults w) as [|[|] fs]; simpl; apply He.
Qed.

Lemma stable_modify (f : World -> World) :
  (forall w, R w (f w)) -> stable R (modify f).
Proof. intros Hf w. apply Hf. Qed.

End Stable.

(** Walks through the structure of a task; [leaf] closes the host calls. *)
Ltac stable_walk leaf :=
  repeat match goal with
    | |- PreOrder _ => typeclasses eauto
    | |- stable _ (ret _) => apply stable_ret
    | |- stable _ (throw _) => apply stable_throw
    | |- stable _ (gets _) => apply stable_gets
    | |- stable _ (host _) => apply stable_host; leaf
    | |- stable _ (modify _) => apply stable_modify; leaf
    | |- stable _ (bind _ _) => apply stable_bind; [ | | intros ?]
    | |- stable _ (tryCatch _ _) => apply stable_tryCatch; [ | | intros ?]
    | |- stable _ (tryFinally _ _) => apply stable_tryFinally
    | |- stable _ (forEach _ _) => apply stable_forEach; [ | intros ?]
    | |- stable _ (match ?x with _ => _ end) => destruct x
    | |- stable _ (let _ := _ in _) => cbv zeta
    end.

Ltac unfold_tasks :=
  unfold ConfigManager.getActiveProfile, ConfigManager.switchProfile;
  unfold ConfigManager.getActiveProfileId, ConfigManager.getProfiles,
    ConfigManager.isPluginEnabled, getCookieData, saveCookieData;
  unfold getStorage, setStorage, cookies_getAll, cookies_set, cookies_remove.

Section Clean.

Lemma clean_ret {A} (a : A) : clean (ret a).
Proof. intros w Hw. split; [now exists a | exact Hw]. Qed.

Lemma clean_gets {A} (f : World -> A) : clean (gets f).
Proof. intros w Hw. split; [now exists (f w) | exact Hw]. Qed.

Lemma clean_bind {A C} (m : Task A) (k : A -> Task C) :
  clean m -> (forall a, clean (k a)) -> clean (bind m k).
Proof.
  intros Hm Hk w Hw. unfold bind. destruct (Hm w Hw) as [[a Ha] Hf].
  destruct (m w) as [r w']; simpl in *. subst r. apply Hk, Hf.
Qed.

Lemma clean_tryCatch {A} (m : Task A) (h : Error -> Task A) :
  clean m -> clean (tryCatch m h).
Proof.
  intros Hm w Hw. unfold tryCatch. destruct (Hm w Hw) as [[a Ha] Hf].
  destruct (m w) as [r w']; simpl in *. subst r. split; [now exists a | exact Hf].
Qed.

Lemma clean_forEach {A} (xs : list A) (f : A -> Task unit) :
  (forall x, clean (f x)) -> clean (forEach xs f).
Proof.
  intros Hf. induction xs as [|x xs IH]; simpl.
  - apply clean_ret.
  - apply clean_bind; [apply Hf | intros _; exact IH].
Qed.

Lemma clean_host (e : Event) : clean (host e).
Proof.
  intros w Hw. unfold host. rewrite Hw. simpl.
  split; [eexists; reflexivity | now rewrite Hw].
Qed.

Lemma clean_modify (f : World -> World) :
  (forall w, faults (f w) = faults w) -> clean (modify f).
Proof.
  intros Hfa w Hw. unfold modify. simpl.
  split; [eexists; reflexivity | now rewrite Hfa].
Qed.

End Clean.

Ltac clean_walk :=
  repeat match goal with
    | |- clean (ret _) => apply clean_ret
    | |- clean (gets _) => apply clean_gets
    | |- clean (host _) => apply clean_host
    | |- clean (modify _) => apply clean_modify; intros ?; reflexivity
    | |- clean (bind _ _) => apply clean_bind; [ | intros ?]
    | |- clean (tryCatch _ _) => apply clean_tryCatch
    | |- clean (forEach _ _) => apply clean_forEach; intros ?
    | |- clean (match ?x with _ => _ end) => destruct x
    | |- clean (let _ := _ in _) => cbv zeta
    end.

(** From a clean task: on a quiet host the run returns [tt]. *)
Lemma clean_run (m : Task unit) (w : World) :
  clean m -> faults w = [] ->
  m w = (Returned tt, snd (m w)) /\ faults (snd (m w)) = [].
Proof.
  intros Hm Hw. destruct (Hm w Hw) as [[[] Ha] Hf].
  split; [|exact Hf]. destruct (m w) as [r w']; simpl in *. now subst r.
Qed.

Section Calm.

Lemma calm_ret {A} (a : A) : calm (ret a).
Proof. intros w Hw. exact Hw. Qed.

Lemma calm_throw {A} (e : Error) : calm (@throw A e).
Proof. intros w Hw. exact Hw. Qed.

Lemma calm_gets {A} (f : World -> A) : calm (gets f).
Proof. intros w Hw. exact Hw. Qed.

Lemma calm_bind {A C} (m : Task A) (k : A -> Task C) :
  calm m -> (forall a, calm (k a)) -> calm (bind m k).
Proof.
  intros Hm Hk w Hw. unfold bind. specialize (Hm w Hw).
  destruct (m w) as [[a|e] w']; simpl in *; [now apply Hk | exact Hm].
Qed.

Lemma calm_tryCatch {A} (m : Task A) (h : Error -> Task A) :
  calm m -> (forall e, calm (h e)) -> calm (tryCatch m h).
Proof.
  intros Hm Hh w Hw. unfold tryCatch. specialize (Hm w Hw).
  destruct (m w) as [[a|e] w']; simpl in *; [exact Hm | now apply Hh].
Qed.

Lemma calm_host (e : Event) : calm (host e).
Proof.
  intros w Hw. unfold host. rewrite Hw. simpl. now rewrite Hw.
Qed.

Lemma calm_modify (f : World -> World) :
  (forall w, faults (f w) = faults w) -> calm (modify f).
Proof. intros Hfa w Hw. unfold modify. simpl. now rewrite Hfa. Qed.

Lemma clean_calm {A} (m : Task A) : clean m -> calm m.
Proof. intros Hm w Hw. apply Hm, Hw. Qed.

(** A [try] whose [catch] only logs returns whatever happens inside. *)
Lemma clean_swallow (m : Task unit) :
  calm m -> clean (tryCatch m (fun error => ret tt)).
Proof.
  intros Hm w Hw. unfold tryCatch, ret. specialize (Hm w Hw).
  destruct (m w) as [[[]|e] w']; simpl in *; (split; [now exists tt | exact Hm]).
Qed.

Lemma swallow_returns (m : Task unit) (w : World) :
  fst (tryCatch m (fun error => ret tt) w) = Returned tt.
Proof. unfold tryCatch, ret. now destruct (m w) as [[[]|e] w']. Qed.

End Calm.

Ltac calm_walk :=
  repeat match goal with
    | |- calm (ret _) => apply calm_ret
    | |- calm (throw _) => apply calm_throw
    | |- calm (gets _) => apply calm_gets
    | |- calm (host _) => apply calm_host
    | |- calm (modify _) => apply calm_modify; intros ?; reflexivity
    | |- calm (bind _ _) => apply calm_bind; [ | intros ?]
    | |- calm (tryCatch _ _) => apply calm_tryCatch; [ | intros ?]
    | |- calm (match ?x with _ => _ end) => destruct x
    | |- calm (let _ := _ in _) => cbv zeta
    end.

(* ===================================================================== *)
(** ** The profile store *)
(* ===================================================================== *)

Module ConfigFacts.

Ltac same_leaf := intros; repeat split.

Lemma getActiveProfile_sameState : stable sameState ConfigManager.getActiveProfile.
Proof. unfold_tasks. stable_walk same_leaf. Qed.

Lemma getActiveProfile_clean : clean ConfigManager.getActiveProfile.
Proof. unfold_tasks. clean_walk. Qed.

(** Reading the active profile either returns [activeProfileOf] or throws
    because the host rejected a read. *)
Lemma getActiveProfile_result (w : World) :
  fst (ConfigManager.getActiveProfile w) = Returned (activeProfileOf w)
  \/ exists e, fst (ConfigManager.getActiveProfile w) = Thrown (HostError e).
Proof.
  unfold_tasks. unfold bind, host, gets, ret, activeProfileOf.
  destruct w as [ps aid pe cd j fl fs tr]; simpl.
  destruct fs as [|[|] fs]; simpl; eauto;
    (destruct aid as [i|]; simpl; eauto;
     destruct (String.eqb i ""); simpl; eauto;
     destruct fs as [|[|] fs']; simpl; eauto).
Qed.

Lemma getActiveProfile_emits :
  stable (emits (fun e => exists k, e = StorageGet k)) ConfigManager.getActiveProfile.
Proof.
  unfold_tasks.
  stable_walk ltac:(emits_leaf ltac:(eauto)).
Qed.

Lemma isPluginEnabled_sameState : stable sameState ConfigManager.isPluginEnabled.
Proof. unfold_tasks. stable_walk same_leaf. Qed.

(** Switching the pointer to a profile that is not stored throws and leaves
    the state as it was. *)
Lemma switchProfile_missing (profileId : string) (w : World) :
  profileById profileId w = None ->
  sameState w (snd (ConfigManager.switchProfile profileId w))
  /\ (faults w = [] ->
      ConfigManager.switchProfile profileId w
      = (Thrown ProfileNotFound, logCall (StorageGet KProfiles) w))
  /\ exists e, fst (ConfigManager.switchProfile profileId w) = Thrown e.
Proof.
  unfold profileById, ConfigManager.switchProfile, ConfigManager.getProfiles,
    getStorage, bind, host, gets, throw.
  intros Hnone. destruct (faults w) as [|[|] fs] eqn:Hf; simpl; rewrite ?Hnone;
    (split; [repeat split | split; [try discriminate; reflexivity | eauto]]).
Qed.

(** Switching the pointer to a stored profile on a quiet host. *)
Lemma switchProfile_found (profileId : string) (p : Profile.t) (w : World) :
  profileById profileId w = Some p -> faults w = [] ->
  ConfigManager.switchProfile profileId w
  = (Returned tt,
     setActiveProfileId (Some profileId)
       (logCall (StorageSet KActiveProfileId) (logCall (StorageGet KProfiles) w))).
Proof.
  unfold profileById, ConfigManager.switchProfile, ConfigManager.getProfiles,
    getStorage, setStorage, bind, host, gets, modify.
  destruct w as [ps aid pe cd j fl fs tr]; simpl. intros Hsome ->. simpl.
  now rewrite Hsome.
Qed.

(** The pointer step makes storage calls only. *)
Lemma switchProfile_no_cookie_write (profileId : string) :
  stable (emits (fun e => ~ isCookieWrite e))
         (ConfigManager.switchProfile profileId).
Proof.
  unfold_tasks. stable_walk ltac:(emits_leaf ltac:(simpl; tauto)).
Qed.

End ConfigFacts.

(* ===================================================================== *)
(** ** The switch guard *)
(* ===================================================================== *)

(** C4.  A [switchProfile] call made while the guard flag is set returns at
    once and leaves the world exactly as it was.  A call made while the flag
    is clear runs the steps with the flag set and, whether the steps return
    or throw, ends with the flag clear and with the very outcome of the
    steps (a thrown error is the one handed to the caller). *)
Theorem C4_switch_guard (CM : CookieManagerApi) (profileId : string)
    (clearCookies : bool) (w : World) :
  let out := ServiceWorker.switchProfile CM profileId clearCookies w in
  let steps := ServiceWorker.switchSteps CM profileId clearCookies
                 (setSwitching true w) in
  if isSwitchingProfile w
  then out = (Returned tt, w)
  else fst out = fst steps
       /\ snd out = setSwitching false (snd steps)
       /\ isSwitchingProfile (snd out) = false.
Proof.
  cbv zeta. unfold ServiceWorker.switchProfile, bind, gets, modify, tryFinally,
    tryCatch, throw.
  destruct (isSwitchingProfile w) eqn:Hflag; [reflexivity|]. cbv beta iota.
  destruct (ServiceWorker.switchSteps CM profileId clearCookies
              (setSwitching true w)) as [[[]|e] w']; simpl; auto.
Qed.

(* ===================================================================== *)
(** ** Clearing the live cookies *)
(* ===================================================================== *)

Module ClearFacts.
Section Loop.
Context (B : Browser) (matcher : string -> string -> bool)
        (excludeDomains : list string).

(** Whatever the host answers, the loop returns, and it has issued one
    removal per cookie that is not excluded, in the order of the list. *)
Lemma clear_loop (cookies : list Cookie) (w : World) :
  fst (forEach cookies (clearOne B matcher excludeDomains) w) = Returned tt
  /\ trace (snd (forEach cookies (clearOne B matcher excludeDomains) w))
     = trace w ++ (removeCall <$> notExcluded matcher excludeDomains cookies).
Proof.
  revert w. induction cookies as [|c cs IH]; intros w.
  - simpl. now rewrite app_nil_r.
  - cbn [forEach notExcluded List.filter].
    fold (notExcluded matcher excludeDomains cs).
    unfold bind.
    assert (Hone : exists w1,
      clearOne B matcher excludeDomains c w = (Returned tt, w1)
      /\ trace w1
         = trace w ++ (if existsb (fun d => matcher (domain c) d) excludeDomains
                       then [] else [removeCall c])).
    { unfold clearOne.
      destruct (existsb (fun d => matcher (domain c) d) excludeDomains).
      - exists w. split; [reflexivity | now rewrite app_nil_r].
      - unfold tryCatch, cookies_remove, bind, host, modify, ret.
        destruct (faults w) as [|[|] fs]; simpl; eexists; split; reflexivity. }
    destruct Hone as (w1 & -> & Ht1). destruct (IH w1) as [Hr Ht].
    split; [exact Hr|]. rewrite Ht, Ht1.
    destruct (existsb (fun d => matcher (domain c) d) excludeDomains); simpl.
    + now rewrite app_nil_r.
    + now rewrite <- app_assoc.
Qed.
End Loop.

(** The two variants of [clearAllCookies] are this task, each with its own
    matcher. *)
Lemma clearAll_run (B : Browser) (matcher : string -> string -> bool)
    (excludeDomains : list string) (w : World) :
  let m :=
    tryCatch
      (let* allCookies := cookies_getAll B None in
       forEach allCookies
         (fun cookie =>
            if existsb (fun d => matcher (domain cookie) d) excludeDomains
            then ret tt
            else tryCatch (cookies_remove B (cookieUrl cookie) (name cookie))
                          (fun error => ret tt)))
      (fun error => throw error) in
  hd false (faults w) = false ->
  fst (m w) = Returned tt
  /\ trace (snd (m w))
     = trace w ++ CookiesGetAll None
                  :: (removeCall <$> notExcluded matcher excludeDomains (jar w)).
Proof.
  cbv zeta. intros Hhd.
  match goal with |- (?m w).1 = _ /\ _ =>
    assert (Hrun : exists w2, m w = (Returned tt, w2) /\
      trace w2 = trace w ++ CookiesGetAll None
                  :: (removeCall <$> notExcluded matcher excludeDomains (jar w)))
  end.
  { unfold tryCatch at 1, bind at 1, cookies_getAll, bind at 1, host, gets.
    destruct (faults w) as [|[|] fs] eqn:Hf; try discriminate; cbv beta iota;
      match goal with
      | |- context [forEach ?cs ?f ?w1] =>
          change f with (clearOne B matcher excludeDomains);
          destruct (clear_loop B matcher excludeDomains cs w1) as [Hr Ht];
          destruct (forEach cs (clearOne B matcher excludeDomains) w1)
            as [r w2];
          simpl in Hr, Ht; subst r
      end; exists w2; (split; [reflexivity|]); rewrite Ht; simpl;
      now rewrite <- app_assoc. }
  destruct Hrun as (w2 & -> & Ht). now split.
Qed.

(** When the enumeration itself is rejected, nothing is removed. *)
Lemma clearAll_rejected (B : Browser) (excludeDomains : list string) (w : World) :
  hd false (faults w) = true ->
  CookieManagerSw.clearAllCookies B excludeDomains w
  = (Thrown (HostError (CookiesGetAll None)), logCall (CookiesGetAll None) w).
Proof.
  unfold CookieManagerSw.clearAllCookies, tryCatch, bind, cookies_getAll, bind,
    host, throw.
  destruct (faults w) as [|[|] fs]; simpl; try discriminate. reflexivity.
Qed.

(** With ["example.com"] excluded, a cookie is kept exactly when its domain,
    without a leading dot, is example.com or ends with ".example.com". *)
Lemma excluded_example_com (d : string) :
  existsb (fun p => CookieManagerSw.isDomainMatch d p) ["example.com"]
  = String.eqb (stripLeadingDot d) "example.com"
    || Js.endsWith (stripLeadingDot d) ".example.com".
Proof.
  simpl. rewrite orb_false_r, MatcherFacts.sw_isDomainMatch_unfold.
  change (stripLeadingDot "example.com") with "example.com".
  change (Js.startsWith "example.com" "*.") with false.
  simpl. now rewrite orb_false_r.
Qed.

End ClearFacts.

(** C8.  Once the browser has enumerated its cookies, [clearAllCookies]
    returns and the calls it has made are the enumeration followed by one
    removal for each live cookie whose domain matches no excluded pattern,
    in the order of the enumeration, and no other call: a cookie whose
    domain matches an excluded pattern is skipped.  This holds for both
    variants, each with its own [isDomainMatch]. *)
Theorem C8_clearAllCookies (B : Browser) (excludeDomains : list string)
    (w : World) :
  hd false (faults w) = false ->
  (fst (CookieManagerSw.clearAllCookies B excludeDomains w) = Returned tt
   /\ trace (snd (CookieManagerSw.clearAllCookies B excludeDomains w))
      = trace w ++ CookiesGetAll None
          :: (removeCall <$> notExcluded CookieManagerSw.isDomainMatch
                               excludeDomains (jar w)))
  /\
  (fst (CookieManager.clearAllCookies B excludeDomains w) = Returned tt
   /\ trace (snd (CookieManager.clearAllCookies B excludeDomains w))
      = trace w ++ CookiesGetAll None
          :: (removeCall <$> notExcluded CookieManager.isDomainMatch
                               excludeDomains (jar w))).
Proof.
  intros Hhd. split.
  - apply (ClearFacts.clearAll_run B CookieManagerSw.isDomainMatch), Hhd.
  - apply (ClearFacts.clearAll_run B CookieManager.isDomainMatch), Hhd.
Qed.

(** The instance named by C8: with ["example.com"] excluded, the cookies of
    example.com and of its subdomains stay and the other one is removed. *)
Lemma C8_clearAllCookies_witness :
  let w := sampleWorld [] None ∅
             [sampleCookie "sid" "example.com" "1";
              sampleCookie "sid" ".shop.example.com" "2";
              sampleCookie "tok" "other.com" "3"] in
  trace (snd (CookieManagerSw.clearAllCookies sampleBrowser ["example.com"] w))
  = [CookiesGetAll None; CookiesRemove "http://other.com/" "tok"]
  /\ trace (snd (CookieManager.clearAllCookies sampleBrowser ["example.com"] w))
  = [CookiesGetAll None; CookiesRemove "http://other.com/" "tok"].
Proof.
  intros w.
  destruct (C8_clearAllCookies sampleBrowser ["example.com"] w eq_refl)
    as [[_ Hsw] [_ Hes]].
  rewrite Hsw, Hes. split; reflexivity.
Defined.

(* ===================================================================== *)
(** ** Bulk save of the active profile's cookies *)
(* ===================================================================== *)

Module SaveFacts.

Lemma pushed_lookup (key k : string) (r : Cookie) (o : Snapshot) :
  pushed key r o !! k
  = if decide (key = k) then Some (bucketOf k o ++ [r]) else o !! k.
Proof.
  unfold pushed. destruct (decide (key = k)) as [->|Hne].
  - apply lookup_insert_eq.
  - now apply lookup_insert_ne.
Qed.

(** [pushRecord] throws exactly when the lookup finds an inherited
    property, and otherwise produces [pushed]. *)
Lemma pushRecord_spec (key : string) (r : Cookie) (o : Snapshot) :
  pushRecord key r o
  = if readsInherited key o then None else Some (pushed key r o).
Proof.
  unfold pushRecord, readsInherited, pushed, bucketOf.
  destruct (o !! key) as [bucket|]; [reflexivity|].
  now destruct (Js.inheritedName key).
Qed.

(** A push that does not throw creates no bucket under an inherited name
    that was not there. *)
Lemma readsInherited_pushed (key k : string) (r : Cookie) (o : Snapshot) :
  readsInherited key o = false ->
  readsInherited k (pushed key r o) = readsInherited k o.
Proof.
  unfold readsInherited. intros Hkey. rewrite pushed_lookup.
  destruct (decide (key = k)) as [<-|Hne]; [|reflexivity].
  destruct (o !! key); [reflexivity | now rewrite Hkey].
Qed.

Lemma existsb_same {A} (f g : A -> bool) (l : list A) :
  (forall x, f x = g x) -> existsb f l = existsb g l.
Proof.
  intros Hfg. induction l as [|x l IH]; [reflexivity|]. simpl.
  now rewrite Hfg, IH.
Qed.

Lemma fold_pushRecord_None (cs : list Cookie) :
  foldl (fun o c => o ≫= pushRecord (stripLeadingDot (domain c)) (cookieRecord c))
        None cs = None.
Proof. induction cs as [|c cs IH]; [reflexivity | exact IH]. Qed.

Lemma fold_pushRecord_spec (cs : list Cookie) (acc : Snapshot) :
  foldl (fun o c => o ≫= pushRecord (stripLeadingDot (domain c)) (cookieRecord c))
        (Some acc) cs
  = if existsb (fun c => readsInherited (stripLeadingDot (domain c)) acc) cs
    then None
    else Some (foldl (fun o c => pushed (stripLeadingDot (domain c))
                                        (cookieRecord c) o) acc cs).
Proof.
  revert acc. induction cs as [|c cs IH]; intros acc; [reflexivity|].
  cbn [foldl existsb mbind option_bind]. rewrite pushRecord_spec.
  destruct (readsInherited (stripLeadingDot (domain c)) acc) eqn:Hc.
  - apply fold_pushRecord_None.
  - rewrite IH. cbn [orb].
    replace (existsb _ cs)
      with (existsb (fun c0 => readsInherited (stripLeadingDot (domain c0)) acc) cs);
      [reflexivity|].
    apply existsb_same. intros c0. symmetry. now apply readsInherited_pushed.
Qed.

(** [groupByDomain] throws exactly when a cookie's own domain names an
    inherited property. *)
Lemma groupByDomain_spec (cs : list Cookie) :
  CookieManagerSw.groupByDomain cs
  = if existsb inheritedDomain cs then None else Some (grouped cs).
Proof.
  unfold CookieManagerSw.groupByDomain. rewrite fold_pushRecord_spec.
  unfold grouped. replace (existsb _ cs) with (existsb inheritedDomain cs);
    [reflexivity|].
  apply existsb_same. intros c. unfold readsInherited, inheritedDomain.
  now rewrite lookup_empty.
Qed.

(** Pushing the cookies of a list one by one, seen from one key. *)
Lemma push_all_lookup (cs : list Cookie) (acc : Snapshot) (k : string) :
  foldl (fun o c => pushed (stripLeadingDot (domain c)) (cookieRecord c) o)
        acc cs !! k
  = match List.filter (fun c => String.eqb (stripLeadingDot (domain c)) k) cs with
    | [] => acc !! k
    | l => Some (bucketOf k acc ++ (cookieRecord <$> l))
    end.
Proof.
  revert acc. induction cs as [|c cs IH]; intros acc; [reflexivity|].
  cbn [foldl List.filter]. rewrite IH.
  unfold bucketOf at 1. rewrite !pushed_lookup.
  destruct (String.eqb_spec (stripLeadingDot (domain c)) k) as [Heq|Hne].
  - rewrite decide_True by exact Heq. simpl.
    destruct (List.filter _ cs) as [|c' l]; [reflexivity|].
    now rewrite <- app_assoc.
  - rewrite decide_False by exact Hne. reflexivity.
Qed.

(** [grouped]: the bucket of a key holds the records of the cookies
    whose stripped domain is the key, in their order; keys without such a
    cookie are absent. *)
Lemma grouped_lookup (cs : list Cookie) (k : string) :
  grouped cs !! k
  = match List.filter (fun c => String.eqb (stripLeadingDot (domain c)) k) cs with
    | [] => None
    | l => Some (cookieRecord <$> l)
    end.
Proof.
  unfold grouped. rewrite push_all_lookup.
  now destruct (List.filter _ cs).
Qed.

Lemma fold_append_None (profileId : string) (cs : list Cookie) :
  foldl (fun cookieData cookie =>
           cookieData ≫= fun cookieData =>
           pushRecord (stripLeadingDot (domain cookie)) (cookieRecord cookie)
                      (profileCookiesOf profileId cookieData) ≫= fun o =>
           Some (<[profileId := o]> cookieData))
        None cs = None.
Proof. induction cs as [|c cs IH]; [reflexivity | exact IH]. Qed.

(** [appendMatched] throws exactly when a matched cookie's own domain reads
    as an inherited property of the profile's snapshot. *)
Lemma appendMatched_spec (profileId : string) (cs : list Cookie)
    (cd : CookieData) :
  CookieManagerSw.appendMatched profileId cs cd
  = if existsb (fun c => readsInherited (stripLeadingDot (domain c))
                                        (profileCookiesOf profileId cd)) cs
    then None
    else Some (appended profileId cs cd).
Proof.
  unfold CookieManagerSw.appendMatched, appended. revert cd.
  induction cs as [|c cs IH]; intros cd; [reflexivity|].
  cbn [foldl existsb mbind option_bind]. rewrite pushRecord_spec.
  destruct (readsInherited (stripLeadingDot (domain c))
              (profileCookiesOf profileId cd)) eqn:Hc.
  - apply fold_append_None.
  - cbn [orb mbind option_bind]. rewrite IH.
    replace (existsb _ cs)
      with (existsb (fun c0 => readsInherited (stripLeadingDot (domain c0))
                                 (profileCookiesOf profileId cd)) cs);
      [reflexivity|].
    apply existsb_same. intros c0. unfold profileCookiesOf at 2.
    rewrite lookup_insert_eq. simpl. symmetry. now apply readsInherited_pushed.
Qed.

Lemma insert_initProfile (profileId : string) (v : Snapshot) (cd : CookieData) :
  <[profileId := v]> (initProfile profileId cd) = <[profileId := v]> cd.
Proof.
  unfold initProfile. destruct (cd !! profileId); [reflexivity|].
  apply insert_insert_eq.
Qed.

Lemma activeProfileOf_inv (w : World) (p : Profile.t) :
  activeProfileOf w = Some p ->
  exists i, activeProfileId w = Some i /\ String.eqb i "" = false
            /\ List.find (fun q => String.eqb (Profile.id q) i) (profiles w) = Some p
            /\ Profile.id p = i.
Proof.
  unfold activeProfileOf. destruct (activeProfileId w) as [i|]; [|discriminate].
  destruct (String.eqb i "") eqn:Hi; [discriminate|]. intros Hfind.
  exists i. repeat split; try assumption.
  apply find_some in Hfind. now apply String.eqb_eq.
Qed.

(** On a quiet host, reading the active profile returns [activeProfileOf]
    and only extends the log. *)
Lemma getActiveProfile_quiet (w : World) :
  faults w = [] ->
  exists w', ConfigManager.getActiveProfile w = (Returned (activeProfileOf w), w')
             /\ sameState w w' /\ faults w' = [].
Proof.
  intros Hf. pose proof (ConfigFacts.getActiveProfile_sameState w) as Hs.
  destruct (ConfigFacts.getActiveProfile_clean w Hf) as [[a Ha] Hf'].
  destruct (ConfigFacts.getActiveProfile_result w) as [Hr | [e He]].
  - destruct (ConfigManager.getActiveProfile w) as [r w']; simpl in *.
    exists w'. rewrite Hr. split; [reflexivity | split; assumption].
  - rewrite He in Ha. discriminate.
Qed.

(** The service-worker bulk save for a profile without configured domains,
    when no live cookie's own domain names an inherited property. *)
Lemma sw_save_all_quiet (B : Browser) (w : World) (p : Profile.t) :
  faults w = [] -> activeProfileOf w = Some p ->
  Profile.domains p = None \/ Profile.domains p = Some [] ->
  existsb inheritedDomain (jar w) = false ->
  exists w',
    CookieManagerSw.saveCurrentProfileCookies B w = (Returned tt, w')
    /\ cookieData w'
       = <[Profile.id p := grouped (jar w)]> (cookieData w)
    /\ profiles w' = profiles w /\ activeProfileId w' = activeProfileId w
    /\ pluginEnabled w' = pluginEnabled w /\ jar w' = jar w
    /\ isSwitchingProfile w' = isSwitchingProfile w /\ faults w' = [].
Proof.
  intros Hf Hp Hd Hok. unfold CookieManagerSw.saveCurrentProfileCookies, bind at 1.
  destruct (getActiveProfile_quiet w Hf) as (w1 & -> & Hs & Hf1). rewrite Hp.
  destruct Hs as (Hps & Ha & Hpe & Hcd & Hj & Hfl).
  assert (Hrun : exists w',
    tryCatch
      (let* allCookies := cookies_getAll B None in
       let* cookieData := getCookieData in
       let cookieData := initProfile (Profile.id p) cookieData in
       match CookieManagerSw.groupByDomain allCookies with
       | Some cookiesByDomain =>
           let cookieData := <[Profile.id p := cookiesByDomain]> cookieData in
           saveCookieData cookieData
       | None => throw TypeError
       end) (fun error => throw error) w1
    = (Returned tt, w')
    /\ cookieData w'
       = <[Profile.id p := grouped (jar w)]> (cookieData w)
    /\ profiles w' = profiles w /\ activeProfileId w' = activeProfileId w
    /\ pluginEnabled w' = pluginEnabled w /\ jar w' = jar w
    /\ isSwitchingProfile w' = isSwitchingProfile w /\ faults w' = []).
  { destruct w1 as [ps aid pe cd j fl fs tr]; simpl in *. subst.
    unfold tryCatch, bind, cookies_getAll, getCookieData, getStorage, bind,
      host, gets. cbn [faults logCall tail jar cookieData].
    rewrite groupByDomain_spec, Hok. cbv zeta.
    eexists. split; [reflexivity|]. simpl.
    rewrite insert_initProfile. repeat split. }
  destruct Hrun as (w' & Hrun & Hrest).
  exists w'. split; [|exact Hrest].
  destruct Hd as [-> | ->]; exact Hrun.
Qed.

(** The same save when a live cookie's own domain names an inherited
    property: the two reads are made, the grouping throws, nothing is
    written. *)
Lemma sw_save_all_throws (B : Browser) (w : World) (p : Profile.t) :
  faults w = [] -> activeProfileOf w = Some p ->
  Profile.domains p = None \/ Profile.domains p = Some [] ->
  existsb inheritedDomain (jar w) = true ->
  exists w',
    CookieManagerSw.saveCurrentProfileCookies B w = (Thrown TypeError, w')
    /\ sameState w w' /\ faults w' = []
    /\ Forall (fun e => ~ isStorageWrite e /\ ~ isCookieWrite e)
              (drop (length (trace w)) (trace w')).
Proof.
  intros Hf Hp Hd Hbad. unfold CookieManagerSw.saveCurrentProfileCookies, bind at 1.
  destruct (getActiveProfile_quiet w Hf) as (w1 & Hrun1 & Hs & Hf1).
  pose proof (ConfigFacts.getActiveProfile_emits w) as Hev.
  rewrite Hrun1 in *. cbn [snd] in Hev. rewrite Hp.
  destruct Hs as (Hps & Ha & Hpe & Hcd & Hj & Hfl).
  destruct Hev as (evs & Ht & Hevs).
  assert (Hrun : exists w',
    tryCatch
      (let* allCookies := cookies_getAll B None in
       let* cookieData := getCookieData in
       let cookieData := initProfile (Profile.id p) cookieData in
       match CookieManagerSw.groupByDomain allCookies with
       | Some cookiesByDomain =>
           let cookieData := <[Profile.id p := cookiesByDomain]> cookieData in
           saveCookieData cookieData
       | None => throw TypeError
       end) (fun error => throw error) w1
    = (Thrown TypeError, w')
    /\ sameState w w' /\ faults w' = []
    /\ trace w' = trace w1 ++ [CookiesGetAll None; StorageGet KCookieData]).
  { destruct w1 as [ps aid pe cd j fl fs tr]; simpl in *. subst.
    unfold tryCatch, bind, cookies_getAll, getCookieData, getStorage, bind,
      host, gets, throw. cbn [faults logCall tail jar cookieData].
    rewrite groupByDomain_spec, Hbad.
    eexists. split; [reflexivity|]. simpl. split; [now repeat split|].
    split; [reflexivity|]. now rewrite <- app_assoc. }
  destruct Hrun as (w' & Hrun & Hsame & Hf' & Ht').
  exists w'. split; [destruct Hd as [-> | ->]; exact Hrun|].
  split; [exact Hsame|]. split; [exact Hf'|].
  rewrite Ht', Ht, <- app_assoc, drop_app_length.
  apply Forall_app. split.
  - eapply Forall_impl; [exact Hevs|]. intros e [k ->]. simpl. tauto.
  - repeat constructor; simpl; tauto.
Qed.

(** The ES-module bulk save returns without saving when there is no active
    profile or the active profile has no configured domains; so does the
    service-worker one when there is no active profile. *)
Lemma save_noop (B : Browser) (w : World) :
  (activeProfileOf w = None ->
   sameState w (snd (CookieManagerSw.saveCurrentProfileCookies B w)))
  /\ (forall p, activeProfileOf w = p ->
        match p with
        | None => True
        | Some q => Profile.domains q = None \/ Profile.domains q = Some []
        end ->
        sameState w (snd (CookieManager.saveCurrentProfileCookies B w))).
Proof.
  pose proof (ConfigFacts.getActiveProfile_sameState w) as Hs.
  pose proof (ConfigFacts.getActiveProfile_result w) as Hr.
  unfold CookieManagerSw.saveCurrentProfileCookies,
    CookieManager.saveCurrentProfileCookies, bind.
  destruct (ConfigManager.getActiveProfile w) as [r w1]; simpl in *.
  split.
  - intros Hnone. destruct Hr as [-> | [e ->]]; [rewrite Hnone|]; exact Hs.
  - intros p Hp Hd. destruct Hr as [-> | [e ->]]; [|exact Hs].
    rewrite Hp. destruct p as [q|]; [|exact Hs].
    destruct Hd as [-> | ->]; exact Hs.
Qed.

Lemma saveAllThrows_sameState (w w' : World) :
  sameState w w' -> saveAllThrows w = saveAllThrows w'.
Proof.
  intros (Hps & Ha & _ & _ & Hj & _). unfold saveAllThrows, activeProfileOf.
  now rewrite Hps, Ha, Hj.
Qed.

(** The loop of the service-worker bulk save over configured domains
    returns on a host that rejects nothing: the wildcard branch drops what
    it throws. *)
Lemma sw_domains_loop_clean (B : Browser) (profileId : string)
    (ds : list string) :
  clean (swDomainsLoop B profileId ds).
Proof.
  apply clean_forEach. intros d. destruct (Js.startsWith d "*.").
  - apply clean_swallow. unfold_tasks. calm_walk.
  - unfold CookieManagerSw.saveCookies. unfold_tasks. clean_walk.
Qed.

(** The service-worker bulk save on a host that rejects nothing. *)
Lemma sw_save_quiet (B : Browser) (w : World) :
  faults w = [] -> saveAllThrows w = false ->
  exists w',
    CookieManagerSw.saveCurrentProfileCookies B w = (Returned tt, w')
    /\ faults w' = [].
Proof.
  intros Hf Hok.
  destruct (activeProfileOf w) as [p|] eqn:Hp.
  - destruct (Profile.domains p) as [[|d ds]|] eqn:Hd.
    + unfold saveAllThrows in Hok. rewrite Hp, Hd in Hok.
      destruct (sw_save_all_quiet B w p Hf Hp (or_intror Hd) Hok)
        as (w' & Hrun & Hrest). exists w'. split; [exact Hrun | apply Hrest].
    + unfold CookieManagerSw.saveCurrentProfileCookies, bind at 1.
      destruct (getActiveProfile_quiet w Hf) as (w1 & -> & Hs & Hf1).
      rewrite Hp. cbv zeta. rewrite Hd.
      destruct (clean_run _ w1 (sw_domains_loop_clean B (Profile.id p) (d :: ds)) Hf1)
        as [Hrun Hf']. rewrite Hrun. eexists. split; [reflexivity | exact Hf'].
    + unfold saveAllThrows in Hok. rewrite Hp, Hd in Hok.
      destruct (sw_save_all_quiet B w p Hf Hp (or_introl Hd) Hok)
        as (w' & Hrun & Hrest). exists w'. split; [exact Hrun | apply Hrest].
  - unfold CookieManagerSw.saveCurrentProfileCookies, bind at 1.
    destruct (getActiveProfile_quiet w Hf) as (w1 & -> & Hs & Hf1).
    rewrite Hp. now exists w1.
Qed.

Lemma sw_save_throws (B : Browser) (w : World) :
  faults w = [] -> saveAllThrows w = true ->
  exists w',
    CookieManagerSw.saveCurrentProfileCookies B w = (Thrown TypeError, w')
    /\ sameState w w' /\ faults w' = [].
Proof.
  intros Hf Hbad. unfold saveAllThrows in Hbad.
  destruct (activeProfileOf w) as [p|] eqn:Hp; [|discriminate].
  destruct (Profile.domains p) as [[|d ds]|] eqn:Hd; try discriminate.
  - destruct (sw_save_all_throws B w p Hf Hp (or_intror Hd) Hbad)
      as (w' & Hrun & Hs & Hf' & _). now exists w'.
  - destruct (sw_save_all_throws B w p Hf Hp (or_introl Hd) Hbad)
      as (w' & Hrun & Hs & Hf' & _). now exists w'.
Qed.

End SaveFacts.

(** C5, amended.  With no active profile, [saveCurrentProfileCookies]
    changes nothing in either variant.  With an active profile that has no
    configured domains, a host that rejects nothing and no live cookie whose
    domain, leading dot stripped, is a property name every object inherits,
    the service-worker variant returns and replaces that profile's whole
    snapshot by the buckets of the live cookies: the key of a bucket is the
    cookie's domain without its leading dot, a bucket holds the records of
    all the live cookies with that stripped domain in their order, and the
    rest of the state is unchanged; the ES-module variant changes nothing
    then. *)
Theorem C5_saveCurrentProfileCookies (B : Browser) (w : World) :
  (activeProfileOf w = None ->
   sameState w (snd (CookieManagerSw.saveCurrentProfileCookies B w))
   /\ sameState w (snd (CookieManager.saveCurrentProfileCookies B w)))
  /\
  (forall p,
     activeProfileOf w = Some p ->
     Profile.domains p = None \/ Profile.domains p = Some [] ->
     faults w = [] ->
     existsb inheritedDomain (jar w) = false ->
     let w' := snd (CookieManagerSw.saveCurrentProfileCookies B w) in
     fst (CookieManagerSw.saveCurrentProfileCookies B w) = Returned tt
     /\ cookieData w'
        = <[Profile.id p := grouped (jar w)]> (cookieData w)
     /\ (forall k,
           grouped (jar w) !! k
           = match List.filter
                     (fun c => String.eqb (stripLeadingDot (domain c)) k) (jar w)
             with
             | [] => None
             | l => Some (cookieRecord <$> l)
             end)
     /\ profiles w' = profiles w /\ activeProfileId w' = activeProfileId w
     /\ pluginEnabled w' = pluginEnabled w /\ jar w' = jar w
     /\ isSwitchingProfile w' = isSwitchingProfile w
     /\ sameState w (snd (CookieManager.saveCurrentProfileCookies B w))).
Proof.
  destruct (SaveFacts.save_noop B w) as [Hsw Hes]. split.
  - intros Hnone. split; [now apply Hsw | now apply (Hes None)].
  - intros p Hp Hd Hf Hok. cbv zeta.
    destruct (SaveFacts.sw_save_all_quiet B w p Hf Hp Hd Hok)
      as (w' & -> & Hcd & Hps & Ha & Hpe & Hj & Hfl & _).
    simpl. repeat split; try assumption.
    + intros k. apply SaveFacts.grouped_lookup.
    + apply (Hes (Some p)); assumption.
    + apply (Hes (Some p)); assumption.
    + apply (Hes (Some p)); assumption.
    + apply (Hes (Some p)); assumption.
    + apply (Hes (Some p)); assumption.
    + apply (Hes (Some p)); assumption.
Qed.

(** The instance of C5 on a profile without domains and two live cookies. *)
Lemma C5_saveCurrentProfileCookies_witness :
  let w := sampleWorld [workProfile (Some [])] (Some "p-work") ∅
             [sampleCookie "sid" ".example.com" "1";
              sampleCookie "tok" "other.com" "2"] in
  cookieData (snd (CookieManagerSw.saveCurrentProfileCookies sampleBrowser w))
  = {[ "p-work" :=
         {[ "example.com" := [sampleCookie "sid" ".example.com" "1"];
            "other.com" := [sampleCookie "tok" "other.com" "2"] ]} ]}.
Proof.
  intros w.
  destruct (C5_saveCurrentProfileCookies sampleBrowser w) as [_ H].
  destruct (H (workProfile (Some [])) eq_refl (or_intror eq_refl) eq_refl
              eq_refl) as (_ & Hcd & _).
  rewrite Hcd. vm_compute. reflexivity.
Defined.

(** C5 fails for the ES-module variant: the active profile has no configured
    domains, there are live cookies, and the snapshot is left as it was
    instead of being replaced by their buckets. *)
Lemma C5_es_counterexample :
  let w := sampleWorld [workProfile (Some [])] (Some "p-work") ∅
             [sampleCookie "sid" ".example.com" "1";
              sampleCookie "tok" "other.com" "2"] in
  activeProfileOf w = Some (workProfile (Some []))
  /\ cookieData (snd (CookieManager.saveCurrentProfileCookies sampleBrowser w)) = ∅
  /\ <["p-work" := grouped (jar w)]> (cookieData w) <> ∅.
Proof.
  intros w. split; [reflexivity|]. split; [reflexivity|].
  apply insert_non_empty.
Qed.

(* ===================================================================== *)
(** ** The upsert inside a bucket *)
(* ===================================================================== *)

Module UpsertFacts.

Lemma cookieRecord_id (c : Cookie) : cookieRecord c = c.
Proof. now destruct c. Qed.

Lemma sameKey_true (cookie c : Cookie) :
  sameKey cookie c = true <-> name c = name cookie /\ path c = path cookie.
Proof.
  unfold sameKey. rewrite andb_true_iff, !String.eqb_eq. reflexivity.
Qed.

Lemma recordKey_eq (cookie c : Cookie) :
  recordKey c = recordKey cookie <-> name c = name cookie /\ path c = path cookie.
Proof.
  unfold recordKey. split; [intros [= -> ->] | intros [-> ->]]; auto.
Qed.

(** What [upsertRecord] does, by cases on [findIndex]. *)
Lemma upsertRecord_cases (cookie : Cookie) (bucket : list Cookie) :
  (exists i x, bucket !! i = Some x
               /\ recordKey x = recordKey cookie
               /\ (forall j y, bucket !! j = Some y -> j < i ->
                               recordKey y <> recordKey cookie)
               /\ upsertRecord cookie bucket = <[i := cookieRecord cookie]> bucket)
  \/ (Forall (fun x => recordKey x <> recordKey cookie) bucket
      /\ upsertRecord cookie bucket = bucket ++ [cookieRecord cookie]).
Proof.
  unfold upsertRecord.
  destruct (list_find _ bucket) as [[i x]|] eqn:Hfind; simpl.
  - left. apply list_find_Some in Hfind as (Hi & Hx & Hbefore).
    exists i, x. repeat split; try assumption.
    + now apply recordKey_eq.
    + intros j y Hj Hlt Hy. apply recordKey_eq in Hy. now apply (Hbefore j y).
  - right. apply list_find_None in Hfind. split; [|reflexivity].
    eapply Forall_impl; [exact Hfind|]. intros x Hx Hk. apply Hx.
    now apply recordKey_eq.
Qed.

Lemma recordKey_cookieRecord (c : Cookie) :
  recordKey (cookieRecord c) = recordKey c.
Proof. reflexivity. Qed.

(** The upsert keeps a bucket free of duplicate (name, path) pairs. *)
Lemma upsertRecord_unique (cookie : Cookie) (bucket : list Cookie) :
  bucketUnique bucket -> bucketUnique (upsertRecord cookie bucket).
Proof.
  unfold bucketUnique. intros Hnd.
  destruct (upsertRecord_cases cookie bucket)
    as [(i & x & Hi & Hx & _ & ->) | (Hnone & ->)].
  - rewrite list_fmap_insert, recordKey_cookieRecord, <- Hx.
    rewrite list_insert_id; [exact Hnd|]. now rewrite list_lookup_fmap, Hi.
  - rewrite fmap_app. apply NoDup_app. split; [exact Hnd|]. split.
    + intros k Hk Hin. apply list_elem_of_singleton in Hin. subst k.
      apply list_elem_of_fmap in Hk as (y & Hy & Hin).
      rewrite Forall_forall in Hnone. apply (Hnone y Hin). now symmetry.
    + apply NoDup_singleton.
Qed.

(** Upserting the same cookie a second time changes nothing. *)
Lemma upsertRecord_idem (cookie : Cookie) (bucket : list Cookie) :
  upsertRecord cookie (upsertRecord cookie bucket) = upsertRecord cookie bucket.
Proof.
  destruct (upsertRecord_cases cookie bucket)
    as [(i & x & Hi & Hx & Hbefore & ->) | (Hnone & ->)].
  - assert (Hlt : i < length bucket) by (eapply lookup_lt_Some; exact Hi).
    assert (Hfind : list_find (fun c => name c = name cookie ∧ path c = path cookie)
                      (<[i := cookieRecord cookie]> bucket)
                    = Some (i, cookieRecord cookie)).
    { apply list_find_Some. split; [now apply list_lookup_insert_eq|].
      split; [now split|]. intros j y Hj Hji Hy.
      rewrite list_lookup_insert_ne in Hj by lia.
      apply (Hbefore j y Hj Hji). now apply recordKey_eq. }
    unfold upsertRecord at 1. rewrite Hfind. simpl.
    apply list_insert_insert_eq.
  - assert (Hfind : list_find (fun c => name c = name cookie ∧ path c = path cookie)
                      (bucket ++ [cookieRecord cookie])
                    = Some (length bucket, cookieRecord cookie)).
    { apply list_find_Some. split.
      - rewrite lookup_app_r by lia. now rewrite Nat.sub_diag.
      - split; [now split|]. intros j y Hj Hlt Hy.
        rewrite lookup_app_l in Hj by exact Hlt.
        rewrite Forall_forall in Hnone.
        apply (Hnone y); [eapply list_elem_of_lookup_2; exact Hj|].
        now apply recordKey_eq. }
    unfold upsertRecord at 1. rewrite Hfind. simpl.
    rewrite insert_app_r_alt by lia. now rewrite Nat.sub_diag.
Qed.

Lemma upsertRecord_elem (cookie : Cookie) (bucket : list Cookie) :
  cookieRecord cookie ∈ upsertRecord cookie bucket.
Proof.
  destruct (upsertRecord_cases cookie bucket)
    as [(i & x & Hi & _ & _ & ->) | (_ & ->)].
  - eapply list_elem_of_lookup_2. apply list_lookup_insert_eq.
    eapply lookup_lt_Some. exact Hi.
  - apply elem_of_app. right. now apply list_elem_of_singleton.
Qed.

Lemma upsertRecord_Forall (Q : Cookie -> Prop) (cookie : Cookie)
    (bucket : list Cookie) :
  Forall Q bucket -> Q (cookieRecord cookie) ->
  Forall Q (upsertRecord cookie bucket).
Proof.
  intros Hall Hc.
  destruct (upsertRecord_cases cookie bucket)
    as [(i & x & _ & _ & _ & ->) | (_ & ->)].
  - now apply Forall_insert.
  - apply Forall_app. split; [exact Hall | now constructor].
Qed.

Lemma upsertRecord_nonempty (cookie : Cookie) (bucket : list Cookie) :
  upsertRecord cookie bucket <> [].
Proof.
  intros Hnil. pose proof (upsertRecord_elem cookie bucket) as Hin.
  rewrite Hnil in Hin. now apply not_elem_of_nil in Hin.
Qed.

(** In a bucket without duplicates, the records with a given record's
    (name, path) are that record alone. *)
Lemma unique_filter (cookie : Cookie) (bucket : list Cookie) :
  bucketUnique bucket -> cookie ∈ bucket ->
  List.filter (sameKey cookie) bucket = [cookie].
Proof.
  unfold bucketUnique. induction bucket as [|x l IH]; intros Hnd Hin.
  - now apply not_elem_of_nil in Hin.
  - rewrite fmap_cons in Hnd. apply NoDup_cons in Hnd as [Hx Hnd].
    cbn [List.filter]. apply elem_of_cons in Hin as [<- | Hin].
    + replace (sameKey cookie cookie) with true
        by (symmetry; now apply sameKey_true).
      f_equal. clear IH. induction l as [|y l IHl]; [reflexivity|].
      cbn [List.filter]. destruct (sameKey cookie y) eqn:Hy.
      * exfalso. apply Hx. rewrite fmap_cons. apply elem_of_cons. left.
        symmetry. apply recordKey_eq. now apply sameKey_true.
      * apply IHl.
        -- intros Hin. apply Hx. rewrite fmap_cons. apply elem_of_cons. now right.
        -- rewrite fmap_cons in Hnd. now apply NoDup_cons in Hnd as [_ ?].
    + destruct (sameKey cookie x) eqn:Hsame.
      * exfalso. apply Hx. apply list_elem_of_fmap. exists cookie.
        split; [|exact Hin]. apply recordKey_eq. now apply sameKey_true.
      * now apply IH.
Qed.

End UpsertFacts.

(* ===================================================================== *)
(** ** The incremental save *)
(* ===================================================================== *)

Module SnapshotFacts.
Import UpsertFacts.

(** [upserted] rewrites one bucket of one profile. *)
Lemma upserted_eq (profileId key : string) (cookie : Cookie) (cd : CookieData) :
  upserted profileId key cookie cd
  = <[profileId :=
        <[key := upsertRecord cookie
                   (bucketOf key (profileCookiesOf profileId cd))]>
          (profileCookiesOf profileId cd)]> cd.
Proof. reflexivity. Qed.

Lemma profileCookiesOf_initProfile (profileId : string) (cd : CookieData) :
  profileCookiesOf profileId (initProfile profileId cd)
  = profileCookiesOf profileId cd.
Proof.
  unfold profileCookiesOf, initProfile.
  destruct (cd !! profileId) eqn:Hp; [now rewrite Hp|].
  now rewrite lookup_insert_eq.
Qed.

(** [upsertInto] throws exactly when the bucket lookup finds an inherited
    property, and otherwise produces [upserted]. *)
Lemma upsertInto_spec (profileId key : string) (cookie : Cookie)
    (cd : CookieData) :
  upsertInto profileId key cookie cd
  = if readsInherited key (profileCookiesOf profileId cd) then None
    else Some (upserted profileId key cookie cd).
Proof.
  unfold upsertInto, readsInherited, upserted, bucketOf. cbv zeta.
  rewrite profileCookiesOf_initProfile.
  destruct (profileCookiesOf profileId cd !! key) as [bucket|]; simpl.
  - now rewrite SaveFacts.insert_initProfile.
  - destruct (Js.inheritedName key); [reflexivity|].
    now rewrite SaveFacts.insert_initProfile.
Qed.

Lemma upserted_lookup (profileId key : string) (cookie : Cookie)
    (cd : CookieData) (profileId' key' : string) (snap : Snapshot)
    (records : list Cookie) :
  upserted profileId key cookie cd !! profileId' = Some snap ->
  snap !! key' = Some records ->
  (profileId' = profileId /\ key' = key
   /\ records = upsertRecord cookie (bucketOf key (profileCookiesOf profileId cd)))
  \/ (exists snap0, cd !! profileId' = Some snap0 /\ snap0 !! key' = Some records).
Proof.
  rewrite upserted_eq. intros Hsnap Hrec.
  destruct (decide (profileId = profileId')) as [<-|Hne].
  - rewrite lookup_insert_eq in Hsnap. injection Hsnap as <-.
    destruct (decide (key = key')) as [<-|Hk].
    + rewrite lookup_insert_eq in Hrec. injection Hrec as <-. now left.
    + rewrite lookup_insert_ne in Hrec by exact Hk. right.
      unfold profileCookiesOf in Hrec.
      destruct (cd !! profileId) as [snap0|]; simpl in Hrec.
      * now exists snap0.
      * now rewrite lookup_empty in Hrec.
  - rewrite lookup_insert_ne in Hsnap by exact Hne. right. now exists snap.
Qed.

(** The bucket [upserted] starts from is a stored bucket or empty. *)
Lemma bucketOf_cases (profileId key : string) (cd : CookieData) :
  bucketOf key (profileCookiesOf profileId cd) = []
  \/ exists snap0, cd !! profileId = Some snap0
                   /\ snap0 !! key = Some (bucketOf key (profileCookiesOf profileId cd)).
Proof.
  unfold bucketOf, profileCookiesOf.
  destruct (cd !! profileId) as [snap0|]; simpl.
  - destruct (snap0 !! key) as [l|] eqn:Hk; simpl; [right | now left].
    exists snap0. now rewrite Hk.
  - rewrite lookup_empty. now left.
Qed.

Lemma upserted_unique (profileId key : string) (cookie : Cookie)
    (cd : CookieData) :
  snapshotUnique cd -> snapshotUnique (upserted profileId key cookie cd).
Proof.
  intros Hu pid' snap key' records Hsnap Hrec.
  destruct (upserted_lookup _ _ _ _ _ _ _ _ Hsnap Hrec)
    as [(_ & _ & ->) | (snap0 & H0 & Hk)].
  - apply upsertRecord_unique.
    destruct (bucketOf_cases profileId key cd) as [-> | (snap0 & H0 & Hk)].
    + apply NoDup_nil_2.
    + exact (Hu _ _ _ _ H0 Hk).
  - exact (Hu _ _ _ _ H0 Hk).
Qed.

Lemma upserted_idem (profileId key : string) (cookie : Cookie)
    (cd : CookieData) :
  upserted profileId key cookie (upserted profileId key cookie cd)
  = upserted profileId key cookie cd.
Proof.
  rewrite (upserted_eq _ _ _ cd).
  set (o := profileCookiesOf profileId cd).
  set (u := upsertRecord cookie (bucketOf key o)).
  rewrite upserted_eq.
  assert (Ho : profileCookiesOf profileId (<[profileId := <[key := u]> o]> cd)
               = <[key := u]> o).
  { unfold profileCookiesOf. now rewrite lookup_insert_eq. }
  rewrite Ho.
  assert (Hb : bucketOf key (<[key := u]> o) = u).
  { unfold bucketOf. now rewrite lookup_insert_eq. }
  rewrite Hb. unfold u at 1. rewrite upsertRecord_idem. fold u.
  now rewrite !insert_insert_eq.
Qed.

(** After the upsert the bucket is there and holds the cookie's record;
    when the buckets had no duplicates, it is the only record there with the
    cookie's (name, path). *)
Lemma upserted_bucket (profileId key : string) (cookie : Cookie)
    (cd : CookieData) :
  exists snap records,
    upserted profileId key cookie cd !! profileId = Some snap
    /\ snap !! key = Some records
    /\ cookieRecord cookie ∈ records
    /\ (snapshotUnique cd ->
        List.filter (sameKey (cookieRecord cookie)) records
        = [cookieRecord cookie]).
Proof.
  rewrite upserted_eq. eexists. eexists.
  split; [apply lookup_insert_eq|]. split; [apply lookup_insert_eq|].
  split; [apply upsertRecord_elem|]. intros Hu.
  apply unique_filter; [|apply upsertRecord_elem].
  apply upsertRecord_unique.
  destruct (bucketOf_cases profileId key cd) as [-> | (snap0 & H0 & Hk)].
  - apply NoDup_nil_2.
  - exact (Hu _ _ _ _ H0 Hk).
Qed.

(** After the upsert the key has a bucket of its own. *)
Lemma upserted_own_key (profileId key : string) (cookie : Cookie)
    (cd : CookieData) :
  readsInherited key (profileCookiesOf profileId (upserted profileId key cookie cd))
  = false.
Proof.
  unfold readsInherited, upserted.
  unfold profileCookiesOf at 1. rewrite lookup_insert_eq. simpl.
  now rewrite lookup_insert_eq.
Qed.

(** Read the cookie data, transform it, write it back. *)
Lemma maintains_rmw (I : CookieData -> Prop) (g : CookieData -> CookieData) :
  (forall cd, I cd -> I (g cd)) ->
  stable (maintains I) (let* cd := getCookieData in saveCookieData (g cd)).
Proof.
  intros Hg w HI.
  unfold getCookieData, saveCookieData, getStorage, setStorage, bind, host,
    gets, modify.
  destruct w as [ps aid pe cd j fl fs tr]; simpl in *.
  destruct fs as [|[|] [|[|] fs]]; simpl; auto.
Qed.

(** The same when the transformation may throw before anything is
    written. *)
Lemma maintains_rmw_partial (I : CookieData -> Prop)
    (g : CookieData -> option CookieData) :
  (forall cd cd', I cd -> g cd = Some cd' -> I cd') ->
  stable (maintains I)
    (let* cd := getCookieData in
     match g cd with
     | Some cd' => saveCookieData cd'
     | None => throw TypeError
     end).
Proof.
  intros Hg w HI.
  unfold getCookieData, saveCookieData, getStorage, setStorage, bind, host,
    gets, modify, throw.
  destruct w as [ps aid pe cd j fl fs tr]; simpl in *.
  destruct fs as [|[|] [|[|] fs]]; simpl; auto;
    destruct (g cd) as [cd'|] eqn:Hcd; simpl; eauto.
Qed.

Lemma stable_weaken {A} (R R' : relation World) (m : Task A) :
  (forall w w', R w w' -> R' w w') -> stable R m -> stable R' m.
Proof. intros HRR Hm w. apply HRR, Hm. Qed.

Lemma sameState_maintains (I : CookieData -> Prop) (w w' : World) :
  sameState w w' -> maintains I w w'.
Proof. intros (_ & _ & _ & Hcd & _) HI. now rewrite Hcd. Qed.

Lemma keeps_cookieData_maintains (I : CookieData -> Prop) (w w' : World) :
  keeps cookieData w w' -> maintains I w w'.
Proof. intros Hcd HI. unfold keeps in Hcd. now rewrite Hcd. Qed.

Lemma getActiveProfile_maintains (I : CookieData -> Prop) :
  stable (maintains I) ConfigManager.getActiveProfile.
Proof.
  eapply stable_weaken; [apply sameState_maintains|].
  apply ConfigFacts.getActiveProfile_sameState.
Qed.

Lemma cookies_getAll_maintains (I : CookieData -> Prop) (B : Browser)
    (filter : option string) :
  stable (maintains I) (cookies_getAll B filter).
Proof.
  eapply stable_weaken; [apply keeps_cookieData_maintains|].
  unfold cookies_getAll. stable_walk ltac:(intros; reflexivity).
Qed.

(** Both incremental saves maintain every property that [upserted]
    maintains for the key they choose. *)
Lemma sw_upsert_maintains (I : CookieData -> Prop) (cookie : Cookie) :
  (forall profileId cd,
     I cd -> I (upserted profileId (stripLeadingDot (domain cookie)) cookie cd)) ->
  stable (maintains I) (CookieManagerSw.saveCookieToActiveProfile cookie).
Proof.
  intros Hup. unfold CookieManagerSw.saveCookieToActiveProfile.
  apply stable_bind; [typeclasses eauto | apply getActiveProfile_maintains|].
  intros [p|]; [|apply stable_ret; typeclasses eauto].
  destruct (negb _); [apply stable_ret; typeclasses eauto|]. cbv zeta.
  apply (maintains_rmw_partial I
           (upsertInto (Profile.id p) (stripLeadingDot (domain cookie)) cookie)).
  intros cd cd' HI Hcd. rewrite upsertInto_spec in Hcd.
  destruct (readsInherited _ _); [discriminate|]. injection Hcd as <-.
  now apply Hup.
Qed.

Lemma es_upsert_maintains (I : CookieData -> Prop) (cookie : Cookie) :
  (forall profileId key cd, I cd -> I (upserted profileId key cookie cd)) ->
  stable (maintains I) (CookieManager.saveCookieToActiveProfile cookie).
Proof.
  intros Hup. unfold CookieManager.saveCookieToActiveProfile.
  apply stable_bind; [typeclasses eauto | apply getActiveProfile_maintains|].
  intros [p|]; [|apply stable_ret; typeclasses eauto].
  destruct (negb _); [apply stable_ret; typeclasses eauto|].
  destruct (List.find _ _) as [md|]; [|apply stable_ret; typeclasses eauto].
  destruct (String.eqb md ""); [apply stable_ret; typeclasses eauto|].
  apply (maintains_rmw_partial I (upsertInto (Profile.id p) md cookie)).
  intros cd cd' HI Hcd. rewrite upsertInto_spec in Hcd.
  destruct (readsInherited _ _); [discriminate|]. injection Hcd as <-.
  now apply Hup.
Qed.

(** The service-worker incremental save on a quiet host, for a cookie the
    active profile covers. *)
Lemma sw_upsert_quiet (cookie : Cookie) (p : Profile.t) (w : World) :
  faults w = [] -> activeProfileOf w = Some p ->
  CookieManagerSw.isCookieInDomains cookie (Profile.domains p) = true ->
  readsInherited (stripLeadingDot (domain cookie))
                 (profileCookiesOf (Profile.id p) (cookieData w)) = false ->
  exists w',
    CookieManagerSw.saveCookieToActiveProfile cookie w = (Returned tt, w')
    /\ cookieData w'
       = upserted (Profile.id p) (stripLeadingDot (domain cookie)) cookie
                    (cookieData w)
    /\ faults w' = [] /\ activeProfileOf w' = Some p.
Proof.
  intros Hf Hp Hin Hok. unfold CookieManagerSw.saveCookieToActiveProfile, bind at 1.
  destruct (SaveFacts.getActiveProfile_quiet w Hf) as (w1 & -> & Hs & Hf1).
  rewrite Hp, Hin. cbv zeta. simpl negb. cbv iota.
  destruct Hs as (Hps & Ha & Hpe & Hcd & Hj & Hfl).
  unfold activeProfileOf in *. rewrite <- Hps, <- Ha in Hp.
  rewrite <- Hcd in Hok |- *.
  destruct w1 as [ps aid pe cd j fl fs tr]; simpl in *. subst fs.
  unfold bind, getCookieData, getStorage, bind, host, gets.
  cbn [faults logCall tail cookieData]. rewrite upsertInto_spec, Hok.
  eexists. split; [reflexivity|]. simpl. repeat split. exact Hp.
Qed.

(** The same save when the bucket lookup finds an inherited property: the
    TypeError is thrown after the reads and nothing is written. *)
Lemma sw_upsert_throws (cookie : Cookie) (p : Profile.t) (w : World) :
  faults w = [] -> activeProfileOf w = Some p ->
  CookieManagerSw.isCookieInDomains cookie (Profile.domains p) = true ->
  readsInherited (stripLeadingDot (domain cookie))
                 (profileCookiesOf (Profile.id p) (cookieData w)) = true ->
  exists w',
    CookieManagerSw.saveCookieToActiveProfile cookie w = (Thrown TypeError, w')
    /\ sameState w w' /\ faults w' = [].
Proof.
  intros Hf Hp Hin Hbad. unfold CookieManagerSw.saveCookieToActiveProfile, bind at 1.
  destruct (SaveFacts.getActiveProfile_quiet w Hf) as (w1 & -> & Hs & Hf1).
  rewrite Hp, Hin. cbv zeta. simpl negb. cbv iota.
  destruct Hs as (Hps & Ha & Hpe & Hcd & Hj & Hfl).
  rewrite <- Hcd in Hbad.
  destruct w1 as [ps aid pe cd j fl fs tr]; simpl in *. subst fs.
  unfold bind, getCookieData, getStorage, bind, host, gets, throw.
  cbn [faults logCall tail cookieData]. rewrite upsertInto_spec, Hbad.
  eexists. split; [reflexivity|]. simpl. now repeat split.
Qed.

(** The ES-module incremental save on a quiet host: the bucket key is the
    first configured domain that matches. *)
Lemma es_upsert_quiet (cookie : Cookie) (p : Profile.t)
    (ds : list string) (key : string) (w : World) :
  faults w = [] -> activeProfileOf w = Some p ->
  Profile.domains p = Some ds ->
  List.find (fun d => CookieManager.isDomainMatch (domain cookie) d) ds = Some key ->
  key <> "" ->
  readsInherited key (profileCookiesOf (Profile.id p) (cookieData w)) = false ->
  exists w',
    CookieManager.saveCookieToActiveProfile cookie w = (Returned tt, w')
    /\ cookieData w' = upserted (Profile.id p) key cookie (cookieData w)
    /\ faults w' = [] /\ activeProfileOf w' = Some p.
Proof.
  intros Hf Hp Hds Hfind Hkey Hok.
  unfold CookieManager.saveCookieToActiveProfile, bind at 1.
  destruct (SaveFacts.getActiveProfile_quiet w Hf) as (w1 & -> & Hs & Hf1).
  rewrite Hp, Hds.
  change (default [] (Some ds)) with ds. rewrite Hfind.
  assert (Hin : CookieManager.isCookieInDomains cookie (Some ds) = true).
  { apply find_some in Hfind as [Hin Hm]. destruct ds as [|d ds']; [destruct Hin|].
    unfold CookieManager.isCookieInDomains. apply existsb_exists. now exists key. }
  rewrite Hin. simpl negb. cbv iota.
  apply String.eqb_neq in Hkey. rewrite Hkey.
  destruct Hs as (Hps & Ha & Hpe & Hcd & Hj & Hfl).
  unfold activeProfileOf in *. rewrite <- Hps, <- Ha in Hp.
  rewrite <- Hcd in Hok |- *.
  destruct w1 as [ps aid pe cd j fl fs tr]; simpl in *. subst fs.
  unfold bind, getCookieData, getStorage, bind, host, gets.
  cbn [faults logCall tail cookieData]. rewrite upsertInto_spec, Hok.
  eexists. split; [reflexivity|]. simpl. repeat split. exact Hp.
Qed.

End SnapshotFacts.

(** C6, amended.  The incremental save [saveCookieToActiveProfile] of either
    variant keeps the snapshot free of duplicates: if no bucket of any
    profile holds two records with the same (name, path) before the call,
    none does after it, whatever the host answers.  On a host that rejects
    nothing, for a cookie the active profile covers whose bucket key has a
    stored bucket or is not a property name every object inherits, saving
    the same cookie twice leaves the cookie data as the first save left it,
    and the bucket the cookie went to holds the cookie's record; when no
    bucket held duplicates before the two saves, it is the only record of
    that bucket with the cookie's (name, path). *)
Theorem C6_upsert_keeps_buckets_unique (cookie : Cookie) (w : World) :
  (snapshotUnique (cookieData w) ->
   snapshotUnique
     (cookieData (snd (CookieManagerSw.saveCookieToActiveProfile cookie w)))
   /\ snapshotUnique
        (cookieData (snd (CookieManager.saveCookieToActiveProfile cookie w))))
  /\ (faults w = [] ->
      forall p, activeProfileOf w = Some p ->
      (CookieManagerSw.isCookieInDomains cookie (Profile.domains p) = true ->
       readsInherited (stripLeadingDot (domain cookie))
                      (profileCookiesOf (Profile.id p) (cookieData w)) = false ->
       let w1 := snd (CookieManagerSw.saveCookieToActiveProfile cookie w) in
       let w2 := snd (CookieManagerSw.saveCookieToActiveProfile cookie w1) in
       cookieData w2 = cookieData w1
       /\ exists snap records,
            cookieData w2 !! Profile.id p = Some snap
            /\ snap !! stripLeadingDot (domain cookie) = Some records
            /\ cookieRecord cookie ∈ records
            /\ (snapshotUnique (cookieData w) ->
                List.filter (sameKey (cookieRecord cookie)) records
                = [cookieRecord cookie]))
      /\
      (forall ds key,
         Profile.domains p = Some ds ->
         List.find (fun d => CookieManager.isDomainMatch (domain cookie) d) ds
         = Some key ->
         key <> "" ->
         readsInherited key (profileCookiesOf (Profile.id p) (cookieData w))
         = false ->
         let w1 := snd (CookieManager.saveCookieToActiveProfile cookie w) in
         let w2 := snd (CookieManager.saveCookieToActiveProfile cookie w1) in
         cookieData w2 = cookieData w1
         /\ exists snap records,
              cookieData w2 !! Profile.id p = Some snap
              /\ snap !! key = Some records
              /\ cookieRecord cookie ∈ records
              /\ (snapshotUnique (cookieData w) ->
                  List.filter (sameKey (cookieRecord cookie)) records
                  = [cookieRecord cookie]))).
Proof.
  split.
  - intros Hu. split.
    + apply (SnapshotFacts.sw_upsert_maintains snapshotUnique); [|exact Hu].
      intros pid cd. apply SnapshotFacts.upserted_unique.
    + apply (SnapshotFacts.es_upsert_maintains snapshotUnique); [|exact Hu].
      intros pid key cd. apply SnapshotFacts.upserted_unique.
  - intros Hf p Hp. split.
    + intros Hin Hok. cbv zeta.
      destruct (SnapshotFacts.sw_upsert_quiet cookie p w Hf Hp Hin Hok)
        as (w1 & -> & Hcd1 & Hf1 & Hp1). simpl snd.
      assert (Hok1 : readsInherited (stripLeadingDot (domain cookie))
                       (profileCookiesOf (Profile.id p) (cookieData w1)) = false)
        by (rewrite Hcd1; apply SnapshotFacts.upserted_own_key).
      destruct (SnapshotFacts.sw_upsert_quiet cookie p w1 Hf1 Hp1 Hin Hok1)
        as (w2 & -> & Hcd2 & _). simpl snd.
      rewrite Hcd2, Hcd1, SnapshotFacts.upserted_idem. split; [reflexivity|].
      apply SnapshotFacts.upserted_bucket.
    + intros ds key Hds Hfind Hkey Hok. cbv zeta.
      destruct (SnapshotFacts.es_upsert_quiet cookie p ds key w Hf Hp Hds Hfind
                  Hkey Hok) as (w1 & -> & Hcd1 & Hf1 & Hp1). simpl snd.
      assert (Hok1 : readsInherited key
                       (profileCookiesOf (Profile.id p) (cookieData w1)) = false)
        by (rewrite Hcd1; apply SnapshotFacts.upserted_own_key).
      destruct (SnapshotFacts.es_upsert_quiet cookie p ds key w1 Hf1 Hp1 Hds Hfind
                  Hkey Hok1) as (w2 & -> & Hcd2 & _). simpl snd.
      rewrite Hcd2, Hcd1, SnapshotFacts.upserted_idem. split; [reflexivity|].
      apply SnapshotFacts.upserted_bucket.
Qed.

Lemma snapshotUnique_empty : snapshotUnique ∅.
Proof. intros pid snap key records H. now rewrite lookup_empty in H. Defined.

(** The instance of C6 on one cookie saved twice into an empty snapshot. *)
Lemma C6_upsert_keeps_buckets_unique_witness :
  let w := sampleWorld [workProfile (Some ["example.com"])] (Some "p-work") ∅ [] in
  let cookie := sampleCookie "sid" "example.com" "1" in
  let w1 := snd (CookieManagerSw.saveCookieToActiveProfile cookie w) in
  let w2 := snd (CookieManagerSw.saveCookieToActiveProfile cookie w1) in
  snapshotUnique (cookieData w1) /\ cookieData w2 = cookieData w1.
Proof.
  intros w cookie w1 w2.
  destruct (C6_upsert_keeps_buckets_unique cookie w) as (Hkeep & Hidem).
  split; [exact (proj1 (Hkeep snapshotUnique_empty))|].
  destruct (Hidem eq_refl (workProfile (Some ["example.com"])) eq_refl)
    as [Htwice _].
  destruct (Htwice eq_refl eq_refl) as [Heq _]. exact Heq.
Defined.

(** C6 fails for the bulk save: the service-worker variant, saving for a
    profile without domains, puts the two live cookies named "sid" of
    ".example.com" and "example.com" into the one bucket "example.com". *)
Lemma C6_counterexample :
  let w := sampleWorld [workProfile (Some [])] (Some "p-work") ∅
             [sampleCookie "sid" ".example.com" "1";
              sampleCookie "sid" "example.com" "2"] in
  snapshotUnique (cookieData w)
  /\ ~ snapshotUnique
         (cookieData (snd (CookieManagerSw.saveCurrentProfileCookies sampleBrowser w))).
Proof.
  intros w. split; [apply snapshotUnique_empty|]. intros Hu.
  assert (Hsnap :
    cookieData (snd (CookieManagerSw.saveCurrentProfileCookies sampleBrowser w))
    !! "p-work"
    = Some {[ "example.com" := [sampleCookie "sid" ".example.com" "1";
                                sampleCookie "sid" "example.com" "2"] ]})
    by (vm_compute; reflexivity).
  specialize (Hu _ _ "example.com" _ Hsnap (lookup_singleton_eq _ _)).
  unfold bucketUnique in Hu. simpl in Hu.
  apply NoDup_cons in Hu as [Hnotin _]. apply Hnotin. apply list_elem_of_here.
Qed.

(** The wildcard branch of the service-worker bulk save pushes onto the
    buckets it finds: saving twice stores every matched cookie twice. *)
Example sw_wildcard_save_twice :
  let w := sampleWorld [workProfile (Some ["*.example.com"])] (Some "p-work") ∅
             [sampleCookie "sid" "a.example.com" "1"] in
  let w1 := snd (CookieManagerSw.saveCurrentProfileCookies sampleBrowser w) in
  let w2 := snd (CookieManagerSw.saveCurrentProfileCookies sampleBrowser w1) in
  cookieData w2 !! "p-work"
  = Some {[ "a.example.com" := [sampleCookie "sid" "a.example.com" "1";
                                sampleCookie "sid" "a.example.com" "1"] ]}.
Proof. vm_compute. reflexivity. Qed.

(** [saveCookies] stores whatever the browser returns for the configured
    domain under that domain: cookies of different subdomains with the same
    (name, path) end up in one bucket. *)
Example sw_saveCookies_mixes_subdomains :
  let w := sampleWorld [workProfile (Some ["example.com"])] (Some "p-work") ∅
             [sampleCookie "sid" "a.example.com" "1";
              sampleCookie "sid" "b.example.com" "2"] in
  cookieData (snd (CookieManagerSw.saveCurrentProfileCookies sampleBrowser w))
  !! "p-work"
  = Some {[ "example.com" := [sampleCookie "sid" "a.example.com" "1";
                              sampleCookie "sid" "b.example.com" "2"] ]}.
Proof. vm_compute. reflexivity. Qed.

(* ===================================================================== *)
(** ** Domain keys *)
(* ===================================================================== *)

Module KeyFacts.
Import UpsertFacts.

Lemma own_implies_fromCookies (cd : CookieData) :
  bucketsByOwnDomain cd -> keysFromCookies cd.
Proof.
  intros Hown pid snap key records Hsnap Hrec.
  destruct (Hown pid snap key records Hsnap Hrec) as [Hne Hall].
  destruct records as [|r l]; [contradiction|].
  exists r. split; [apply list_elem_of_here|]. now apply Forall_inv in Hall.
Qed.

Lemma initProfile_own (profileId : string) (cd : CookieData) :
  bucketsByOwnDomain cd -> bucketsByOwnDomain (initProfile profileId cd).
Proof.
  intros Hown pid snap key records Hsnap Hrec. unfold initProfile in Hsnap.
  destruct (cd !! profileId) eqn:Hp; [exact (Hown _ _ _ _ Hsnap Hrec)|].
  destruct (decide (profileId = pid)) as [<-|Hne].
  - rewrite lookup_insert_eq in Hsnap. injection Hsnap as <-.
    now rewrite lookup_empty in Hrec.
  - rewrite lookup_insert_ne in Hsnap by exact Hne.
    exact (Hown _ _ _ _ Hsnap Hrec).
Qed.

(** The buckets of one profile, read through [profileCookiesOf]. *)
Lemma own_profileCookiesOf (profileId key : string) (cd : CookieData)
    (records : list Cookie) :
  bucketsByOwnDomain cd ->
  profileCookiesOf profileId cd !! key = Some records ->
  ownDomainBucket key records.
Proof.
  intros Hown Hk. unfold profileCookiesOf in Hk.
  destruct (cd !! profileId) as [snap0|] eqn:Hp; simpl in Hk.
  - exact (Hown _ _ _ _ Hp Hk).
  - now rewrite lookup_empty in Hk.
Qed.

(** Replacing one profile's snapshot by buckets that are by own domain. *)
Lemma insert_own (profileId : string) (snap : Snapshot) (cd : CookieData) :
  bucketsByOwnDomain cd ->
  (forall key records, snap !! key = Some records -> ownDomainBucket key records) ->
  bucketsByOwnDomain (<[profileId := snap]> cd).
Proof.
  intros Hown Hsnap pid snap' key records H' Hrec.
  destruct (decide (profileId = pid)) as [<-|Hne].
  - rewrite lookup_insert_eq in H'. injection H' as <-. now apply Hsnap.
  - rewrite lookup_insert_ne in H' by exact Hne. exact (Hown _ _ _ _ H' Hrec).
Qed.

Lemma upserted_own (profileId : string) (cookie : Cookie) (cd : CookieData) :
  bucketsByOwnDomain cd ->
  bucketsByOwnDomain
    (upserted profileId (stripLeadingDot (domain cookie)) cookie cd).
Proof.
  intros Hown. rewrite SnapshotFacts.upserted_eq.
  apply insert_own; [exact Hown|]. intros key records Hrec.
  destruct (decide (stripLeadingDot (domain cookie) = key)) as [<-|Hne].
  - rewrite lookup_insert_eq in Hrec. injection Hrec as <-.
    split; [apply upsertRecord_nonempty|].
    apply upsertRecord_Forall; [|reflexivity].
    unfold bucketOf.
    destruct (profileCookiesOf profileId cd !! stripLeadingDot (domain cookie))
      as [l|] eqn:Hk; simpl; [|constructor].
    exact (proj2 (own_profileCookiesOf _ _ _ _ Hown Hk)).
  - rewrite lookup_insert_ne in Hrec by exact Hne.
    exact (own_profileCookiesOf _ _ _ _ Hown Hrec).
Qed.

Lemma grouped_own (profileId : string) (cs : list Cookie) (cd : CookieData) :
  bucketsByOwnDomain cd ->
  bucketsByOwnDomain (<[profileId := grouped cs]> cd).
Proof.
  intros Hown. apply insert_own; [exact Hown|]. intros key records.
  rewrite SaveFacts.grouped_lookup.
  destruct (List.filter _ cs) as [|c l] eqn:Hfilter; [discriminate|].
  intros [= <-]. split; [discriminate|].
  apply Forall_forall. intros x Hx.
  change (x ∈ cookieRecord <$> (c :: l)) in Hx.
  apply list_elem_of_fmap in Hx as (y & -> & Hy). simpl.
  apply list_elem_of_In in Hy. rewrite <- Hfilter in Hy.
  apply filter_In in Hy as [_ Hy]. now apply String.eqb_eq.
Qed.

Lemma pushed_own (profileId : string) (cookie : Cookie) (cd : CookieData) :
  bucketsByOwnDomain cd ->
  bucketsByOwnDomain
    (<[profileId :=
         pushed (stripLeadingDot (domain cookie)) (cookieRecord cookie)
                    (profileCookiesOf profileId cd)]> cd).
Proof.
  intros Hown. apply insert_own; [exact Hown|]. intros key records.
  rewrite SaveFacts.pushed_lookup.
  destruct (decide (stripLeadingDot (domain cookie) = key)) as [<-|Hne].
  - intros [= <-]. split.
    + intros Hnil. now apply app_eq_nil in Hnil as [_ ?].
    + apply Forall_app. split; [|now constructor].
      unfold bucketOf.
      destruct (profileCookiesOf profileId cd !! stripLeadingDot (domain cookie))
        as [l|] eqn:Hk; simpl; [|constructor].
      exact (proj2 (own_profileCookiesOf _ _ _ _ Hown Hk)).
  - intros Hrec. exact (own_profileCookiesOf _ _ _ _ Hown Hrec).
Qed.

Lemma appended_own (profileId : string) (cs : list Cookie) (cd : CookieData) :
  bucketsByOwnDomain cd ->
  bucketsByOwnDomain (appended profileId cs cd).
Proof.
  unfold appended. revert cd.
  induction cs as [|c cs IH]; intros cd Hown; [exact Hown|].
  cbn [foldl]. apply IH. now apply pushed_own.
Qed.

Lemma stable_forEach_Forall {A} (R : relation World) `{!PreOrder R}
    (xs : list A) (f : A -> Task unit) :
  Forall (fun x => stable R (f x)) xs -> stable R (forEach xs f).
Proof.
  induction 1 as [|x xs Hx _ IH]; simpl.
  - apply stable_ret; typeclasses eauto.
  - apply stable_bind; [typeclasses eauto | exact Hx | intros _; exact IH].
Qed.

(** The service-worker incremental save keeps buckets by own domain. *)
Lemma sw_upsert_own (cookie : Cookie) :
  stable (maintains bucketsByOwnDomain)
         (CookieManagerSw.saveCookieToActiveProfile cookie).
Proof.
  apply SnapshotFacts.sw_upsert_maintains. intros pid cd. apply upserted_own.
Qed.

(** So does the service-worker bulk save, as long as the active profile
    configures no plain domain. *)
Lemma sw_save_own (B : Browser) (w : World) :
  (forall p ds d, activeProfileOf w = Some p -> Profile.domains p = Some ds ->
                  In d ds -> Js.startsWith d "*." = true) ->
  maintains bucketsByOwnDomain w
            (snd (CookieManagerSw.saveCurrentProfileCookies B w)).
Proof.
  intros Hwild.
  pose proof (ConfigFacts.getActiveProfile_sameState w) as Hs.
  pose proof (ConfigFacts.getActiveProfile_result w) as Hr.
  unfold CookieManagerSw.saveCurrentProfileCookies, bind at 1.
  destruct (ConfigManager.getActiveProfile w) as [r w1]; simpl in Hs, Hr.
  apply (SnapshotFacts.sameState_maintains bucketsByOwnDomain) in Hs.
  destruct Hr as [-> | [e ->]]; [|exact Hs].
  destruct (activeProfileOf w) as [p|] eqn:Hp; [|exact Hs].
  transitivity w1; [exact Hs|].
  assert (Hall : stable (maintains bucketsByOwnDomain)
    (tryCatch
       (let* allCookies := cookies_getAll B None in
        let* cookieData := getCookieData in
        let cookieData := initProfile (Profile.id p) cookieData in
        match CookieManagerSw.groupByDomain allCookies with
        | Some cookiesByDomain =>
            let cookieData := <[Profile.id p := cookiesByDomain]> cookieData in
            saveCookieData cookieData
        | None => throw TypeError
        end) (fun error => throw error))).
  { apply stable_tryCatch;
      [typeclasses eauto | | intros e; apply stable_throw; typeclasses eauto].
    apply stable_bind;
      [typeclasses eauto | apply SnapshotFacts.cookies_getAll_maintains|].
    intros cs. cbv zeta. rewrite SaveFacts.groupByDomain_spec.
    destruct (existsb inheritedDomain cs).
    - unfold getCookieData, getStorage.
      stable_walk ltac:(intros ? HI; exact HI).
    - apply (SnapshotFacts.maintains_rmw bucketsByOwnDomain
               (fun cd => <[Profile.id p := grouped cs]>
                            (initProfile (Profile.id p) cd))).
      intros cd Hown. apply grouped_own, initProfile_own, Hown. }
  destruct (Profile.domains p) as [[|d ds]|] eqn:Hd; try apply Hall.
  apply stable_forEach_Forall; [typeclasses eauto|].
  apply Forall_forall. intros x Hx. apply list_elem_of_In in Hx.
  rewrite (Hwild p (d :: ds) x eq_refl Hd Hx).
  apply stable_tryCatch;
    [typeclasses eauto | | intros e; apply stable_ret; typeclasses eauto].
  apply stable_bind;
    [typeclasses eauto | apply SnapshotFacts.cookies_getAll_maintains|].
  intros cs.
  apply (SnapshotFacts.maintains_rmw_partial bucketsByOwnDomain
           (fun cd => CookieManagerSw.appendMatched (Profile.id p)
                        (List.filter
                           (CookieManagerSw.underBase (Js.substring 2 x)) cs)
                        (initProfile (Profile.id p) cd))).
  intros cd cd' Hown Hcd. rewrite SaveFacts.appendMatched_spec in Hcd.
  destruct (existsb _ _); [discriminate|].
  injection Hcd as <-. apply appended_own, initProfile_own, Hown.
Qed.

End KeyFacts.

(** C7, amended.  In the service-worker variant, the incremental save and
    the bulk save of a profile that configures no plain (non-wildcard)
    domain keep every bucket non-empty and filled only with records whose
    domain, without its leading dot, is the bucket's key, whatever the host
    answers; every key of such a snapshot is then the stripped domain of a
    record stored under it. *)
Theorem C7_sw_keys_are_cookie_domains (B : Browser) (w : World) :
  bucketsByOwnDomain (cookieData w) ->
  (forall cookie,
     bucketsByOwnDomain
       (cookieData (snd (CookieManagerSw.saveCookieToActiveProfile cookie w))))
  /\ ((forall p ds d, activeProfileOf w = Some p -> Profile.domains p = Some ds ->
                      In d ds -> Js.startsWith d "*." = true) ->
      bucketsByOwnDomain
        (cookieData (snd (CookieManagerSw.saveCurrentProfileCookies B w))))
  /\ (forall cd, bucketsByOwnDomain cd -> keysFromCookies cd).
Proof.
  intros Hown. split; [|split].
  - intros cookie. now apply KeyFacts.sw_upsert_own.
  - intros Hwild. now apply KeyFacts.sw_save_own.
  - apply KeyFacts.own_implies_fromCookies.
Qed.

Lemma bucketsByOwnDomain_empty : bucketsByOwnDomain ∅.
Proof. intros pid snap key records H. now rewrite lookup_empty in H. Defined.

(** The end-to-end instance: with "*.wps.com" configured, the cookie of
    "a.wps.com" is stored under the key "a.wps.com". *)
Lemma C7_sw_keys_are_cookie_domains_witness :
  let w := sampleWorld [workProfile (Some ["*.wps.com"])] (Some "p-work") ∅ [] in
  let cookie := sampleCookie "sid" "a.wps.com" "1" in
  let cd := cookieData (snd (CookieManagerSw.saveCookieToActiveProfile cookie w)) in
  bucketsByOwnDomain cd
  /\ cd = {[ "p-work" := {[ "a.wps.com" := [cookie] ]} ]}.
Proof.
  intros w cookie cd.
  destruct (C7_sw_keys_are_cookie_domains sampleBrowser w bucketsByOwnDomain_empty)
    as (Hup & _ & _).
  split; [apply Hup|]. vm_compute. reflexivity.
Defined.

(** C7 fails as stated.  The ES-module incremental save stores the cookie of
    "a.example.com" under the configured pattern "example.com"; and the
    service-worker bulk save, for the plain domain "example.com" and a
    browser that returns no cookie for it, creates the key "example.com"
    with no record under it. *)
Lemma C7_counterexample :
  let w := sampleWorld [workProfile (Some ["example.com"])] (Some "p-work") ∅ [] in
  let cookie := sampleCookie "sid" "a.example.com" "1" in
  keysFromCookies (cookieData w)
  /\ ~ keysFromCookies
         (cookieData (snd (CookieManager.saveCookieToActiveProfile cookie w)))
  /\ ~ keysFromCookies
         (cookieData (snd (CookieManagerSw.saveCurrentProfileCookies sampleBrowser w))).
Proof.
  intros w cookie. split; [|split].
  - apply KeyFacts.own_implies_fromCookies, bucketsByOwnDomain_empty.
  - intros Hk.
    assert (Hsnap :
      cookieData (snd (CookieManager.saveCookieToActiveProfile cookie w)) !! "p-work"
      = Some {[ "example.com" := [cookie] ]}) by (vm_compute; reflexivity).
    destruct (Hk _ _ "example.com" _ Hsnap (lookup_singleton_eq _ _))
      as (r & Hin & Hkey).
    apply list_elem_of_singleton in Hin. subst r. discriminate Hkey.
  - intros Hk.
    assert (Hsnap :
      cookieData (snd (CookieManagerSw.saveCurrentProfileCookies sampleBrowser w))
      !! "p-work"
      = Some {[ "example.com" := [] ]}) by (vm_compute; reflexivity).
    destruct (Hk _ _ "example.com" _ Hsnap (lookup_singleton_eq _ _))
      as (r & Hin & _).
    now apply not_elem_of_nil in Hin.
Qed.

(* ===================================================================== *)
(** ** The steps of a switch *)
(* ===================================================================== *)

Module SwitchFacts.

Ltac unfold_managers :=
  unfold ServiceWorker.saveOutgoing, ServiceWorker.clearForIncoming;
  cbn [api_saveCookieToActiveProfile api_saveCurrentProfileCookies
       api_clearAllCookies api_loadCookies CookieManagerSw.api CookieManager.api];
  unfold CookieManagerSw.saveCurrentProfileCookies,
    CookieManager.saveCurrentProfileCookies,
    CookieManagerSw.saveCookies, CookieManager.saveCookies,
    CookieManagerSw.clearAllCookies, CookieManager.clearAllCookies,
    CookieManagerSw.loadCookies, CookieManager.loadCookies;
  unfold_tasks.

Ltac keeps_leaf := intros; reflexivity.
Ltac event_leaf := emits_leaf ltac:(exact I).

Section EitherManager.
Context (B : Browser) (CM : CookieManagerApi)
        (HCM : CM = CookieManagerSw.api B \/ CM = CookieManager.api B).

(** On a host that rejects nothing the save step returns, unless it is the
    service-worker save of a profile without domains and a live cookie's
    own domain names an inherited property. *)
Lemma saveOutgoing_quiet (w : World) :
  faults w = [] ->
  (CM = CookieManagerSw.api B /\ saveAllThrows w = false)
  \/ CM = CookieManager.api B ->
  ServiceWorker.saveOutgoing CM w
  = (Returned tt, snd (ServiceWorker.saveOutgoing CM w))
  /\ faults (snd (ServiceWorker.saveOutgoing CM w)) = [].
Proof.
  intros Hf [[-> Hok] | ->].
  - assert (Hrun : exists w',
      ServiceWorker.saveOutgoing (CookieManagerSw.api B) w = (Returned tt, w')
      /\ faults w' = []).
    { unfold ServiceWorker.saveOutgoing, bind at 1.
      destruct (SaveFacts.getActiveProfile_quiet w Hf) as (w1 & -> & Hs & Hf1).
      destruct (activeProfileOf w) as [p|] eqn:Hp; [|now exists w1].
      cbn [api_saveCurrentProfileCookies CookieManagerSw.api].
      apply SaveFacts.sw_save_quiet; [exact Hf1|].
      now rewrite <- (SaveFacts.saveAllThrows_sameState w w1 Hs). }
    destruct Hrun as (w' & -> & Hf'). now split.
  - apply clean_run; [|exact Hf]. unfold_managers; clean_walk.
Qed.

(** In that case it throws the TypeError after its reads, with nothing
    written. *)
Lemma saveOutgoing_throws (w : World) :
  faults w = [] -> saveAllThrows w = true ->
  exists w',
    ServiceWorker.saveOutgoing (CookieManagerSw.api B) w = (Thrown TypeError, w')
    /\ sameState w w' /\ faults w' = [].
Proof.
  intros Hf Hbad.
  unfold ServiceWorker.saveOutgoing, bind at 1.
  destruct (SaveFacts.getActiveProfile_quiet w Hf) as (w1 & -> & Hs & Hf1).
  rewrite (SaveFacts.saveAllThrows_sameState w w1 Hs) in Hbad.
  assert (Hact : activeProfileOf w = activeProfileOf w1).
  { destruct Hs as (Hps & Ha & _). unfold activeProfileOf. now rewrite Hps, Ha. }
  rewrite Hact.
  destruct (SaveFacts.sw_save_throws B w1 Hf1 Hbad) as (w' & Hrun & Hs' & Hf').
  unfold saveAllThrows in Hbad.
  destruct (activeProfileOf w1) as [p|]; [|discriminate].
  cbn [api_saveCurrentProfileCookies CookieManagerSw.api]. rewrite Hrun.
  exists w'. split; [reflexivity|]. split; [now transitivity w1 | exact Hf'].
Qed.

Lemma saveOutgoing_keeps_profiles :
  stable (keeps profiles) (ServiceWorker.saveOutgoing CM).
Proof. destruct HCM; subst CM; unfold_managers; stable_walk keeps_leaf. Qed.

Lemma saveOutgoing_keeps_active :
  stable (keeps activeProfileId) (ServiceWorker.saveOutgoing CM).
Proof. destruct HCM; subst CM; unfold_managers; stable_walk keeps_leaf. Qed.

Lemma saveOutgoing_keeps_jar :
  stable (keeps jar) (ServiceWorker.saveOutgoing CM).
Proof. destruct HCM; subst CM; unfold_managers; stable_walk keeps_leaf. Qed.

Lemma saveOutgoing_keeps_flag :
  stable (keeps isSwitchingProfile) (ServiceWorker.saveOutgoing CM).
Proof. destruct HCM; subst CM; unfold_managers; stable_walk keeps_leaf. Qed.

Lemma saveOutgoing_emits :
  stable (emits isSaveEvent) (ServiceWorker.saveOutgoing CM).
Proof. destruct HCM; subst CM; unfold_managers; stable_walk event_leaf. Qed.

Lemma clearForIncoming_clean (clearCookies : bool) :
  clean (ServiceWorker.clearForIncoming CM clearCookies).
Proof. destruct HCM; subst CM; unfold_managers; clean_walk. Qed.

Lemma clearForIncoming_keeps_active (clearCookies : bool) :
  stable (keeps activeProfileId) (ServiceWorker.clearForIncoming CM clearCookies).
Proof. destruct HCM; subst CM; unfold_managers; stable_walk keeps_leaf. Qed.

Lemma clearForIncoming_keeps_cookieData (clearCookies : bool) :
  stable (keeps cookieData) (ServiceWorker.clearForIncoming CM clearCookies).
Proof. destruct HCM; subst CM; unfold_managers; stable_walk keeps_leaf. Qed.

Lemma clearForIncoming_emits (clearCookies : bool) :
  stable (emits isClearEvent) (ServiceWorker.clearForIncoming CM clearCookies).
Proof. destruct HCM; subst CM; unfold_managers; stable_walk event_leaf. Qed.

Lemma loadCookies_clean (profileId : string) : clean (api_loadCookies CM profileId).
Proof. destruct HCM; subst CM; unfold_managers; clean_walk. Qed.

Lemma loadCookies_keeps_active (profileId : string) :
  stable (keeps activeProfileId) (api_loadCookies CM profileId).
Proof. destruct HCM; subst CM; unfold_managers; stable_walk keeps_leaf. Qed.

Lemma loadCookies_keeps_cookieData (profileId : string) :
  stable (keeps cookieData) (api_loadCookies CM profileId).
Proof. destruct HCM; subst CM; unfold_managers; stable_walk keeps_leaf. Qed.

Lemma loadCookies_emits (profileId : string) :
  stable (emits isLoadEvent) (api_loadCookies CM profileId).
Proof. destruct HCM; subst CM; unfold_managers; stable_walk event_leaf. Qed.

End EitherManager.

(** With the flag clear, [switchProfile] is its steps run with the flag set,
    followed by clearing the flag. *)
Lemma switchProfile_idle (CM : CookieManagerApi) (profileId : string)
    (clearCookies : bool) (w : World) :
  isSwitchingProfile w = false ->
  ServiceWorker.switchProfile CM profileId clearCookies w
  = (fst (ServiceWorker.switchSteps CM profileId clearCookies (setSwitching true w)),
     setSwitching false
       (snd (ServiceWorker.switchSteps CM profileId clearCookies (setSwitching true w)))).
Proof.
  intros Hflag.
  unfold ServiceWorker.switchProfile, bind, gets, modify, tryFinally, tryCatch, throw.
  rewrite Hflag.
  destruct (ServiceWorker.switchSteps CM profileId clearCookies (setSwitching true w))
    as [[[]|e] w']; reflexivity.
Qed.

(** No event of the save step is a cookie write. *)
Lemma saveEvent_not_write (e : Event) : isSaveEvent e -> ~ isCookieWrite e.
Proof. destruct e as [k|k|f|d|u n]; simpl; tauto. Qed.

End SwitchFacts.

(** C3.  The claim breaks in the service-worker copy when the outgoing
    profile has no configured domains and a live cookie's domain is
    "constructor": the bulk save of step 1 reads the bucket under that key,
    finds the constructor every object inherits, creates no bucket and calls
    [push] on it.  The switch stops there with the TypeError, for an unknown
    target and for a stored one alike: the error is not the
    profile-not-found error, nothing was saved, the pointer still names the
    outgoing profile, and no cookie was removed or set.  The ES-module copy,
    whose save does nothing for such a profile, throws the profile-not-found
    error on the same input. *)
Theorem C3_switch_stops_at_save :
  let w := sampleWorld [workProfile (Some []); homeProfile (Some ["example.com"])]
             (Some "p-work") ∅ [sampleCookie "sid" "constructor" "1"] in
  let CM := CookieManagerSw.api sampleBrowser in
  let gone := ServiceWorker.switchProfile CM "p-gone" true w in
  let home := ServiceWorker.switchProfile CM "p-home" true w in
  profileById "p-gone" w = None
  /\ fst gone = Thrown TypeError
  /\ cookieData (snd gone) = cookieData w
  /\ trace (snd gone)
     = [StorageGet KActiveProfileId; StorageGet KProfiles;
        StorageGet KActiveProfileId; StorageGet KProfiles;
        CookiesGetAll None; StorageGet KCookieData]
  /\ profileById "p-home" w = Some (homeProfile (Some ["example.com"]))
  /\ fst home = Thrown TypeError
  /\ activeProfileId (snd home) = Some "p-work"
  /\ jar (snd home) = jar w
  /\ trace (snd home) = trace (snd gone)
  /\ fst (ServiceWorker.switchProfile (CookieManager.api sampleBrowser)
            "p-gone" true w) = Thrown ProfileNotFound.
Proof. vm_compute. repeat split. Qed.

(** The end-to-end scenario: "Work" covers "*.wps.com" and is active,
    "Personal" has no domains.  Switching to "Personal" saves the cookie of
    a.wps.com under "Work", sets the pointer, removes every live cookie
    (nothing is excluded) and finds no snapshot to load. *)
Example switch_end_to_end :
  let w := sampleWorld [workProfile (Some ["*.wps.com"]); homeProfile (Some [])]
             (Some "p-work") ∅
             [sampleCookie "sid" "a.wps.com" "1"; sampleCookie "tok" "other.com" "2"] in
  let w' := snd (ServiceWorker.switchProfile (CookieManagerSw.api sampleBrowser)
                   "p-home" true w) in
  trace w'
  = [StorageGet KActiveProfileId; StorageGet KProfiles;
     StorageGet KActiveProfileId; StorageGet KProfiles;
     CookiesGetAll None; StorageGet KCookieData; StorageSet KCookieData;
     StorageGet KProfiles; StorageSet KActiveProfileId;
     StorageGet KActiveProfileId; StorageGet KProfiles; CookiesGetAll None;
     CookiesRemove "http://a.wps.com/" "sid";
     CookiesRemove "http://other.com/" "tok";
     StorageGet KCookieData]
  /\ jar w' = []
  /\ activeProfileId w' = Some "p-home"
  /\ isSwitchingProfile w' = false.
Proof. vm_compute. repeat split. Qed.

(** A cookie change that arrives while a switch is in progress is ignored. *)
Lemma handleCookieChange_during_switch (CM : CookieManagerApi) (cookie : Cookie)
    (removed : bool) (w : World) :
  isSwitchingProfile w = true ->
  ServiceWorker.handleCookieChange CM cookie removed w = (Returned tt, w).
Proof.
  intros Hflag. unfold ServiceWorker.handleCookieChange, bind, gets.
  now rewrite Hflag.
Qed.

(** Whatever the host answers, a switch to an id that is not stored throws,
    leaves the pointer and the live cookies as they were, sets or removes no
    cookie and ends with the flag clear. *)
Lemma switch_missing_target_safe (B : Browser) (CM : CookieManagerApi)
    (profileId : string) (clearCookies : bool) (w : World) :
  CM = CookieManagerSw.api B \/ CM = CookieManager.api B ->
  isSwitchingProfile w = false ->
  profileById profileId w = None ->
  let out := ServiceWorker.switchProfile CM profileId clearCookies w in
  (exists e, fst out = Thrown e)
  /\ activeProfileId (snd out) = activeProfileId w
  /\ jar (snd out) = jar w
  /\ isSwitchingProfile (snd out) = false
  /\ emits (fun e => ~ isCookieWrite e) w (snd out).
Proof.
  intros HCM Hflag Hnone. cbv zeta.
  rewrite (SwitchFacts.switchProfile_idle CM profileId clearCookies w Hflag).
  set (w0 := setSwitching true w).
  assert (Hsteps : exists e wf,
    ServiceWorker.switchSteps CM profileId clearCookies w0 = (Thrown e, wf)
    /\ activeProfileId wf = activeProfileId w /\ jar wf = jar w
    /\ emits (fun e => ~ isCookieWrite e) w wf).
  { pose proof (SwitchFacts.saveOutgoing_emits B CM HCM w0) as Hev1.
    pose proof (SwitchFacts.saveOutgoing_keeps_active B CM HCM w0) as Hact1.
    pose proof (SwitchFacts.saveOutgoing_keeps_jar B CM HCM w0) as Hjar1.
    pose proof (SwitchFacts.saveOutgoing_keeps_profiles B CM HCM w0) as Hps1.
    unfold keeps in Hact1, Hjar1, Hps1.
    apply (emits_weaken _ _ _ _ SwitchFacts.saveEvent_not_write) in Hev1.
    assert (Hev0 : emits (fun e => ~ isCookieWrite e) w
                         (snd (ServiceWorker.saveOutgoing CM w0))).
    { destruct Hev1 as (evs & Ht & Hall). now exists evs. }
    unfold ServiceWorker.switchSteps, bind at 1.
    destruct (ServiceWorker.saveOutgoing CM w0) as [[[]|e] w1]; simpl in *.
    - assert (Hn1 : profileById profileId w1 = None)
        by (unfold profileById in *; now rewrite Hps1).
      destruct (ConfigFacts.switchProfile_missing profileId w1 Hn1)
        as ((_ & Ha & _ & _ & Hj & _) & _ & (e & He)).
      pose proof (ConfigFacts.switchProfile_no_cookie_write profileId w1) as Hev2.
      unfold bind at 1.
      destruct (ConfigManager.switchProfile profileId w1) as [r w2]; simpl in *.
      subst r. exists e, w2.
      split; [reflexivity|]. split; [congruence|]. split; [congruence|].
      now transitivity w1.
    - exists e, w1. now repeat split. }
  destruct Hsteps as (e & wf & -> & Ha & Hj & Hev). simpl.
  split; [now exists e|]. repeat split; try assumption.
Qed.

(* ===================================================================== *)
(** * Further properties of the modules *)
(* ===================================================================== *)

#[export] Instance sameStorage_preorder : PreOrder sameStorage.
Proof.
  split.
  - intros w. repeat split.
  - intros w1 w2 w3 (?&?&?&?&?) (?&?&?&?&?). repeat split; congruence.
Qed.

#[export] Instance sameButCookieData_preorder : PreOrder sameButCookieData.
Proof.
  split.
  - intros w. repeat split.
  - intros w1 w2 w3 (?&?&?&?&?) (?&?&?&?&?). repeat split; congruence.
Qed.

#[export] Instance sameButProfiles_preorder : PreOrder sameButProfiles.
Proof.
  split.
  - intros w. repeat split.
  - intros w1 w2 w3 (?&?&?&?) (?&?&?&?). repeat split; congruence.
Qed.

Ltac split_leaf := intros; repeat split.

(** ** Restoring a snapshot *)

Module LoadFacts.

(** Whatever the host answers, restoring a list of records returns and has
    issued one [chrome.cookies.set] per record, in order. *)
Lemma restore_records (B : Browser) (records : list Cookie) (w : World) :
  exists w', forEach records (restoreOne B) w = (Returned tt, w')
             /\ trace w' = trace w ++ (setCall <$> records)
             /\ sameStorage w w'.
Proof.
  revert w. induction records as [|c cs IH]; intros w.
  - exists w. simpl. split; [reflexivity|]. split; [now rewrite app_nil_r|].
    reflexivity.
  - cbn [forEach]. unfold bind.
    assert (Hone : exists w1, restoreOne B c w = (Returned tt, w1)
                              /\ trace w1 = trace w ++ [setCall c]
                              /\ sameStorage w w1).
    { unfold restoreOne, tryCatch, cookies_set, bind, host, modify, ret.
      destruct (faults w) as [|[|] fs]; simpl; eexists;
        (split; [reflexivity|]); split; try reflexivity; repeat split. }
    destruct Hone as (w1 & -> & Ht1 & Hs1).
    destruct (IH w1) as (w' & -> & Ht & Hs). exists w'.
    split; [reflexivity|]. split.
    + rewrite Ht, Ht1. simpl. now rewrite <- app_assoc.
    + now transitivity w1.
Qed.

Lemma restore_buckets (B : Browser) (entries : list (string * list Cookie))
    (w : World) :
  exists w', forEach entries (restoreBucket B) w = (Returned tt, w')
             /\ trace w' = trace w ++ (setCall <$> concat (snd <$> entries))
             /\ sameStorage w w'.
Proof.
  revert w. induction entries as [|entry entries IH]; intros w.
  - exists w. simpl. split; [reflexivity|]. split; [now rewrite app_nil_r|].
    reflexivity.
  - cbn [forEach]. unfold bind. unfold restoreBucket at 1.
    destruct (restore_records B (snd entry) w) as (w1 & -> & Ht1 & Hs1).
    destruct (IH w1) as (w' & -> & Ht & Hs). exists w'.
    split; [reflexivity|]. split.
    + rewrite Ht, Ht1, fmap_cons. simpl concat.
      now rewrite fmap_app, <- app_assoc.
    + now transitivity w1.
Qed.

(** An object without keys has no entries. *)
Lemma entries_empty (B : Browser) : entries B ∅ = [].
Proof.
  apply Permutation_nil_r. rewrite (entries_all B ∅).
  now rewrite map_to_list_empty.
Qed.

(** The records visited are the stored records, each once. *)
Lemma storedRecords_all (B : Browser) (snap : Snapshot) :
  storedRecords B snap ≡ₚ concat (snd <$> map_to_list snap).
Proof. unfold storedRecords. now rewrite (entries_all B snap). Qed.

(** [loadCookies] once the cookie data was read. *)
Lemma load_accepted (B : Browser) (profileId : string) (w : World) :
  hd false (faults w) = false ->
  exists w',
    CookieManagerSw.loadCookies B profileId w = (Returned tt, w')
    /\ trace w'
       = trace w ++ StorageGet KCookieData
           :: (setCall <$> storedRecords B (profileCookiesOf profileId (cookieData w)))
    /\ sameStorage w w'.
Proof.
  intros Hhd.
  unfold CookieManagerSw.loadCookies, tryCatch at 1, bind at 1, getCookieData,
    getStorage, bind at 1, host, gets.
  assert (Hw1 : sameStorage w (logCall (StorageGet KCookieData) w))
    by (repeat split).
  unfold storedRecords, profileCookiesOf.
  destruct (faults w) as [|[|] fs]; try discriminate; cbv beta iota;
    change (cookieData (logCall (StorageGet KCookieData) w)) with (cookieData w);
    (destruct (cookieData w !! profileId) as [snap|]; simpl;
     [ change (fun entry : string * list Cookie =>
                 forEach (snd entry)
                   (fun cookie =>
                      tryCatch (cookies_set B (cookieDetails cookie))
                               (fun error => ret tt)))
         with (restoreBucket B);
       destruct (restore_buckets B (entries B snap)
                   (logCall (StorageGet KCookieData) w)) as (w' & -> & Ht & Hs);
       exists w'; split; [reflexivity|]; split;
       [ rewrite Ht; simpl; now rewrite <- app_assoc
       | now transitivity (logCall (StorageGet KCookieData) w) ]
     | eexists; split; [reflexivity|]; split;
       [ now rewrite entries_empty | exact Hw1 ] ]).
Qed.

Lemma load_rejected (B : Browser) (profileId : string) (w : World) :
  hd false (faults w) = true ->
  CookieManagerSw.loadCookies B profileId w
  = (Thrown (HostError (StorageGet KCookieData)),
     logCall (StorageGet KCookieData) w).
Proof.
  unfold CookieManagerSw.loadCookies, tryCatch, bind, getCookieData, getStorage,
    bind, host, throw.
  destruct (faults w) as [|[|] fs]; simpl; try discriminate. reflexivity.
Qed.

(** The two copies of [loadCookies] are the same task. *)
Lemma loadCookies_same (B : Browser) (profileId : string) :
  CookieManager.loadCookies B profileId = CookieManagerSw.loadCookies B profileId.
Proof. reflexivity. Qed.

End LoadFacts.

(** X1.  [loadCookies] (either variant) reads the cookie data once.  When
    that read is rejected it throws the rejection and does nothing else.
    Otherwise it returns, whatever the host answers afterwards, having
    issued one [chrome.cookies.set] per record of each bucket, in the order
    of the bucket, the buckets taken in the order in which the object read
    from storage lists them (none when the profile has no snapshot); a
    rejected set does not stop the loop.  The records so visited are the
    stored records of the profile, each once.  It never changes the stored
    data or the guard flag. *)
Theorem X1_loadCookies_calls (B : Browser) (profileId : string) (w : World) :
  let snap := profileCookiesOf profileId (cookieData w) in
  let outSw := CookieManagerSw.loadCookies B profileId w in
  let outEs := CookieManager.loadCookies B profileId w in
  outEs = outSw
  /\ sameStorage w (snd outSw)
  /\ (if hd false (faults w)
      then outSw = (Thrown (HostError (StorageGet KCookieData)),
                    logCall (StorageGet KCookieData) w)
      else fst outSw = Returned tt
           /\ trace (snd outSw)
              = trace w ++ StorageGet KCookieData
                  :: (setCall <$> concat (snd <$> entries B snap)))
  /\ concat (snd <$> entries B snap) ≡ₚ concat (snd <$> map_to_list snap).
Proof.
  cbv zeta. split; [now rewrite LoadFacts.loadCookies_same|].
  split; [|split; [|apply LoadFacts.storedRecords_all]].
  - destruct (hd false (faults w)) eqn:Hhd.
    + rewrite (LoadFacts.load_rejected B profileId w Hhd). repeat split.
    + destruct (LoadFacts.load_accepted B profileId w Hhd) as (w' & -> & _ & Hs).
      exact Hs.
  - destruct (hd false (faults w)) eqn:Hhd.
    + apply (LoadFacts.load_rejected B profileId w Hhd).
    + destruct (LoadFacts.load_accepted B profileId w Hhd) as (w' & -> & Ht & _).
      split; [reflexivity | exact Ht].
Qed.

(** Three buckets, read back from storage in ascending key order: the
    cookies are set in that order. *)
Example loadCookies_bucket_order :
  let w := sampleWorld [] None
             {[ "p-work" := {[ "c.com" := [sampleCookie "c" "c.com" "3"];
                               "a.com" := [sampleCookie "a" "a.com" "1"];
                               "b.com" := [sampleCookie "b" "b.com" "2"] ]} ]} [] in
  trace (snd (CookieManagerSw.loadCookies sampleBrowser "p-work" w))
  = [StorageGet KCookieData;
     setCall (sampleCookie "a" "a.com" "1");
     setCall (sampleCookie "b" "b.com" "2");
     setCall (sampleCookie "c" "c.com" "3")].
Proof. vm_compute. reflexivity. Qed.

(** ** Writing one bucket *)

Module BucketFacts.

Lemma bucketAt_insert (profileId key : string) (v : list Cookie)
    (cd : CookieData) (profileId' key' : string) :
  bucketAt profileId' key'
    (<[profileId := <[key := v]> (profileCookiesOf profileId cd)]> cd)
  = if decide (profileId = profileId' /\ key = key') then Some v
    else bucketAt profileId' key' cd.
Proof.
  unfold bucketAt, profileCookiesOf.
  destruct (decide (profileId = profileId')) as [<-|Hp].
  - rewrite lookup_insert_eq. simpl.
    destruct (decide (key = key')) as [<-|Hk].
    + rewrite lookup_insert_eq. now rewrite decide_True.
    + rewrite lookup_insert_ne by exact Hk.
      rewrite decide_False by (intros [_ ?]; contradiction).
      destruct (cd !! profileId); simpl; [reflexivity | apply lookup_empty].
  - rewrite lookup_insert_ne by exact Hp.
    now rewrite decide_False by (intros [? _]; contradiction).
Qed.

Lemma sameState_sameButCookieData (w w' : World) :
  sameState w w' -> sameButCookieData w w'.
Proof. intros (?&?&?&?&?&?). now repeat split. Qed.

Lemma allOrNothing_ret {A} (a : A) : allOrNothing (ret a).
Proof. intros w. simpl. repeat split. Qed.

Lemma allOrNothing_throw {A} (e : Error) : allOrNothing (@throw A e).
Proof. intros w. simpl. repeat split. Qed.

(** A step that changes nothing, followed by an all-or-nothing rest. *)
Lemma allOrNothing_bind {A C} (m : Task A) (k : A -> Task C) :
  stable sameState m -> (forall a, allOrNothing (k a)) ->
  allOrNothing (bind m k).
Proof.
  intros Hm Hk w. unfold bind. specialize (Hm w).
  destruct (m w) as [[a|e] w1]; simpl in *; [|exact Hm].
  specialize (Hk a w1). destruct (fst (k a w1)).
  - transitivity w1; [now apply sameState_sameButCookieData | exact Hk].
  - now transitivity w1.
Qed.

Lemma allOrNothing_rethrow {A} (m : Task A) :
  allOrNothing m -> allOrNothing (tryCatch m (fun error => throw error)).
Proof.
  intros Hm w. unfold tryCatch, throw. specialize (Hm w).
  destruct (m w) as [[a|e] w1]; simpl in *; exact Hm.
Qed.

Lemma allOrNothing_saveCookieData (cd : CookieData) :
  allOrNothing (saveCookieData cd).
Proof.
  intros w. unfold saveCookieData, setStorage, bind, host, modify.
  destruct (faults w) as [|[|] fs]; simpl; repeat split.
Qed.

Lemma getCookieData_sameState : stable sameState getCookieData.
Proof. unfold_tasks. stable_walk split_leaf. Qed.

Lemma cookies_getAll_sameState (B : Browser) (filter : option string) :
  stable sameState (cookies_getAll B filter).
Proof. unfold_tasks. stable_walk split_leaf. Qed.

Lemma saveCookies_allOrNothing (B : Browser) (profileId domain : string) :
  allOrNothing (CookieManagerSw.saveCookies B profileId domain).
Proof.
  unfold CookieManagerSw.saveCookies. apply allOrNothing_rethrow.
  apply allOrNothing_bind; [apply cookies_getAll_sameState | intros cookies].
  apply allOrNothing_bind; [apply getCookieData_sameState | intros cd].
  apply allOrNothing_saveCookieData.
Qed.

Lemma sw_upsert_allOrNothing (cookie : Cookie) :
  allOrNothing (CookieManagerSw.saveCookieToActiveProfile cookie).
Proof.
  unfold CookieManagerSw.saveCookieToActiveProfile.
  apply allOrNothing_bind; [apply ConfigFacts.getActiveProfile_sameState|].
  intros [p|]; [|apply allOrNothing_ret].
  destruct (negb _); [apply allOrNothing_ret|]. cbv zeta.
  apply allOrNothing_bind; [apply getCookieData_sameState | intros cd].
  destruct (upsertInto _ _ _ _);
    [apply allOrNothing_saveCookieData | apply allOrNothing_throw].
Qed.

Lemma es_upsert_allOrNothing (cookie : Cookie) :
  allOrNothing (CookieManager.saveCookieToActiveProfile cookie).
Proof.
  unfold CookieManager.saveCookieToActiveProfile.
  apply allOrNothing_bind; [apply ConfigFacts.getActiveProfile_sameState|].
  intros [p|]; [|apply allOrNothing_ret].
  destruct (negb _); [apply allOrNothing_ret|].
  destruct (List.find _ _) as [md|]; [|apply allOrNothing_ret].
  destruct (String.eqb md ""); [apply allOrNothing_ret|].
  apply allOrNothing_bind; [apply getCookieData_sameState | intros cd].
  destruct (upsertInto _ _ _ _);
    [apply allOrNothing_saveCookieData | apply allOrNothing_throw].
Qed.

Lemma clearProfileCookies_allOrNothing (profileId : string) :
  allOrNothing (CookieManagerSw.clearProfileCookies profileId).
Proof.
  unfold CookieManagerSw.clearProfileCookies.
  apply allOrNothing_bind; [apply getCookieData_sameState | intros cd].
  destruct (cd !! profileId); [apply allOrNothing_saveCookieData|].
  apply allOrNothing_ret.
Qed.

(** [saveCookies] on a host that rejects nothing. *)
Lemma saveCookies_quiet (B : Browser) (profileId domain : string) (w : World) :
  faults w = [] ->
  exists w',
    CookieManagerSw.saveCookies B profileId domain w = (Returned tt, w')
    /\ cookieData w'
       = <[profileId :=
             <[domain := cookieRecord <$> List.filter (domainFilter B domain) (jar w)]>
               (profileCookiesOf profileId (cookieData w))]> (cookieData w)
    /\ sameButCookieData w w' /\ faults w' = []
    /\ trace w' = trace w ++ [CookiesGetAll (Some domain);
                              StorageGet KCookieData; StorageSet KCookieData].
Proof.
  intros Hf. destruct w as [ps aid pe cd j fl fs tr]; simpl in *. subst fs.
  eexists. split; [reflexivity|]. simpl.
  assert (Ho : profileCookiesOf profileId (initProfile profileId cd)
               = profileCookiesOf profileId cd).
  { unfold profileCookiesOf, initProfile.
    destruct (cd !! profileId) eqn:Hp; [now rewrite Hp|].
    now rewrite lookup_insert_eq. }
  rewrite Ho, SaveFacts.insert_initProfile.
  split; [reflexivity|]. split; [repeat split|]. split; [reflexivity|].
  now rewrite <- !app_assoc.
Qed.

Lemma saveCookies_same (B : Browser) (profileId domain : string) :
  CookieManager.saveCookies B profileId domain
  = CookieManagerSw.saveCookies B profileId domain.
Proof. reflexivity. Qed.

End BucketFacts.

(** X2.  On a host that rejects nothing, [saveCookies(profileId, domain)]
    (either variant) returns with the bucket of that profile and that domain
    replaced by the records of exactly the cookies the browser returns for
    the domain filter, in the browser's order; every other bucket of every
    profile is as before, and so are the profiles, the pointer and the live
    cookies.  Saving again right away leaves the cookie data as it is. *)
Theorem X2_saveCookies_replaces_bucket (B : Browser) (profileId domain : string)
    (w : World) :
  faults w = [] ->
  let outSw := CookieManagerSw.saveCookies B profileId domain w in
  let w' := snd outSw in
  CookieManager.saveCookies B profileId domain w = outSw
  /\ fst outSw = Returned tt
  /\ (forall profileId' key',
        bucketAt profileId' key' (cookieData w')
        = if decide (profileId = profileId' /\ domain = key')
          then Some (cookieRecord <$> List.filter (domainFilter B domain) (jar w))
          else bucketAt profileId' key' (cookieData w))
  /\ sameButCookieData w w'
  /\ cookieData (snd (CookieManagerSw.saveCookies B profileId domain w'))
     = cookieData w'.
Proof.
  intros Hf. cbv zeta. split; [reflexivity|].
  destruct (BucketFacts.saveCookies_quiet B profileId domain w Hf)
    as (w' & -> & Hcd & Hs & Hf' & _). simpl.
  split; [reflexivity|]. split.
  { intros pid' k'. rewrite Hcd. apply BucketFacts.bucketAt_insert. }
  split; [exact Hs|].
  destruct (BucketFacts.saveCookies_quiet B profileId domain w' Hf')
    as (w2 & -> & Hcd2 & _). simpl.
  destruct Hs as (_ & _ & _ & Hj & _).
  rewrite Hcd2, Hj, Hcd.
  unfold profileCookiesOf at 1. rewrite lookup_insert_eq. simpl.
  now rewrite !insert_insert_eq.
Qed.

(** The instance of X2 on a jar with one cookie under the domain. *)
Lemma X2_saveCookies_replaces_bucket_witness :
  let w := sampleWorld [] None ∅
             [sampleCookie "sid" "a.example.com" "1";
              sampleCookie "tok" "other.com" "2"] in
  bucketAt "p-work" "example.com"
    (cookieData (snd (CookieManagerSw.saveCookies sampleBrowser
                        "p-work" "example.com" w)))
  = Some [sampleCookie "sid" "a.example.com" "1"].
Proof.
  intros w.
  destruct (X2_saveCookies_replaces_bucket sampleBrowser "p-work" "example.com"
              w eq_refl) as (_ & _ & Hb & _).
  rewrite Hb. reflexivity.
Defined.

(** X3.  The writers that read the cookie data, change it and write it back
    once ([saveCookies], [saveCookieToActiveProfile] and
    [clearProfileCookies], in both variants) are all-or-nothing for any host
    behaviour: when the call throws, the stored data, the live cookies and
    the flag are exactly as before; when it returns, nothing but the cookie
    data has changed. *)
Theorem X3_single_writers_all_or_nothing (B : Browser) (profileId domain : string)
    (cookie : Cookie) :
  allOrNothing (CookieManagerSw.saveCookies B profileId domain)
  /\ allOrNothing (CookieManager.saveCookies B profileId domain)
  /\ allOrNothing (CookieManagerSw.saveCookieToActiveProfile cookie)
  /\ allOrNothing (CookieManager.saveCookieToActiveProfile cookie)
  /\ allOrNothing (CookieManagerSw.clearProfileCookies profileId)
  /\ allOrNothing (CookieManager.clearProfileCookies profileId).
Proof.
  repeat split.
  - apply BucketFacts.saveCookies_allOrNothing.
  - rewrite BucketFacts.saveCookies_same. apply BucketFacts.saveCookies_allOrNothing.
  - apply BucketFacts.sw_upsert_allOrNothing.
  - apply BucketFacts.es_upsert_allOrNothing.
  - apply BucketFacts.clearProfileCookies_allOrNothing.
  - apply BucketFacts.clearProfileCookies_allOrNothing.
Qed.

(** ** Deleting a profile's snapshot *)

Module ClearProfileFacts.

Lemma clearProfileCookies_quiet (profileId : string) (w : World) :
  faults w = [] ->
  exists w',
    CookieManagerSw.clearProfileCookies profileId w = (Returned tt, w')
    /\ cookieData w' = delete profileId (cookieData w)
    /\ sameButCookieData w w' /\ faults w' = []
    /\ trace w'
       = trace w ++ StorageGet KCookieData
           :: match cookieData w !! profileId with
              | Some _ => [StorageSet KCookieData]
              | None => []
              end.
Proof.
  intros Hf. destruct w as [ps aid pe cd j fl fs tr]; simpl in *. subst fs.
  unfold CookieManagerSw.clearProfileCookies, getCookieData, saveCookieData,
    getStorage, setStorage, bind, host, gets, modify, ret. simpl.
  destruct (cd !! profileId) eqn:Hp; simpl; eexists;
    (split; [reflexivity|]); simpl.
  - split; [reflexivity|]. split; [repeat split|]. split; [reflexivity|].
    now rewrite <- app_assoc.
  - split; [symmetry; now apply delete_id|]. now repeat split.
Qed.

End ClearProfileFacts.

(** X4.  On a host that rejects nothing, [clearProfileCookies(profileId)]
    (either variant) returns with the profile's snapshot gone and every
    other profile's snapshot as before; nothing else changes, and storage is
    written only when there was a snapshot to delete.  A [loadCookies] of
    that profile right afterwards sets no cookie. *)
Theorem X4_clearProfileCookies (B : Browser) (profileId : string) (w : World) :
  faults w = [] ->
  let out := CookieManagerSw.clearProfileCookies profileId w in
  let w' := snd out in
  CookieManager.clearProfileCookies profileId w = out
  /\ fst out = Returned tt
  /\ cookieData w' !! profileId = None
  /\ (forall other, other <> profileId ->
                    cookieData w' !! other = cookieData w !! other)
  /\ sameButCookieData w w'
  /\ (cookieData w !! profileId = None ->
      trace w' = trace w ++ [StorageGet KCookieData])
  /\ trace (snd (CookieManagerSw.loadCookies B profileId w'))
     = trace w' ++ [StorageGet KCookieData].
Proof.
  intros Hf. cbv zeta. split; [reflexivity|].
  destruct (ClearProfileFacts.clearProfileCookies_quiet profileId w Hf)
    as (w' & -> & Hcd & Hs & Hf' & Ht). simpl.
  split; [reflexivity|].
  split; [rewrite Hcd; apply lookup_delete_eq|].
  split; [intros other Hne; rewrite Hcd; now apply lookup_delete_ne|].
  split; [exact Hs|].
  split; [intros Hnone; now rewrite Ht, Hnone|].
  assert (Hhd : hd false (faults w') = false) by now rewrite Hf'.
  destruct (LoadFacts.load_accepted B profileId w' Hhd) as (w2 & -> & Ht2 & _).
  simpl. rewrite Ht2. unfold storedRecords, profileCookiesOf.
  rewrite Hcd, lookup_delete_eq. simpl. now rewrite LoadFacts.entries_empty.
Qed.

(** The instance of X4 on a store with two snapshots. *)
Lemma X4_clearProfileCookies_witness :
  let w := sampleWorld [] None
             {[ "p-work" := {[ "example.com" := [sampleCookie "sid" "example.com" "1"] ]};
                "p-home" := {[ "other.com" := [sampleCookie "tok" "other.com" "2"] ]} ]}
             [] in
  let w' := snd (CookieManagerSw.clearProfileCookies "p-work" w) in
  cookieData w' !! "p-work" = None
  /\ cookieData w' !! "p-home"
     = Some {[ "other.com" := [sampleCookie "tok" "other.com" "2"] ]}.
Proof.
  intros w w'.
  destruct (X4_clearProfileCookies sampleBrowser "p-work" w eq_refl)
    as (_ & _ & Hgone & Hother & _).
  split; [exact Hgone|].
  unfold w'. rewrite (Hother "p-home") by discriminate.
  vm_compute. reflexivity.
Defined.

(** ** What the cookie calls leave alone *)

Module SafetyFacts.

Lemma clearAll_sameStorage (B : Browser) (excludeDomains : list string) :
  stable sameStorage (CookieManagerSw.clearAllCookies B excludeDomains).
Proof.
  unfold CookieManagerSw.clearAllCookies. unfold_tasks. stable_walk split_leaf.
Qed.

Lemma clearAll_emits (B : Browser) (excludeDomains : list string) :
  stable (emits noStorageWriteNoSet)
         (CookieManagerSw.clearAllCookies B excludeDomains).
Proof.
  unfold CookieManagerSw.clearAllCookies. unfold_tasks.
  stable_walk ltac:(emits_leaf ltac:(exact I)).
Qed.

Lemma es_clearAll_sameStorage (B : Browser) (excludeDomains : list string) :
  stable sameStorage (CookieManager.clearAllCookies B excludeDomains).
Proof.
  unfold CookieManager.clearAllCookies. unfold_tasks. stable_walk split_leaf.
Qed.

Lemma es_clearAll_emits (B : Browser) (excludeDomains : list string) :
  stable (emits noStorageWriteNoSet)
         (CookieManager.clearAllCookies B excludeDomains).
Proof.
  unfold CookieManager.clearAllCookies. unfold_tasks.
  stable_walk ltac:(emits_leaf ltac:(exact I)).
Qed.

Lemma notExcluded_nil (matcher : string -> string -> bool) (cookies : list Cookie) :
  notExcluded matcher [] cookies = cookies.
Proof.
  unfold notExcluded. induction cookies as [|c cs IH]; [reflexivity|].
  cbn [List.filter existsb negb]. now f_equal.
Qed.

Ltac unfold_cookie_managers :=
  unfold CookieManagerSw.saveCurrentProfileCookies,
    CookieManager.saveCurrentProfileCookies,
    CookieManagerSw.saveCookieToActiveProfile,
    CookieManager.saveCookieToActiveProfile,
    CookieManagerSw.saveCookies, CookieManager.saveCookies;
  unfold_tasks.

Lemma sw_save_sameButCookieData (B : Browser) :
  stable sameButCookieData (CookieManagerSw.saveCurrentProfileCookies B).
Proof. unfold_cookie_managers. stable_walk split_leaf. Qed.

Lemma es_save_sameButCookieData (B : Browser) :
  stable sameButCookieData (CookieManager.saveCurrentProfileCookies B).
Proof. unfold_cookie_managers. stable_walk split_leaf. Qed.

Lemma sw_save_emits (B : Browser) :
  stable (emits isSaveEvent) (CookieManagerSw.saveCurrentProfileCookies B).
Proof. unfold_cookie_managers. stable_walk ltac:(emits_leaf ltac:(exact I)). Qed.

Lemma es_save_emits (B : Browser) :
  stable (emits isSaveEvent) (CookieManager.saveCurrentProfileCookies B).
Proof. unfold_cookie_managers. stable_walk ltac:(emits_leaf ltac:(exact I)). Qed.

End SafetyFacts.

(** X5.  [clearAllCookies] (either variant), whatever the host answers,
    never writes to storage and never sets a cookie: profiles, pointer,
    enabled flag, cookie data and guard flag are as before.  When the
    enumeration of the live cookies is rejected it throws that rejection and
    the live cookies are untouched; with an empty exclude list and an
    accepted enumeration it issues a removal for every live cookie. *)
Theorem X5_clearAllCookies_safety (B : Browser) (excludeDomains : list string)
    (w : World) :
  let outSw := CookieManagerSw.clearAllCookies B excludeDomains w in
  let outEs := CookieManager.clearAllCookies B excludeDomains w in
  sameStorage w (snd outSw) /\ sameStorage w (snd outEs)
  /\ emits noStorageWriteNoSet w (snd outSw)
  /\ emits noStorageWriteNoSet w (snd outEs)
  /\ if hd false (faults w)
     then outSw = (Thrown (HostError (CookiesGetAll None)),
                   logCall (CookiesGetAll None) w)
          /\ outEs = outSw
     else trace (snd (CookieManagerSw.clearAllCookies B [] w))
          = trace w ++ CookiesGetAll None :: (removeCall <$> jar w)
          /\ trace (snd (CookieManager.clearAllCookies B [] w))
             = trace w ++ CookiesGetAll None :: (removeCall <$> jar w).
Proof.
  cbv zeta.
  split; [apply SafetyFacts.clearAll_sameStorage|].
  split; [apply SafetyFacts.es_clearAll_sameStorage|].
  split; [apply SafetyFacts.clearAll_emits|].
  split; [apply SafetyFacts.es_clearAll_emits|].
  destruct (hd false (faults w)) eqn:Hhd.
  - rewrite (ClearFacts.clearAll_rejected B excludeDomains w Hhd).
    split; [reflexivity|].
    unfold CookieManager.clearAllCookies, tryCatch, bind, cookies_getAll, bind,
      host, throw.
    destruct (faults w) as [|[|] fs]; simpl in *; try discriminate. reflexivity.
  - split.
    + destruct (ClearFacts.clearAll_run B CookieManagerSw.isDomainMatch [] w Hhd)
        as [_ Ht].
      rewrite SafetyFacts.notExcluded_nil in Ht. exact Ht.
    + destruct (ClearFacts.clearAll_run B CookieManager.isDomainMatch [] w Hhd)
        as [_ Ht].
      rewrite SafetyFacts.notExcluded_nil in Ht. exact Ht.
Qed.

(** X6.  Saving never touches the browser or the profile store:
    [saveCurrentProfileCookies] (either variant), whatever the host answers
    and however far it gets, leaves the live cookies, the profiles, the
    pointer, the enabled flag and the guard flag as they were, and the only
    calls it makes are storage reads, writes of the cookie data and cookie
    enumerations. *)
Theorem X6_saving_leaves_browser_alone (B : Browser) (w : World) :
  sameButCookieData w (snd (CookieManagerSw.saveCurrentProfileCookies B w))
  /\ sameButCookieData w (snd (CookieManager.saveCurrentProfileCookies B w))
  /\ emits isSaveEvent w (snd (CookieManagerSw.saveCurrentProfileCookies B w))
  /\ emits isSaveEvent w (snd (CookieManager.saveCurrentProfileCookies B w)).
Proof.
  split; [apply SafetyFacts.sw_save_sameButCookieData|].
  split; [apply SafetyFacts.es_save_sameButCookieData|].
  split; [apply SafetyFacts.sw_save_emits | apply SafetyFacts.es_save_emits].
Qed.

(** ** The incremental save, bucket by bucket *)

Module FrameFacts.
Import UpsertFacts.

(** What the service-worker incremental save does to the cookie data,
    whatever the host answers. *)
Lemma sw_upsert_effect (cookie : Cookie) (w : World) :
  cookieData (snd (CookieManagerSw.saveCookieToActiveProfile cookie w))
  = cookieData w
  \/ exists p,
       activeProfileOf w = Some p
       /\ CookieManagerSw.isCookieInDomains cookie (Profile.domains p) = true
       /\ cookieData (snd (CookieManagerSw.saveCookieToActiveProfile cookie w))
          = upserted (Profile.id p) (stripLeadingDot (domain cookie)) cookie
                       (cookieData w).
Proof.
  pose proof (ConfigFacts.getActiveProfile_sameState w) as Hs.
  pose proof (ConfigFacts.getActiveProfile_result w) as Hr.
  remember (CookieManagerSw.saveCookieToActiveProfile cookie w) as out eqn:Hout.
  unfold CookieManagerSw.saveCookieToActiveProfile, bind at 1 in Hout.
  destruct (ConfigManager.getActiveProfile w) as [r w1]; simpl in Hs, Hr.
  destruct Hs as (_ & _ & _ & Hcd & _).
  destruct Hr as [-> | [e ->]]; [|subst out; now left].
  destruct (activeProfileOf w) as [p|] eqn:Hp; [|subst out; now left].
  destruct (CookieManagerSw.isCookieInDomains cookie (Profile.domains p)) eqn:Hin;
    [|subst out; now left].
  cbv zeta in Hout. simpl negb in Hout. cbv iota in Hout.
  unfold getCookieData, saveCookieData, getStorage, setStorage, bind, host,
    gets, modify in Hout.
  destruct w1 as [ps aid pe cd j fl fs tr]; simpl in *. subst cd.
  destruct fs as [|[|] [|[|] fs]]; simpl in Hout;
    try rewrite SnapshotFacts.upsertInto_spec in Hout;
    try destruct (readsInherited _ _); simpl in Hout; subst out; simpl;
    try (now left); right; exists p; auto.
Qed.

(** The same for the ES-module incremental save. *)
Lemma es_upsert_effect (cookie : Cookie) (w : World) :
  cookieData (snd (CookieManager.saveCookieToActiveProfile cookie w))
  = cookieData w
  \/ exists p key,
       activeProfileOf w = Some p
       /\ CookieManager.isDomainMatch (domain cookie) key = true
       /\ In key (default [] (Profile.domains p))
       /\ cookieData (snd (CookieManager.saveCookieToActiveProfile cookie w))
          = upserted (Profile.id p) key cookie (cookieData w).
Proof.
  pose proof (ConfigFacts.getActiveProfile_sameState w) as Hs.
  pose proof (ConfigFacts.getActiveProfile_result w) as Hr.
  remember (CookieManager.saveCookieToActiveProfile cookie w) as out eqn:Hout.
  unfold CookieManager.saveCookieToActiveProfile, bind at 1 in Hout.
  destruct (ConfigManager.getActiveProfile w) as [r w1]; simpl in Hs, Hr.
  destruct Hs as (_ & _ & _ & Hcd & _).
  destruct Hr as [-> | [e ->]]; [|subst out; now left].
  destruct (activeProfileOf w) as [p|] eqn:Hp; [|subst out; now left].
  destruct (negb _); [subst out; now left|].
  destruct (List.find _ _) as [key|] eqn:Hfind; [|subst out; now left].
  destruct (String.eqb key ""); [subst out; now left|].
  apply find_some in Hfind as [Hin Hmatch].
  unfold getCookieData, saveCookieData, getStorage, setStorage, bind, host,
    gets, modify in Hout.
  destruct w1 as [ps aid pe cd j fl fs tr]; simpl in *. subst cd.
  destruct fs as [|[|] [|[|] fs]]; simpl in Hout;
    try rewrite SnapshotFacts.upsertInto_spec in Hout;
    try destruct (readsInherited _ _); simpl in Hout; subst out; simpl;
    try (now left); right; exists p, key; auto.
Qed.

Lemma upserted_frame (profileId key : string) (cookie : Cookie)
    (cd : CookieData) (profileId' key' : string) :
  profileId' <> profileId \/ key' <> key ->
  bucketAt profileId' key' (upserted profileId key cookie cd)
  = bucketAt profileId' key' cd.
Proof.
  intros Hne. rewrite SnapshotFacts.upserted_eq, BucketFacts.bucketAt_insert.
  apply decide_False. intros [-> ->]. destruct Hne; contradiction.
Qed.

(** A cookie that the active profile does not cover, or no active profile. *)
Lemma sw_upsert_skips (cookie : Cookie) (w : World) :
  match activeProfileOf w with
  | Some p => CookieManagerSw.isCookieInDomains cookie (Profile.domains p) = false
  | None => True
  end ->
  sameState w (snd (CookieManagerSw.saveCookieToActiveProfile cookie w))
  /\ emits (fun e => ~ isStorageWrite e) w
           (snd (CookieManagerSw.saveCookieToActiveProfile cookie w)).
Proof.
  intros Hskip.
  pose proof (ConfigFacts.getActiveProfile_sameState w) as Hs.
  pose proof (ConfigFacts.getActiveProfile_result w) as Hr.
  pose proof (ConfigFacts.getActiveProfile_emits w) as He.
  assert (He' : emits (fun e => ~ isStorageWrite e) w
                      (snd (ConfigManager.getActiveProfile w))).
  { eapply emits_weaken; [|exact He]. intros e [k ->]. simpl. tauto. }
  remember (CookieManagerSw.saveCookieToActiveProfile cookie w) as out eqn:Hout.
  unfold CookieManagerSw.saveCookieToActiveProfile, bind at 1 in Hout.
  destruct (ConfigManager.getActiveProfile w) as [r w1]; simpl in *.
  destruct Hr as [-> | [e ->]]; [|subst out; now split].
  destruct (activeProfileOf w) as [p|]; [|subst out; now split].
  rewrite Hskip in Hout. simpl in Hout. subst out. now split.
Qed.

End FrameFacts.

(** X7.  The incremental save touches one bucket only, whatever the host
    answers.  In the service-worker variant every bucket whose key is not
    the cookie's own domain (leading dot stripped), and every bucket of a
    profile that is not the active one, is as before; in the ES-module
    variant every bucket whose key does not match the cookie's domain, and
    every bucket of a profile that is not the active one, is as before.  A
    cookie the active profile does not cover, or any cookie when no profile
    is active, changes nothing at all and causes no storage write
    (service-worker variant). *)
Theorem X7_upsert_touches_one_bucket (cookie : Cookie) (w : World) :
  (forall profileId' key',
     key' <> stripLeadingDot (domain cookie)
     \/ (forall p, activeProfileOf w = Some p -> Profile.id p <> profileId') ->
     bucketAt profileId' key'
       (cookieData (snd (CookieManagerSw.saveCookieToActiveProfile cookie w)))
     = bucketAt profileId' key' (cookieData w))
  /\
  (forall profileId' key',
     CookieManager.isDomainMatch (domain cookie) key' = false
     \/ (forall p, activeProfileOf w = Some p -> Profile.id p <> profileId') ->
     bucketAt profileId' key'
       (cookieData (snd (CookieManager.saveCookieToActiveProfile cookie w)))
     = bucketAt profileId' key' (cookieData w))
  /\
  (match activeProfileOf w with
   | Some p => CookieManagerSw.isCookieInDomains cookie (Profile.domains p) = false
   | None => True
   end ->
   sameState w (snd (CookieManagerSw.saveCookieToActiveProfile cookie w))
   /\ emits (fun e => ~ isStorageWrite e) w
            (snd (CookieManagerSw.saveCookieToActiveProfile cookie w))).
Proof.
  split; [|split].
  - intros pid' k' Hne.
    destruct (FrameFacts.sw_upsert_effect cookie w) as [-> | (p & Hp & _ & ->)];
      [reflexivity|].
    apply FrameFacts.upserted_frame. destruct Hne as [Hk | Hpid].
    + now right.
    + left. intros ->. now apply (Hpid p Hp).
  - intros pid' k' Hne.
    destruct (FrameFacts.es_upsert_effect cookie w)
      as [-> | (p & key & Hp & Hmatch & _ & ->)]; [reflexivity|].
    apply FrameFacts.upserted_frame. destruct Hne as [Hk | Hpid].
    + right. intros ->. congruence.
    + left. intros ->. now apply (Hpid p Hp).
  - apply FrameFacts.sw_upsert_skips.
Qed.

(** The instance of X7: the cookie of other.com is not covered by
    ["example.com"] and nothing is written. *)
Lemma X7_upsert_touches_one_bucket_witness :
  let w := sampleWorld [workProfile (Some ["example.com"])] (Some "p-work")
             {[ "p-work" := {[ "example.com" := [sampleCookie "sid" "example.com" "1"] ]} ]}
             [] in
  cookieData (snd (CookieManagerSw.saveCookieToActiveProfile
                     (sampleCookie "tok" "other.com" "2") w))
  = cookieData w.
Proof.
  intros w.
  destruct (X7_upsert_touches_one_bucket (sampleCookie "tok" "other.com" "2") w)
    as (_ & _ & Hskip).
  destruct (Hskip eq_refl) as [(_ & _ & _ & Hcd & _) _]. exact Hcd.
Defined.

(** X8.  The upsert inside a bucket ([findIndex] on (name, path), then
    replace or push) keeps every record with a different (name, path) at its
    index, adds nothing but the cookie's own record, and makes the bucket
    longer by one exactly when no record had the cookie's (name, path). *)
Theorem X8_upsertRecord_keeps_other_records (cookie : Cookie)
    (bucket : list Cookie) :
  (forall i r, bucket !! i = Some r -> recordKey r <> recordKey cookie ->
               upsertRecord cookie bucket !! i = Some r)
  /\ (forall r, r ∈ upsertRecord cookie bucket ->
                r = cookieRecord cookie \/ r ∈ bucket)
  /\ length (upsertRecord cookie bucket)
     = length bucket + (if existsb (sameKey cookie) bucket then 0 else 1).
Proof.
  destruct (UpsertFacts.upsertRecord_cases cookie bucket)
    as [(i & x & Hi & Hx & Hbefore & ->) | (Hnone & ->)].
  - split; [|split].
    + intros j r Hj Hr. destruct (decide (i = j)) as [<-|Hne].
      * rewrite Hi in Hj. injection Hj as <-. contradiction.
      * now rewrite list_lookup_insert_ne.
    + intros r Hr. apply list_elem_of_lookup in Hr as [j Hj].
      destruct (decide (i = j)) as [<-|Hne].
      * rewrite list_lookup_insert_eq in Hj
          by (eapply lookup_lt_Some; exact Hi).
        injection Hj as <-. now left.
      * rewrite list_lookup_insert_ne in Hj by exact Hne.
        right. eapply list_elem_of_lookup_2. exact Hj.
    + rewrite length_insert.
      replace (existsb (sameKey cookie) bucket) with true; [lia|].
      symmetry. apply existsb_exists. exists x. split.
      * apply list_elem_of_In. eapply list_elem_of_lookup_2. exact Hi.
      * apply UpsertFacts.sameKey_true. now apply UpsertFacts.recordKey_eq.
  - split; [|split].
    + intros j r Hj _. now apply lookup_app_l_Some.
    + intros r Hr. apply elem_of_app in Hr as [Hr | Hr]; [now right|].
      apply list_elem_of_singleton in Hr. now left.
    + rewrite length_app. simpl.
      replace (existsb (sameKey cookie) bucket) with false; [reflexivity|].
      symmetry. apply not_true_is_false. intros Hex.
      apply existsb_exists in Hex as (x & Hin & Hx).
      rewrite Forall_forall in Hnone.
      apply (Hnone x); [now apply list_elem_of_In|].
      apply UpsertFacts.recordKey_eq. now apply UpsertFacts.sameKey_true.
Qed.

(** ** The cookie-change listener *)

Module ListenerFacts.

Lemma isPluginEnabled_result (w : World) :
  fst (ConfigManager.isPluginEnabled w)
  = Returned (match pluginEnabled w with Some false => false | _ => true end)
  \/ fst (ConfigManager.isPluginEnabled w)
     = Thrown (HostError (StorageGet KPluginEnabled)).
Proof.
  unfold ConfigManager.isPluginEnabled, getStorage, bind, host, gets.
  destruct (faults w) as [|[|] fs]; simpl; auto.
Qed.

(** The errors [getActiveProfile] can throw. *)
Lemma getActiveProfile_throws (w : World) (e : Error) :
  fst (ConfigManager.getActiveProfile w) = Thrown e ->
  e = HostError (StorageGet KActiveProfileId)
  \/ e = HostError (StorageGet KProfiles).
Proof.
  unfold_tasks. unfold bind, host, gets, ret.
  destruct w as [ps aid pe cd j fl fs tr]; simpl.
  destruct fs as [|[|] fs]; simpl;
    try (destruct aid as [i|]; simpl; try destruct (String.eqb i ""); simpl;
         try destruct fs as [|[|] fs']; simpl);
    intros H; try discriminate H; injection H as <-; auto.
Qed.

(** The listener does nothing when a switch is in progress, the plugin is
    disabled, no profile is active or the cookie was removed. *)
Lemma handleCookieChange_ignores (CM : CookieManagerApi) (cookie : Cookie)
    (removed : bool) (w : World) :
  isSwitchingProfile w = true \/ pluginEnabled w = Some false
  \/ activeProfileOf w = None \/ removed = true ->
  sameState w (snd (ServiceWorker.handleCookieChange CM cookie removed w)).
Proof.
  intros Hcase.
  unfold ServiceWorker.handleCookieChange, bind at 1, gets.
  destruct (isSwitchingProfile w) eqn:Hflag; [reflexivity|].
  pose proof (ConfigFacts.isPluginEnabled_sameState w) as Hs1.
  pose proof (isPluginEnabled_result w) as Hr1.
  unfold bind at 1.
  destruct (ConfigManager.isPluginEnabled w) as [r1 w1]; simpl in Hs1, Hr1.
  destruct Hr1 as [-> | ->]; [|exact Hs1].
  destruct (match pluginEnabled w with Some false => false | _ => true end)
    eqn:Hen; simpl; [|exact Hs1].
  pose proof (ConfigFacts.getActiveProfile_sameState w1) as Hs2.
  pose proof (ConfigFacts.getActiveProfile_result w1) as Hr2.
  unfold bind at 1.
  destruct (ConfigManager.getActiveProfile w1) as [r2 w2]; simpl in Hs2, Hr2.
  assert (Hs : sameState w w2) by (now transitivity w1).
  destruct Hr2 as [-> | [e ->]]; [|exact Hs].
  assert (Hact : activeProfileOf w1 = activeProfileOf w).
  { destruct Hs1 as (Hps & Ha & _). unfold activeProfileOf. now rewrite Hps, Ha. }
  rewrite Hact.
  destruct (activeProfileOf w) as [p|]; [|exact Hs].
  destruct removed; [exact Hs|].
  destruct Hcase as [H | [H | [H | H]]]; try discriminate.
  rewrite H in Hen. discriminate.
Qed.

(** Only the listener's own three reads can make it throw. *)
Lemma handleCookieChange_throws (CM : CookieManagerApi) (cookie : Cookie)
    (removed : bool) (w : World) (e : Error) :
  fst (ServiceWorker.handleCookieChange CM cookie removed w) = Thrown e ->
  e = HostError (StorageGet KPluginEnabled)
  \/ e = HostError (StorageGet KActiveProfileId)
  \/ e = HostError (StorageGet KProfiles).
Proof.
  unfold ServiceWorker.handleCookieChange, bind at 1, gets.
  destruct (isSwitchingProfile w); [discriminate|].
  pose proof (isPluginEnabled_result w) as Hr1.
  unfold bind at 1.
  destruct (ConfigManager.isPluginEnabled w) as [r1 w1]; simpl in Hr1.
  destruct Hr1 as [-> | ->]; [|intros [= <-]; auto].
  destruct (negb _); [discriminate|].
  pose proof (getActiveProfile_throws w1) as Hr2.
  unfold bind at 1.
  destruct (ConfigManager.getActiveProfile w1) as [[a|e2] w2]; simpl in Hr2.
  - destruct a as [p|]; [|discriminate].
    destruct removed; [discriminate|].
    unfold tryCatch.
    destruct (api_saveCookieToActiveProfile CM cookie w2) as [[u|e3] w3];
      discriminate.
  - intros [= <-]. right. now apply Hr2.
Qed.

(** On a quiet host the listener is the incremental save. *)
Lemma handleCookieChange_quiet (CM : CookieManagerApi) (cookie : Cookie)
    (p : Profile.t) (w : World) :
  faults w = [] -> isSwitchingProfile w = false ->
  pluginEnabled w <> Some false -> activeProfileOf w = Some p ->
  exists w1,
    sameState w w1 /\ faults w1 = []
    /\ ServiceWorker.handleCookieChange CM cookie false w
       = tryCatch (api_saveCookieToActiveProfile CM cookie)
                  (fun error => ret tt) w1.
Proof.
  intros Hf Hflag Hen Hp.
  unfold ServiceWorker.handleCookieChange, bind at 1, gets. rewrite Hflag.
  assert (Hen' : match pluginEnabled w with Some false => false | _ => true end
                 = true).
  { destruct (pluginEnabled w) as [[|]|]; try reflexivity. now contradiction Hen. }
  assert (Hrun1 : exists w0, ConfigManager.isPluginEnabled w = (Returned true, w0)
                             /\ sameState w w0 /\ faults w0 = []).
  { unfold ConfigManager.isPluginEnabled, getStorage, bind, host, gets.
    rewrite Hf. cbn [fst snd]. unfold logCall. cbn [pluginEnabled].
    rewrite Hen'. eexists. split; [reflexivity|]. split; [repeat split|].
    simpl. now rewrite Hf. }
  destruct Hrun1 as (w0 & Hrun1 & Hs0 & Hf0).
  unfold bind at 1. rewrite Hrun1. cbn [negb]. cbv iota.
  destruct (SaveFacts.getActiveProfile_quiet w0 Hf0) as (w1 & Hrun2 & Hs1 & Hf1).
  unfold bind at 1. rewrite Hrun2.
  assert (Hact : activeProfileOf w0 = Some p).
  { destruct Hs0 as (Hps & Ha & _). unfold activeProfileOf in *.
    now rewrite Hps, Ha. }
  rewrite Hact. exists w1. split; [now transitivity w0|]. now split.
Qed.

End ListenerFacts.

(** X9.  The cookie-change listener [handleCookieChange], for either cookie
    manager and whatever the host answers, changes nothing when a switch is
    in progress, when the plugin is disabled, when no profile is active or
    when the change is a removal: the snapshot never loses a cookie because
    the browser did. *)
Theorem X9_handleCookieChange_ignores (CM : CookieManagerApi) (cookie : Cookie)
    (removed : bool) (w : World) :
  isSwitchingProfile w = true \/ pluginEnabled w = Some false
  \/ activeProfileOf w = None \/ removed = true ->
  sameState w (snd (ServiceWorker.handleCookieChange CM cookie removed w)).
Proof. apply ListenerFacts.handleCookieChange_ignores. Qed.

(** The instance of X9 on the removal of a stored cookie. *)
Lemma X9_handleCookieChange_ignores_witness :
  let w := sampleWorld [workProfile (Some ["example.com"])] (Some "p-work")
             {[ "p-work" := {[ "example.com" := [sampleCookie "sid" "example.com" "1"] ]} ]}
             [] in
  cookieData (snd (ServiceWorker.handleCookieChange
                     (CookieManagerSw.api sampleBrowser)
                     (sampleCookie "sid" "example.com" "1") true w))
  = cookieData w.
Proof.
  intros w.
  destruct (X9_handleCookieChange_ignores (CookieManagerSw.api sampleBrowser)
              (sampleCookie "sid" "example.com" "1") true w
              (or_intror (or_intror (or_intror eq_refl))))
    as (_ & _ & _ & Hcd & _).
  exact Hcd.
Defined.

(** X10.  What the save itself throws never leaves [handleCookieChange]:
    for any cookie manager, the only errors the listener can throw are the
    rejections of its own reads of the enabled flag, the pointer and the
    profile list, which it awaits outside its try block.  On a host that
    rejects nothing, with the flag clear, the plugin not disabled and an
    active profile, a non-removal change is saved exactly as
    [saveCookieToActiveProfile] saves it: in the service-worker variant a
    covered cookie is upserted into the bucket of its own domain, unless
    that domain only reads as a property every object inherits, in which
    case the save throws, the listener drops the error and nothing is
    stored; an uncovered cookie changes nothing. *)
Theorem X10_handleCookieChange_saves (CM : CookieManagerApi) (cookie : Cookie)
    (removed : bool) (w : World) :
  (forall e,
     fst (ServiceWorker.handleCookieChange CM cookie removed w) = Thrown e ->
     e = HostError (StorageGet KPluginEnabled)
     \/ e = HostError (StorageGet KActiveProfileId)
     \/ e = HostError (StorageGet KProfiles))
  /\
  (forall B p,
     CM = CookieManagerSw.api B ->
     faults w = [] -> isSwitchingProfile w = false ->
     pluginEnabled w <> Some false -> activeProfileOf w = Some p ->
     removed = false ->
     let out := ServiceWorker.handleCookieChange CM cookie removed w in
     let key := stripLeadingDot (domain cookie) in
     fst out = Returned tt
     /\ cookieData (snd out)
        = if CookieManagerSw.isCookieInDomains cookie (Profile.domains p)
             && negb (readsInherited key
                        (profileCookiesOf (Profile.id p) (cookieData w)))
          then upserted (Profile.id p) key cookie (cookieData w)
          else cookieData w).
Proof.
  split; [intros e; apply ListenerFacts.handleCookieChange_throws|].
  intros B p -> Hf Hflag Hen Hp ->. cbv zeta.
  destruct (ListenerFacts.handleCookieChange_quiet (CookieManagerSw.api B)
              cookie p w Hf Hflag Hen Hp) as (w1 & Hs & Hf1 & ->).
  assert (Hp1 : activeProfileOf w1 = Some p).
  { destruct Hs as (Hps & Ha & _). unfold activeProfileOf in *.
    now rewrite Hps, Ha. }
  assert (Hcd : cookieData w1 = cookieData w) by apply Hs.
  cbn [api_saveCookieToActiveProfile CookieManagerSw.api]. unfold tryCatch.
  rewrite <- Hcd.
  destruct (CookieManagerSw.isCookieInDomains cookie (Profile.domains p)) eqn:Hin.
  - destruct (readsInherited (stripLeadingDot (domain cookie))
                (profileCookiesOf (Profile.id p) (cookieData w1))) eqn:Hbad.
    + destruct (SnapshotFacts.sw_upsert_throws cookie p w1 Hf1 Hp1 Hin Hbad)
        as (w2 & -> & Hs2 & _).
      simpl. split; [reflexivity | apply Hs2].
    + destruct (SnapshotFacts.sw_upsert_quiet cookie p w1 Hf1 Hp1 Hin Hbad)
        as (w2 & -> & Hcd2 & _).
      simpl. split; [reflexivity | exact Hcd2].
  - assert (Hskip : match activeProfileOf w1 with
                    | Some q => CookieManagerSw.isCookieInDomains cookie
                                  (Profile.domains q) = false
                    | None => True
                    end) by now rewrite Hp1.
    destruct (FrameFacts.sw_upsert_skips cookie w1 Hskip)
      as [(_ & _ & _ & Hcd2 & _) _].
    assert (Hret : exists u,
      fst (CookieManagerSw.saveCookieToActiveProfile cookie w1) = Returned u).
    { unfold CookieManagerSw.saveCookieToActiveProfile, bind at 1.
      destruct (SaveFacts.getActiveProfile_quiet w1 Hf1) as (w2 & -> & _).
      rewrite Hp1, Hin. simpl. now exists tt. }
    destruct Hret as [[] Hret].
    destruct (CookieManagerSw.saveCookieToActiveProfile cookie w1) as [r w2];
      simpl in *. subst r. simpl. split; [reflexivity | exact Hcd2].
Qed.

(** The instance of X10: the cookie of shop.example.com arrives while the
    profile covering example.com is active. *)
Lemma X10_handleCookieChange_saves_witness :
  let w := sampleWorld [workProfile (Some ["example.com"])] (Some "p-work") ∅ [] in
  let cookie := sampleCookie "sid" ".shop.example.com" "1" in
  cookieData (snd (ServiceWorker.handleCookieChange
                     (CookieManagerSw.api sampleBrowser) cookie false w))
  = {[ "p-work" := {[ "shop.example.com" := [cookie] ]} ]}.
Proof.
  intros w cookie.
  destruct (X10_handleCookieChange_saves (CookieManagerSw.api sampleBrowser)
              cookie false w) as [_ Hsave].
  destruct (Hsave sampleBrowser (workProfile (Some ["example.com"])) eq_refl
              eq_refl eq_refl ltac:(discriminate) eq_refl eq_refl) as [_ Hcd].
  rewrite Hcd. vm_compute. reflexivity.
Defined.

(** A cookie of the host "constructor" under a profile that covers every
    domain: the listener returns and nothing is stored. *)
Example handleCookieChange_inherited_key :
  let w := sampleWorld [workProfile None] (Some "p-work") ∅ [] in
  ServiceWorker.handleCookieChange (CookieManagerSw.api sampleBrowser)
    (sampleCookie "sid" "constructor" "1") false w
  = (Returned tt,
     mkWorld [workProfile None] (Some "p-work") None ∅ [] false []
       [StorageGet KPluginEnabled; StorageGet KActiveProfileId;
        StorageGet KProfiles; StorageGet KActiveProfileId;
        StorageGet KProfiles; StorageGet KCookieData]).
Proof. vm_compute. reflexivity. Qed.

(** X11.  On a host that rejects nothing, [setPluginEnabled(enabled)]
    changes only the enabled flag and [isPluginEnabled] then returns
    [enabled]; a store in which the flag was never written reads as enabled;
    and once the plugin is disabled the cookie-change listener changes
    nothing, whatever it receives and whatever the host answers. *)
Theorem X11_setPluginEnabled (CM : CookieManagerApi) (enabled : bool)
    (cookie : Cookie) (removed : bool) (w : World) :
  faults w = [] ->
  let w' := snd (ConfigManager.setPluginEnabled enabled w) in
  fst (ConfigManager.setPluginEnabled enabled w) = Returned tt
  /\ fst (ConfigManager.isPluginEnabled w') = Returned enabled
  /\ profiles w' = profiles w /\ activeProfileId w' = activeProfileId w
  /\ cookieData w' = cookieData w /\ jar w' = jar w
  /\ (pluginEnabled w = None ->
      fst (ConfigManager.isPluginEnabled w) = Returned true)
  /\ (enabled = false ->
      forall fs,
        let w1 := mkWorld (profiles w') (activeProfileId w') (pluginEnabled w')
                          (cookieData w') (jar w') (isSwitchingProfile w')
                          fs (trace w') in
        sameState w1 (snd (ServiceWorker.handleCookieChange CM cookie removed w1))).
Proof.
  intros Hf. cbv zeta.
  destruct w as [ps aid pe cd j fl fs0 tr]; simpl in Hf; subst fs0.
  simpl. split; [reflexivity|]. split; [now destruct enabled|].
  do 4 (split; [reflexivity|]). split; [intros ->; reflexivity|].
  intros -> fs. apply ListenerFacts.handleCookieChange_ignores.
  right; left; reflexivity.
Qed.

(** The instance of X11: the plugin is disabled on a store that never held
    the flag. *)
Lemma X11_setPluginEnabled_witness :
  let w := sampleWorld [workProfile (Some ["example.com"])] (Some "p-work") ∅ [] in
  fst (ConfigManager.isPluginEnabled w) = Returned true
  /\ fst (ConfigManager.isPluginEnabled
            (snd (ConfigManager.setPluginEnabled false w))) = Returned false.
Proof.
  intros w.
  destruct (X11_setPluginEnabled (CookieManagerSw.api sampleBrowser) false
              (sampleCookie "sid" "example.com" "1") false w eq_refl)
    as (_ & Hread & _ & _ & _ & _ & Hdefault & _).
  split; [apply Hdefault; reflexivity | exact Hread].
Defined.

(** ** The profile store *)

Module ProfileFacts.

Lemma find_id (i : string) (ps : list Profile.t) (p : Profile.t) :
  List.find (fun p => String.eqb (Profile.id p) i) ps = Some p -> Profile.id p = i.
Proof. intros H. apply find_some in H as [_ H]. now apply String.eqb_eq. Qed.

Lemma find_filter_other (a b : string) (ps : list Profile.t) :
  a <> b ->
  List.find (fun p => String.eqb (Profile.id p) a)
    (List.filter (fun p => negb (String.eqb (Profile.id p) b)) ps)
  = List.find (fun p => String.eqb (Profile.id p) a) ps.
Proof.
  intros Hab. induction ps as [|p ps IH]; [reflexivity|]. simpl.
  destruct (String.eqb (Profile.id p) b) eqn:Hb; simpl.
  - apply String.eqb_eq in Hb. destruct (String.eqb (Profile.id p) a) eqn:Ha.
    + apply String.eqb_eq in Ha. congruence.
    + exact IH.
  - destruct (String.eqb (Profile.id p) a); [reflexivity | exact IH].
Qed.

Lemma find_filter_self (b : string) (ps : list Profile.t) :
  List.find (fun p => String.eqb (Profile.id p) b)
    (List.filter (fun p => negb (String.eqb (Profile.id p) b)) ps) = None.
Proof.
  induction ps as [|p ps IH]; [reflexivity|]. simpl.
  destruct (String.eqb (Profile.id p) b) eqn:Hb; simpl; [exact IH|].
  now rewrite Hb.
Qed.

Lemma find_app_found {A} (f : A -> bool) (l l' : list A) (x : A) :
  List.find f l = Some x -> List.find f (l ++ l') = Some x.
Proof.
  induction l as [|y l IH]; [discriminate|]. simpl.
  destruct (f y); [trivial | exact IH].
Qed.

Lemma find_app_missing {A} (f : A -> bool) (l l' : list A) :
  List.find f l = None -> List.find f (l ++ l') = List.find f l'.
Proof.
  induction l as [|y l IH]; [reflexivity|]. simpl.
  destruct (f y); [discriminate | exact IH].
Qed.

(** The runs of [deleteProfile]: four host calls, each of which may be
    rejected. *)
Lemma deleteProfile_run (profileId : string) (w : World) :
  let filtered :=
    List.filter (fun p => negb (String.eqb (Profile.id p) profileId)) (profiles w) in
  let out := ConfigManager.deleteProfile profileId w in
  sameButProfiles w (snd out)
  /\ match fst out with
     | Returned _ =>
         profiles (snd out) = filtered
         /\ activeProfileId (snd out)
            = match activeIdOf w with
              | Some i => if String.eqb i profileId then None
                          else activeProfileId w
              | None => activeProfileId w
              end
     | Thrown _ =>
         (profiles (snd out) = profiles w \/ profiles (snd out) = filtered)
         /\ activeProfileId (snd out) = activeProfileId w
     end
  /\ (faults w = [] -> fst out = Returned tt /\ faults (snd out) = []).
Proof.
  cbv zeta.
  unfold ConfigManager.deleteProfile, ConfigManager.getProfiles,
    ConfigManager.getActiveProfileId, getStorage, setStorage, bind, host, gets,
    modify, ret, activeIdOf.
  destruct w as [ps aid pe cd j fl fs tr]; simpl.
  destruct fs as [|[|] [|[|] [|[|] [|[|] fs]]]]; simpl;
    try (split; [repeat split | split; [auto | try discriminate]]);
    destruct aid as [i|]; simpl;
    try (destruct (String.eqb i "") eqn:He; simpl);
    try (destruct (String.eqb i profileId) eqn:Hi; simpl);
    repeat split; auto; try discriminate.
Qed.

Lemma createProfile_run (rt : Runtime) (name : string) (domains : list string)
    (w : World) :
  let newProfile := Profile.mk (freshId rt) (trim rt name) (Some domains) true
                               (freshTime rt) in
  let out := ConfigManager.createProfile rt name domains w in
  match fst out with
  | Returned p =>
      p = newProfile /\ profiles (snd out) = profiles w ++ [newProfile]
      /\ activeProfileId (snd out) = activeProfileId w
      /\ sameButProfiles w (snd out)
  | Thrown _ => sameState w (snd out)
  end
  /\ (faults w = [] -> fst out = Returned newProfile /\ faults (snd out) = []).
Proof.
  cbv zeta.
  unfold ConfigManager.createProfile, ConfigManager.getProfiles,
    getStorage, setStorage, bind, host, gets, modify, ret.
  destruct w as [ps aid pe cd j fl fs tr]; simpl.
  destruct fs as [|[|] [|[|] fs]]; simpl; repeat split; auto; discriminate.
Qed.

(** [findIndex] and [find] look at the same profile. *)
Lemma list_find_none (profileId : string) (ps : list Profile.t) :
  list_find (fun p => Profile.id p = profileId) ps = None
  <-> List.find (fun p => String.eqb (Profile.id p) profileId) ps = None.
Proof.
  induction ps as [|p ps IH]; [easy|]. cbn [list_find List.find].
  destruct (decide (Profile.id p = profileId)) as [Heq | Hne].
  - apply String.eqb_eq in Heq. rewrite Heq. easy.
  - apply String.eqb_neq in Hne. rewrite Hne.
    destruct (list_find _ ps); simpl; [|tauto].
    split; [discriminate|]. intros H. apply IH in H. discriminate.
Qed.

Lemma list_find_some (profileId : string) (ps : list Profile.t) (p : Profile.t) :
  List.find (fun p => String.eqb (Profile.id p) profileId) ps = Some p ->
  exists index,
    list_find (fun p => Profile.id p = profileId) ps = Some (index, p)
    /\ ps !! index = Some p.
Proof.
  induction ps as [|q ps IH]; [discriminate|]. cbn [list_find List.find].
  destruct (decide (Profile.id q = profileId)) as [Heq | Hne].
  - apply String.eqb_eq in Heq. rewrite Heq. intros [= <-]. now exists 0.
  - apply String.eqb_neq in Hne. rewrite Hne. intros H.
    destruct (IH H) as (index & -> & Hl). now exists (S index).
Qed.

(** Replacing the first profile with id [a] by one with the same id. *)
Lemma find_insert_same (a : string) (ps : list Profile.t) (index : nat)
    (p q : Profile.t) :
  list_find (fun p => Profile.id p = a) ps = Some (index, p) ->
  Profile.id q = a ->
  List.find (fun p => String.eqb (Profile.id p) a) (<[index := q]> ps) = Some q.
Proof.
  revert index. induction ps as [|r ps IH]; intros index; [discriminate|].
  cbn [list_find]. intros H Hq.
  destruct (decide (Profile.id r = a)) as [Heq | Hne].
  - injection H as <- <-. simpl. apply String.eqb_eq in Hq. now rewrite Hq.
  - destruct (list_find _ ps) as [[k p']|] eqn:Hfind; [|discriminate].
    simpl in H. injection H as <- <-. simpl.
    apply String.eqb_neq in Hne. rewrite Hne. now apply IH.
Qed.

Lemma find_insert_other (a b : string) (ps : list Profile.t) (index : nat)
    (p q : Profile.t) :
  list_find (fun p => Profile.id p = a) ps = Some (index, p) ->
  Profile.id q = a -> b <> a ->
  List.find (fun p => String.eqb (Profile.id p) b) (<[index := q]> ps)
  = List.find (fun p => String.eqb (Profile.id p) b) ps.
Proof.
  revert index. induction ps as [|r ps IH]; intros index; [discriminate|].
  cbn [list_find]. intros H Hq Hb.
  destruct (decide (Profile.id r = a)) as [Heq | Hne].
  - injection H as <- <-. simpl.
    assert (Hqb : String.eqb (Profile.id q) b = false)
      by (apply String.eqb_neq; congruence).
    assert (Hrb : String.eqb (Profile.id r) b = false)
      by (apply String.eqb_neq; congruence).
    now rewrite Hqb, Hrb.
  - destruct (list_find _ ps) as [[k p']|] eqn:Hfind; [|discriminate].
    simpl in H. injection H as <- <-. simpl.
    destruct (String.eqb (Profile.id r) b); [reflexivity|]. now apply IH.
Qed.

Lemma applyUpdates_none (p : Profile.t) : applyUpdates p Updates.none = p.
Proof. now destruct p. Qed.

Lemma applyUpdates_id (p : Profile.t) (updates : Updates.t) :
  Updates.id updates = None -> Profile.id (applyUpdates p updates) = Profile.id p.
Proof. unfold applyUpdates. simpl. now intros ->. Qed.

(** The runs of [updateProfile] for an id that is not stored. *)
Lemma updateProfile_missing (profileId : string) (updates : Updates.t) (w : World) :
  profileById profileId w = None ->
  let out := ConfigManager.updateProfile profileId updates w in
  sameState w (snd out)
  /\ (fst out = Thrown ProfileNotFound
      \/ fst out = Thrown (HostError (StorageGet KProfiles)))
  /\ (faults w = [] -> fst out = Thrown ProfileNotFound /\ faults (snd out) = []).
Proof.
  unfold profileById. intros Hnone. apply list_find_none in Hnone. cbv zeta.
  unfold ConfigManager.updateProfile, ConfigManager.getProfiles,
    getStorage, setStorage, bind, host, gets, modify, ret, throw.
  destruct w as [ps aid pe cd j fl fs tr]; simpl in *.
  destruct fs as [|[|] fs]; simpl; rewrite ?Hnone; simpl;
    repeat split; auto; discriminate.
Qed.

(** The runs of [updateProfile] for a stored id. *)
Lemma updateProfile_found (profileId : string) (updates : Updates.t)
    (p : Profile.t) (w : World) :
  profileById profileId w = Some p ->
  let out := ConfigManager.updateProfile profileId updates w in
  exists index,
    list_find (fun p => Profile.id p = profileId) (profiles w) = Some (index, p)
    /\ match fst out with
       | Returned r =>
           r = applyUpdates p updates
           /\ profiles (snd out) = <[index := applyUpdates p updates]> (profiles w)
           /\ activeProfileId (snd out) = activeProfileId w
           /\ sameButProfiles w (snd out)
       | Thrown _ => sameState w (snd out)
       end
    /\ (faults w = [] ->
        fst out = Returned (applyUpdates p updates) /\ faults (snd out) = []).
Proof.
  unfold profileById. intros Hsome.
  destruct (list_find_some profileId _ p Hsome) as (index & Hfind & _).
  exists index. split; [exact Hfind|].
  unfold ConfigManager.updateProfile, ConfigManager.getProfiles,
    getStorage, setStorage, bind, host, gets, modify, ret, throw.
  destruct w as [ps aid pe cd j fl fs tr]; simpl in *.
  destruct fs as [|[|] [|[|] fs]]; simpl; rewrite ?Hfind; simpl;
    repeat split; auto; discriminate.
Qed.

End ProfileFacts.

(** X12.  [deleteProfile(profileId)], whatever the host answers, touches
    only the profile list and the pointer: the cookie data, and with it the
    snapshot of the deleted profile, stays in storage.  The list is either
    as before or without every profile of that id.  When the call returns,
    no profile of that id is stored, every other id resolves to the profile
    it resolved to before, the active profile is the one active before
    unless the pointer named the deleted id, in which case the pointer is
    cleared, and a pointer that named a stored profile still does.  On a
    host that rejects nothing the call returns. *)
Theorem X12_deleteProfile (profileId : string) (w : World) :
  let out := ConfigManager.deleteProfile profileId w in
  let w' := snd out in
  sameButProfiles w w'
  /\ (profiles w' = profiles w
      \/ profiles w'
         = List.filter (fun p => negb (String.eqb (Profile.id p) profileId))
                       (profiles w))
  /\ (forall r, fst out = Returned r ->
        profileById profileId w' = None
        /\ (forall i, i <> profileId -> profileById i w' = profileById i w)
        /\ activeProfileOf w'
           = (if decide (activeIdOf w = Some profileId) then None
              else activeProfileOf w)
        /\ (pointerValid w -> pointerValid w'))
  /\ (faults w = [] -> fst out = Returned tt).
Proof.
  cbv zeta.
  destruct (ProfileFacts.deleteProfile_run profileId w) as (Hsame & Hrun & Hquiet).
  split; [exact Hsame|]. split.
  { destruct (fst (ConfigManager.deleteProfile profileId w));
      [right; apply Hrun | apply Hrun]. }
  split; [|intros Hf; now apply Hquiet].
  intros r Hr. rewrite Hr in Hrun. destruct Hrun as [Hps Hptr].
  set (w' := snd (ConfigManager.deleteProfile profileId w)) in *.
  assert (Hself : profileById profileId w' = None).
  { unfold profileById. rewrite Hps. apply ProfileFacts.find_filter_self. }
  assert (Hother : forall i, i <> profileId -> profileById i w' = profileById i w).
  { intros i Hi. unfold profileById. rewrite Hps.
    now apply ProfileFacts.find_filter_other. }
  assert (Hid : activeIdOf w'
                = if decide (activeIdOf w = Some profileId) then None
                  else activeIdOf w).
  { unfold activeIdOf in Hptr |- *. rewrite Hptr.
    destruct (activeProfileId w) as [i|]; [|now destruct (decide _)].
    destruct (String.eqb i "") eqn:He; [rewrite He; now destruct (decide _)|].
    destruct (String.eqb i profileId) eqn:Hi.
    - apply String.eqb_eq in Hi. subst i. now rewrite decide_True.
    - apply String.eqb_neq in Hi. rewrite He.
      rewrite decide_False; [reflexivity | congruence]. }
  assert (Hact : forall v, activeProfileOf v
                           = match activeIdOf v with
                             | Some i => profileById i v
                             | None => None
                             end).
  { intros v. unfold activeProfileOf, activeIdOf, profileById.
    destruct (activeProfileId v) as [i|]; [|reflexivity].
    now destruct (String.eqb i ""). }
  split; [exact Hself|]. split; [exact Hother|]. split.
  - rewrite (Hact w'), (Hact w), Hid.
    destruct (decide (activeIdOf w = Some profileId)) as [Heq | Hne];
      [reflexivity|].
    destruct (activeIdOf w) as [i|]; [|reflexivity].
    apply Hother. congruence.
  - intros Hvalid i Hi. rewrite Hid in Hi.
    destruct (decide (activeIdOf w = Some profileId)) as [Heq | Hne];
      [discriminate|].
    destruct (Hvalid i Hi) as [p Hp]. exists p.
    rewrite Hother; [exact Hp | congruence].
Qed.

(** X13.  [createProfile(name, domains)] either throws with nothing changed
    or returns the new profile (enabled, with the trimmed name and the
    domains given) after appending it to the stored list: the pointer and
    the cookie data are untouched, every id that resolved to a profile
    resolves to the same one, so the active profile stays the active
    profile, and the new id resolves to the new profile when it was not in
    use.  The code checks neither the name nor the id for uniqueness.  On a
    host that rejects nothing the call returns. *)
Theorem X13_createProfile (rt : Runtime) (name : string) (domains : list string)
    (w : World) :
  let out := ConfigManager.createProfile rt name domains w in
  let w' := snd out in
  let newProfile := Profile.mk (freshId rt) (trim rt name) (Some domains) true
                               (freshTime rt) in
  (forall e, fst out = Thrown e -> sameState w w')
  /\ (forall p, fst out = Returned p ->
        p = newProfile
        /\ profiles w' = profiles w ++ [p]
        /\ activeProfileId w' = activeProfileId w
        /\ sameButProfiles w w'
        /\ (forall i q, profileById i w = Some q -> profileById i w' = Some q)
        /\ (profileById (freshId rt) w = None ->
            profileById (freshId rt) w' = Some p)
        /\ (forall q, activeProfileOf w = Some q -> activeProfileOf w' = Some q)
        /\ (pointerValid w -> pointerValid w'))
  /\ (faults w = [] -> fst out = Returned newProfile).
Proof.
  cbv zeta.
  destruct (ProfileFacts.createProfile_run rt name domains w) as (Hrun & Hquiet).
  split; [intros e He; now rewrite He in Hrun|].
  split; [|intros Hf; now apply Hquiet].
  intros p Hp. rewrite Hp in Hrun. destruct Hrun as (-> & Hps & Hptr & Hsame).
  set (w' := snd (ConfigManager.createProfile rt name domains w)) in *.
  assert (Hkeep : forall i q, profileById i w = Some q -> profileById i w' = Some q).
  { intros i q Hq. unfold profileById in *. rewrite Hps.
    now apply ProfileFacts.find_app_found. }
  split; [reflexivity|]. split; [exact Hps|]. split; [exact Hptr|].
  split; [exact Hsame|]. split; [exact Hkeep|]. split.
  { intros Hnone. unfold profileById in *. rewrite Hps.
    rewrite ProfileFacts.find_app_missing by exact Hnone.
    simpl. now rewrite String.eqb_refl. }
  split.
  - intros q. unfold activeProfileOf. rewrite Hptr.
    destruct (activeProfileId w) as [i|]; [|discriminate].
    destruct (String.eqb i ""); [discriminate|]. apply (Hkeep i q).
  - intros Hvalid i Hi.
    assert (Hi' : activeIdOf w = Some i)
      by (unfold activeIdOf in *; now rewrite Hptr in Hi).
    destruct (Hvalid i Hi') as [q Hq]. exists q. now apply Hkeep.
Qed.

(** X14.  [updateProfile(profileId, updates)] for an id that is not stored
    throws and leaves everything as it was; on a host that rejects nothing
    the error is the profile-not-found error.  For a stored id it either
    throws with nothing changed or returns the first profile of that id
    merged with the updates and stores it in that profile's place: the list
    keeps its length, the pointer and the cookie data are untouched, and
    when the updates carry no id the id resolves to the merged profile and
    every other id to what it resolved to before.  With empty updates the
    stored list is unchanged. *)
Theorem X14_updateProfile (profileId : string) (updates : Updates.t) (w : World) :
  let out := ConfigManager.updateProfile profileId updates w in
  let w' := snd out in
  (profileById profileId w = None ->
     sameState w w'
     /\ (exists e, fst out = Thrown e)
     /\ (faults w = [] -> fst out = Thrown ProfileNotFound))
  /\ (forall p, profileById profileId w = Some p ->
        (forall e, fst out = Thrown e -> sameState w w')
        /\ (forall r, fst out = Returned r ->
              r = applyUpdates p updates
              /\ length (profiles w') = length (profiles w)
              /\ activeProfileId w' = activeProfileId w
              /\ sameButProfiles w w'
              /\ (Updates.id updates = None ->
                  profileById profileId w' = Some r
                  /\ forall i, i <> profileId ->
                               profileById i w' = profileById i w)
              /\ (updates = Updates.none -> profiles w' = profiles w))
        /\ (faults w = [] -> fst out = Returned (applyUpdates p updates))).
Proof.
  cbv zeta. split.
  - intros Hnone.
    destruct (ProfileFacts.updateProfile_missing profileId updates w Hnone)
      as (Hsame & Hthrow & Hquiet).
    split; [exact Hsame|]. split; [destruct Hthrow; eauto|].
    intros Hf. now apply Hquiet.
  - intros p Hp.
    destruct (ProfileFacts.updateProfile_found profileId updates p w Hp)
      as (index & Hfind & Hrun & Hquiet).
    split; [intros e He; now rewrite He in Hrun|].
    split; [|intros Hf; now apply Hquiet].
    intros r Hr. rewrite Hr in Hrun. destruct Hrun as (-> & Hps & Hptr & Hsame).
    assert (Hidp : Profile.id p = profileId)
      by (apply ProfileFacts.find_id with (ps := profiles w); exact Hp).
    split; [reflexivity|]. split; [rewrite Hps; apply length_insert|].
    split; [exact Hptr|]. split; [exact Hsame|]. split.
    + intros Hid.
      assert (Hidq : Profile.id (applyUpdates p updates) = profileId)
        by (rewrite ProfileFacts.applyUpdates_id; assumption).
      split.
      * unfold profileById. rewrite Hps.
        now apply ProfileFacts.find_insert_same with (p := p).
      * intros i Hi. unfold profileById. rewrite Hps.
        now apply ProfileFacts.find_insert_other with (a := profileId) (p := p).
    + intros ->. rewrite Hps, ProfileFacts.applyUpdates_none.
      apply list_insert_id. apply list_find_Some in Hfind. apply Hfind.
Qed.

(** ** Domains of a profile (utils/config-manager.js) *)

Module DomainFacts.

(** [updateProfile] of a stored profile on a host that rejects nothing, for
    updates that carry no id. *)
Lemma updateProfile_quiet (profileId : string) (updates : Updates.t)
    (p : Profile.t) (w : World) :
  profileById profileId w = Some p -> faults w = [] ->
  Updates.id updates = None ->
  exists w',
    ConfigManager.updateProfile profileId updates w
    = (Returned (applyUpdates p updates), w')
    /\ faults w' = [] /\ sameButProfiles w w'
    /\ activeProfileId w' = activeProfileId w
    /\ profileById profileId w' = Some (applyUpdates p updates)
    /\ (forall i, i <> profileId -> profileById i w' = profileById i w)
    /\ (updates = Updates.none -> profiles w' = profiles w).
Proof.
  intros Hp Hf Hid.
  destruct (ProfileFacts.updateProfile_found profileId updates p w Hp)
    as (index & Hfind & Hrun & Hquiet).
  destruct (Hquiet Hf) as [Hret Hf'].
  rewrite Hret in Hrun. destruct Hrun as (_ & Hps & Hptr & Hsame).
  destruct (ConfigManager.updateProfile profileId updates w) as [r w'];
    simpl in *. subst r. exists w'.
  assert (Hidp : Profile.id p = profileId)
    by (apply ProfileFacts.find_id with (ps := profiles w); exact Hp).
  assert (Hidq : Profile.id (applyUpdates p updates) = profileId)
    by (rewrite ProfileFacts.applyUpdates_id; assumption).
  split; [reflexivity|]. split; [exact Hf'|]. split; [exact Hsame|].
  split; [exact Hptr|]. split; [|split].
  - unfold profileById. rewrite Hps.
    now apply ProfileFacts.find_insert_same with (p := p).
  - intros i Hi. unfold profileById. rewrite Hps.
    now apply ProfileFacts.find_insert_other with (a := profileId) (p := p).
  - intros ->. rewrite Hps, ProfileFacts.applyUpdates_none.
    apply list_insert_id. apply list_find_Some in Hfind. apply Hfind.
Qed.

Lemma applyUpdates_same_domains (p : Profile.t) (ds : list string) :
  Profile.domains p = Some ds -> applyUpdates p (Updates.ofDomains ds) = p.
Proof. destruct p; simpl. now intros ->. Qed.

Lemma applyUpdates_twice (p : Profile.t) (ds ds' : list string) :
  applyUpdates (applyUpdates p (Updates.ofDomains ds)) (Updates.ofDomains ds')
  = applyUpdates p (Updates.ofDomains ds').
Proof. now destruct p. Qed.

Lemma existsb_domains (domain : string) (p : Profile.t) :
  existsb (String.eqb domain) (default [] (Profile.domains p)) = true ->
  Profile.domains p = Some (default [] (Profile.domains p)).
Proof. destruct (Profile.domains p); [reflexivity | discriminate]. Qed.

Lemma existsb_In (domain : string) (ds : list string) :
  existsb (String.eqb domain) ds = true <-> In domain ds.
Proof.
  rewrite existsb_exists. split.
  - intros (d & Hin & Heq). apply String.eqb_eq in Heq. now subst.
  - intros Hin. exists domain. split; [exact Hin | apply String.eqb_refl].
Qed.

Lemma filter_out_appended (domain : string) (ds : list string) :
  existsb (String.eqb domain) ds = false ->
  List.filter (fun d => negb (String.eqb d domain)) (ds ++ [domain]) = ds.
Proof.
  induction ds as [|d ds IH]; simpl.
  - now rewrite String.eqb_refl.
  - intros H. apply orb_false_elim in H as [Hd Hds].
    rewrite String.eqb_sym, Hd. simpl. now rewrite IH.
Qed.

(** [addDomainToProfile] on a host that rejects nothing. *)
Lemma addDomainToProfile_quiet (profileId domain : string) (p : Profile.t)
    (w : World) :
  profileById profileId w = Some p -> faults w = [] ->
  let ds := default [] (Profile.domains p) in
  let ds' := if existsb (String.eqb domain) ds then ds else ds ++ [domain] in
  exists w',
    ConfigManager.addDomainToProfile profileId domain w = (Returned tt, w')
    /\ faults w' = [] /\ sameButProfiles w w'
    /\ activeProfileId w' = activeProfileId w
    /\ profileById profileId w' = Some (applyUpdates p (Updates.ofDomains ds'))
    /\ (forall i, i <> profileId -> profileById i w' = profileById i w)
    /\ (existsb (String.eqb domain) ds = true -> profiles w' = profiles w).
Proof.
  intros Hp Hf. cbv zeta.
  destruct (updateProfile_quiet profileId Updates.none p w Hp Hf eq_refl)
    as (w1 & Hrun1 & Hf1 & Hs1 & Hptr1 & Hp1 & Ho1 & Hps1).
  rewrite ProfileFacts.applyUpdates_none in Hrun1, Hp1.
  unfold ConfigManager.addDomainToProfile, bind at 1. rewrite Hrun1.
  destruct (existsb (String.eqb domain) (default [] (Profile.domains p))) eqn:Hin;
    cbn [negb].
  - exists w1. split; [reflexivity|]. split; [exact Hf1|]. split; [exact Hs1|].
    split; [exact Hptr1|]. split; [|split; [exact Ho1 | intros _; now apply Hps1]].
    rewrite applyUpdates_same_domains; [exact Hp1|].
    now apply existsb_domains with (domain := domain).
  - destruct (updateProfile_quiet profileId
                (Updates.ofDomains (default [] (Profile.domains p) ++ [domain]))
                p w1 Hp1 Hf1 eq_refl)
      as (w2 & Hrun2 & Hf2 & Hs2 & Hptr2 & Hp2 & Ho2 & _).
    unfold bind, ret. rewrite Hrun2. exists w2.
    split; [reflexivity|]. split; [exact Hf2|].
    split; [now transitivity w1|]. split; [congruence|].
    split; [exact Hp2|]. split; [|discriminate].
    intros i Hi. rewrite Ho2 by exact Hi. now apply Ho1.
Qed.

(** [removeDomainFromProfile] on a host that rejects nothing. *)
Lemma removeDomainFromProfile_quiet (profileId domain : string) (p : Profile.t)
    (w : World) :
  profileById profileId w = Some p -> faults w = [] ->
  let ds' := List.filter (fun d => negb (String.eqb d domain))
                         (default [] (Profile.domains p)) in
  exists w',
    ConfigManager.removeDomainFromProfile profileId domain w = (Returned tt, w')
    /\ faults w' = [] /\ sameButProfiles w w'
    /\ activeProfileId w' = activeProfileId w
    /\ profileById profileId w' = Some (applyUpdates p (Updates.ofDomains ds'))
    /\ (forall i, i <> profileId -> profileById i w' = profileById i w).
Proof.
  intros Hp Hf. cbv zeta.
  destruct (updateProfile_quiet profileId Updates.none p w Hp Hf eq_refl)
    as (w1 & Hrun1 & Hf1 & Hs1 & Hptr1 & Hp1 & Ho1 & Hps1).
  rewrite ProfileFacts.applyUpdates_none in Hrun1, Hp1.
  unfold ConfigManager.removeDomainFromProfile, bind at 1. rewrite Hrun1.
  destruct (updateProfile_quiet profileId
              (Updates.ofDomains
                 (List.filter (fun d => negb (String.eqb d domain))
                              (default [] (Profile.domains p))))
              p w1 Hp1 Hf1 eq_refl)
    as (w2 & Hrun2 & Hf2 & Hs2 & Hptr2 & Hp2 & Ho2 & _).
  unfold bind, ret. rewrite Hrun2. exists w2.
  split; [reflexivity|]. split; [exact Hf2|].
  split; [now transitivity w1|]. split; [congruence|].
  split; [exact Hp2|].
  intros i Hi. rewrite Ho2 by exact Hi. now apply Ho1.
Qed.

(** Both functions start with [updateProfile(profileId, {})], which throws
    for an id that is not stored. *)
Lemma domain_edit_missing (profileId domain : string) (w : World) :
  profileById profileId w = None ->
  (sameState w (snd (ConfigManager.addDomainToProfile profileId domain w))
   /\ exists e, fst (ConfigManager.addDomainToProfile profileId domain w) = Thrown e)
  /\ (sameState w (snd (ConfigManager.removeDomainFromProfile profileId domain w))
      /\ exists e,
           fst (ConfigManager.removeDomainFromProfile profileId domain w) = Thrown e).
Proof.
  intros Hnone.
  destruct (ProfileFacts.updateProfile_missing profileId Updates.none w Hnone)
    as (Hsame & Hthrow & _).
  unfold ConfigManager.addDomainToProfile, ConfigManager.removeDomainFromProfile,
    bind.
  destruct (ConfigManager.updateProfile profileId Updates.none w) as [r w1];
    simpl in *.
  destruct Hthrow as [-> | ->]; simpl;
    (split; split; [exact Hsame | eauto | exact Hsame | eauto]).
Qed.

End DomainFacts.

(** X15.  On a host that rejects nothing, [addDomainToProfile(profileId,
    domain)] of a stored profile returns with the domain in the profile's
    list: appended at the end when it was not there, and otherwise with the
    list as it was, so a list without duplicates stays without duplicates
    and a second call changes nothing in the stored list.  The profile's
    other fields, the other profiles, the pointer and the cookie data are
    untouched.  For an id that is not stored the call throws, whatever the
    host answers, and changes nothing. *)
Theorem X15_addDomainToProfile (profileId domain : string) (w : World) :
  let out := ConfigManager.addDomainToProfile profileId domain w in
  let w' := snd out in
  (forall p, profileById profileId w = Some p -> faults w = [] ->
     let ds := default [] (Profile.domains p) in
     let ds' := if existsb (String.eqb domain) ds then ds else ds ++ [domain] in
     fst out = Returned tt
     /\ profileById profileId w' = Some (applyUpdates p (Updates.ofDomains ds'))
     /\ In domain ds' /\ (NoDup ds -> NoDup ds')
     /\ (forall i, i <> profileId -> profileById i w' = profileById i w)
     /\ activeProfileId w' = activeProfileId w /\ sameButProfiles w w'
     /\ profiles (snd (ConfigManager.addDomainToProfile profileId domain w'))
        = profiles w')
  /\ (profileById profileId w = None ->
      sameState w w' /\ exists e, fst out = Thrown e).
Proof.
  cbv zeta. split; [|intros Hnone; now apply DomainFacts.domain_edit_missing].
  intros p Hp Hf.
  destruct (DomainFacts.addDomainToProfile_quiet profileId domain p w Hp Hf)
    as (w' & Hrun & Hf' & Hsame & Hptr & Hp' & Hother & _).
  rewrite Hrun. cbn [fst snd].
  set (ds := default [] (Profile.domains p)) in *.
  set (ds' := if existsb (String.eqb domain) ds then ds else ds ++ [domain]) in *.
  assert (Hin : In domain ds').
  { subst ds'. destruct (existsb (String.eqb domain) ds) eqn:Hex.
    - now apply DomainFacts.existsb_In.
    - apply in_or_app. right. now left. }
  split; [reflexivity|]. split; [exact Hp'|]. split; [exact Hin|]. split.
  { intros Hnd. subst ds'. destruct (existsb (String.eqb domain) ds) eqn:Hex;
      [exact Hnd|].
    apply NoDup_app. split; [exact Hnd|]. split; [|apply NoDup_singleton].
    intros d Hd Hd'. apply list_elem_of_singleton in Hd'. subst d.
    apply list_elem_of_In, DomainFacts.existsb_In in Hd. congruence. }
  split; [exact Hother|]. split; [exact Hptr|]. split; [exact Hsame|].
  destruct (DomainFacts.addDomainToProfile_quiet profileId domain _ w' Hp' Hf')
    as (w2 & Hrun2 & _ & _ & _ & _ & _ & Hsameps).
  rewrite Hrun2. cbn [snd]. apply Hsameps.
  apply DomainFacts.existsb_In. exact Hin.
Qed.

(** The instance of X15: "b.com" is added to a profile that lists "a.com". *)
Lemma X15_addDomainToProfile_witness :
  let w := sampleWorld [workProfile (Some ["a.com"]); homeProfile None]
             (Some "p-home") ∅ [] in
  profileById "p-work" (snd (ConfigManager.addDomainToProfile "p-work" "b.com" w))
  = Some (workProfile (Some ["a.com"; "b.com"])).
Proof.
  intros w.
  destruct (X15_addDomainToProfile "p-work" "b.com" w) as [Hfound _].
  destruct (Hfound (workProfile (Some ["a.com"])) eq_refl eq_refl)
    as (_ & Hp & _).
  exact Hp.
Defined.

(** X16.  On a host that rejects nothing, [removeDomainFromProfile(profileId,
    domain)] of a stored profile returns with the profile's list holding the
    other domains in their order and no occurrence of the domain; the
    profile's other fields, the other profiles, the pointer and the cookie
    data, with the buckets saved under that domain, are untouched.  Removing
    a domain right after adding it to a list that did not have it gives the
    list back (an absent list comes back as the empty list). *)
Theorem X16_removeDomainFromProfile (profileId domain : string) (p : Profile.t)
    (w : World) :
  profileById profileId w = Some p -> faults w = [] ->
  let out := ConfigManager.removeDomainFromProfile profileId domain w in
  let w' := snd out in
  let ds := default [] (Profile.domains p) in
  let ds' := List.filter (fun d => negb (String.eqb d domain)) ds in
  fst out = Returned tt
  /\ profileById profileId w' = Some (applyUpdates p (Updates.ofDomains ds'))
  /\ ~ In domain ds'
  /\ (forall d, d <> domain -> (In d ds' <-> In d ds))
  /\ (forall i, i <> profileId -> profileById i w' = profileById i w)
  /\ activeProfileId w' = activeProfileId w /\ sameButProfiles w w'
  /\ (existsb (String.eqb domain) ds = false ->
      profileById profileId
        (snd (ConfigManager.removeDomainFromProfile profileId domain
                (snd (ConfigManager.addDomainToProfile profileId domain w))))
      = Some (applyUpdates p (Updates.ofDomains ds))).
Proof.
  intros Hp Hf. cbv zeta.
  destruct (DomainFacts.removeDomainFromProfile_quiet profileId domain p w Hp Hf)
    as (w' & Hrun & Hf' & Hsame & Hptr & Hp' & Hother).
  rewrite Hrun. cbn [fst snd].
  split; [reflexivity|]. split; [exact Hp'|]. split.
  { intros Hin. apply filter_In in Hin as [_ Hne].
    now rewrite String.eqb_refl in Hne. }
  split.
  { intros d Hd. rewrite filter_In. split; [tauto|]. intros Hin.
    split; [exact Hin|]. apply String.eqb_neq in Hd. now rewrite Hd. }
  split; [exact Hother|]. split; [exact Hptr|]. split; [exact Hsame|].
  intros Hex.
  destruct (DomainFacts.addDomainToProfile_quiet profileId domain p w Hp Hf)
    as (w1 & Hrun1 & Hf1 & _ & _ & Hp1 & _).
  rewrite Hex in Hp1. rewrite Hrun1. cbn [snd].
  destruct (DomainFacts.removeDomainFromProfile_quiet profileId domain _ w1 Hp1 Hf1)
    as (w2 & Hrun2 & _ & _ & _ & Hp2 & _).
  rewrite Hrun2. cbn [snd]. rewrite Hp2.
  rewrite DomainFacts.applyUpdates_twice. cbn [applyUpdates Profile.domains
    Updates.ofDomains Updates.domains default]. unfold id.
  now rewrite DomainFacts.filter_out_appended.
Qed.

(** The instance of X16: "a.com" is removed from a profile that lists it
    twice. *)
Lemma X16_removeDomainFromProfile_witness :
  let w := sampleWorld [workProfile (Some ["a.com"; "b.com"; "a.com"])]
             (Some "p-work") ∅ [] in
  profileById "p-work"
    (snd (ConfigManager.removeDomainFromProfile "p-work" "a.com" w))
  = Some (workProfile (Some ["b.com"])).
Proof.
  intros w.
  destruct (X16_removeDomainFromProfile "p-work" "a.com"
              (workProfile (Some ["a.com"; "b.com"; "a.com"])) w
              eq_refl eq_refl) as (_ & Hp & _).
  exact Hp.
Defined.

(** X17.  On a host that rejects nothing, the config manager's
    [switchProfile(profileId)] of a stored profile sets the pointer and
    nothing else, and [getActiveProfile] then returns that profile; the one
    exception is the empty id, which the pointer read treats as no pointer.
    For an id that is not stored it throws the profile-not-found error and
    changes nothing; this is what happens to a switch to an id right after
    [deleteProfile] of it. *)
Theorem X17_switchProfile_pointer (profileId : string) (w : World) :
  faults w = [] ->
  let out := ConfigManager.switchProfile profileId w in
  let w' := snd out in
  (forall p, profileById profileId w = Some p ->
     fst out = Returned tt
     /\ activeProfileId w' = Some profileId
     /\ profiles w' = profiles w /\ sameButProfiles w w'
     /\ fst (ConfigManager.getActiveProfile w')
        = Returned (if String.eqb profileId "" then None else Some p)
     /\ pointerValid w')
  /\ (profileById profileId w = None ->
      fst out = Thrown ProfileNotFound /\ sameState w w')
  /\ fst (ConfigManager.switchProfile profileId
            (snd (ConfigManager.deleteProfile profileId w)))
     = Thrown ProfileNotFound.
Proof.
  intros Hf. cbv zeta. split; [|split].
  - intros p Hp.
    rewrite (ConfigFacts.switchProfile_found profileId p w Hp Hf). cbn [fst snd].
    set (w' := setActiveProfileId _ _).
    assert (Hf' : faults w' = []) by (subst w'; simpl; now rewrite Hf).
    split; [reflexivity|]. split; [reflexivity|]. split; [reflexivity|].
    split; [repeat split|].
    destruct (SaveFacts.getActiveProfile_quiet w' Hf') as (w2 & -> & _).
    split.
    + cbn [fst]. unfold activeProfileOf. subst w'. cbn [activeProfileId
        setActiveProfileId profiles logCall].
      destruct (String.eqb profileId ""); [reflexivity|]. now f_equal.
    + intros i Hi. unfold activeIdOf in Hi. subst w'.
      cbn [activeProfileId setActiveProfileId] in Hi.
      destruct (String.eqb profileId ""); [discriminate|].
      injection Hi as <-. now exists p.
  - intros Hnone.
    destruct (ConfigFacts.switchProfile_missing profileId w Hnone)
      as (Hsame & Hquiet & _).
    split; [now rewrite (Hquiet Hf) | exact Hsame].
  - destruct (ProfileFacts.deleteProfile_run profileId w) as (_ & Hrun & Hquiet).
    destruct (Hquiet Hf) as [Hret Hf'].
    rewrite Hret in Hrun. destruct Hrun as [Hps _].
    set (w1 := snd (ConfigManager.deleteProfile profileId w)) in *.
    assert (Hnone : profileById profileId w1 = None).
    { unfold profileById. rewrite Hps. apply ProfileFacts.find_filter_self. }
    destruct (ConfigFacts.switchProfile_missing profileId w1 Hnone)
      as (_ & Hthrow & _).
    now rewrite (Hthrow Hf').
Qed.

(** The instance of X17 on a store with two profiles. *)
Lemma X17_switchProfile_pointer_witness :
  let w := sampleWorld [workProfile (Some ["a.com"]); homeProfile None]
             (Some "p-work") ∅ [] in
  fst (ConfigManager.getActiveProfile
         (snd (ConfigManager.switchProfile "p-home" w)))
  = Returned (Some (homeProfile None))
  /\ fst (ConfigManager.switchProfile "p-home"
            (snd (ConfigManager.deleteProfile "p-home" w)))
     = Thrown ProfileNotFound.
Proof.
  intros w.
  destruct (X17_switchProfile_pointer "p-home" w eq_refl) as (Hfound & _ & Hgone).
  destruct (Hfound (homeProfile None) eq_refl) as (_ & _ & _ & _ & Hget & _).
  split; [exact Hget | exact Hgone].
Defined.

(** ** The message listener *)

Module MessageFacts.

(** Every error of the dispatched task is caught and sent as a response. *)
Lemma onMessage_returns (CM : CookieManagerApi) (message : Message.t) (w : World) :
  exists r, fst (ServiceWorker.onMessage CM message w) = Returned r.
Proof.
  unfold ServiceWorker.onMessage, tryCatch, ret.
  match goal with
  | |- context [match ?m w with _ => _ end] => destruct (m w) as [[r|e] w']
  end; simpl; eauto.
Qed.

Lemma switch_reentered (CM : CookieManagerApi) (profileId : string)
    (clearCookies : bool) (w : World) :
  isSwitchingProfile w = true ->
  ServiceWorker.switchProfile CM profileId clearCookies w = (Returned tt, w).
Proof.
  intros Hflag. unfold ServiceWorker.switchProfile, bind, gets, ret.
  now rewrite Hflag.
Qed.

(** A switch to an id that is not stored, on a host that rejects nothing,
    when the save step returns. *)
Lemma switch_missing_quiet (B : Browser) (CM : CookieManagerApi)
    (profileId : string) (clearCookies : bool) (w : World) :
  (CM = CookieManagerSw.api B /\ saveAllThrows w = false)
  \/ CM = CookieManager.api B ->
  faults w = [] -> isSwitchingProfile w = false ->
  profileById profileId w = None ->
  let out := ServiceWorker.switchProfile CM profileId clearCookies w in
  fst out = Thrown ProfileNotFound
  /\ isSwitchingProfile (snd out) = false
  /\ activeProfileId (snd out) = activeProfileId w
  /\ jar (snd out) = jar w.
Proof.
  intros Hok Hf Hflag Hnone. cbv zeta.
  assert (HCM : CM = CookieManagerSw.api B \/ CM = CookieManager.api B)
    by (destruct Hok as [[? _] | ?]; auto).
  rewrite (SwitchFacts.switchProfile_idle CM profileId clearCookies w Hflag).
  set (w0 := setSwitching true w).
  assert (Hsteps : exists wf,
    ServiceWorker.switchSteps CM profileId clearCookies w0
    = (Thrown ProfileNotFound, wf)
    /\ activeProfileId wf = activeProfileId w /\ jar wf = jar w).
  { assert (Hf0 : faults w0 = []) by exact Hf.
    destruct (SwitchFacts.saveOutgoing_quiet B CM HCM w0 Hf0 Hok) as [Hret Hf1].
    pose proof (SwitchFacts.saveOutgoing_keeps_active B CM HCM w0) as Hact1.
    pose proof (SwitchFacts.saveOutgoing_keeps_jar B CM HCM w0) as Hjar1.
    pose proof (SwitchFacts.saveOutgoing_keeps_profiles B CM HCM w0) as Hps1.
    unfold keeps in Hact1, Hjar1, Hps1.
    unfold ServiceWorker.switchSteps, bind at 1. rewrite Hret.
    set (w1 := snd (ServiceWorker.saveOutgoing CM w0)) in *.
    assert (Hn1 : profileById profileId w1 = None)
      by (unfold profileById in *; now rewrite Hps1).
    destruct (ConfigFacts.switchProfile_missing profileId w1 Hn1)
      as (_ & Hthrow & _).
    unfold bind at 1. rewrite (Hthrow Hf1). eexists. split; [reflexivity|].
    simpl. auto. }
  destruct Hsteps as (wf & -> & Hact & Hjar). simpl. auto.
Qed.

(** A switch whose save step throws the TypeError stops there. *)
Lemma switch_save_throws (B : Browser) (profileId : string)
    (clearCookies : bool) (w : World) :
  faults w = [] -> isSwitchingProfile w = false -> saveAllThrows w = true ->
  let out := ServiceWorker.switchProfile (CookieManagerSw.api B) profileId
               clearCookies w in
  fst out = Thrown TypeError /\ sameState w (snd out).
Proof.
  intros Hf Hflag Hbad. cbv zeta.
  rewrite (SwitchFacts.switchProfile_idle _ profileId clearCookies w Hflag).
  set (w0 := setSwitching true w).
  assert (Hf0 : faults w0 = []) by exact Hf.
  assert (Hbad0 : saveAllThrows w0 = true) by exact Hbad.
  destruct (SwitchFacts.saveOutgoing_throws B w0 Hf0 Hbad0)
    as (w1 & Hrun & Hs & _).
  assert (Hsteps : ServiceWorker.switchSteps (CookieManagerSw.api B) profileId
                     clearCookies w0 = (Thrown TypeError, w1)).
  { unfold ServiceWorker.switchSteps, bind at 1. now rewrite Hrun. }
  rewrite Hsteps. cbn [fst snd]. split; [reflexivity|].
  destruct Hs as (Hps & Ha & Hpe & Hcd & Hj & _).
  repeat split; try assumption. simpl. now symmetry.
Qed.

End MessageFacts.

(** X18.  The message listener [onMessage] always sends a response: the
    task it starts never throws, whatever the cookie manager and the host do,
    because every error is caught and sent as a failure.  An action other
    than the four it knows gets the unknown-action failure with nothing
    touched.  A switch message that arrives while a switch is in progress is
    answered with success although nothing was switched.  The two read
    actions change nothing and answer with the active profile or the enabled
    flag, or with the host's rejection of the read.  On a host that rejects
    nothing, a switch message for an id that is not stored is answered with
    the profile-not-found failure, and the flag is clear and the pointer and
    the live cookies are as before; the exception is the service-worker
    manager with an outgoing profile without domains and a live cookie whose
    own domain names a property every object inherits: then the save step
    throws first and the answer is that TypeError, with nothing changed. *)
Theorem X18_onMessage (CM : CookieManagerApi) (message : Message.t) (w : World) :
  let out := ServiceWorker.onMessage CM message w in
  (exists r, fst out = Returned r)
  /\ (Message.action message <> "switchProfile" ->
      Message.action message <> "saveCurrentCookies" ->
      Message.action message <> "getActiveProfile" ->
      Message.action message <> "isPluginEnabled" ->
      out = (Returned UnknownAction, w))
  /\ (Message.action message = "switchProfile" ->
      isSwitchingProfile w = true -> out = (Returned Success, w))
  /\ (Message.action message = "getActiveProfile" ->
      sameState w (snd out)
      /\ (fst out = Returned (SuccessProfile (activeProfileOf w))
          \/ exists e, fst out = Returned (Failed (HostError e))))
  /\ (Message.action message = "isPluginEnabled" ->
      sameState w (snd out)
      /\ (fst out = Returned (SuccessEnabled
                                (match pluginEnabled w with
                                 | Some false => false
                                 | _ => true
                                 end))
          \/ fst out = Returned (Failed (HostError (StorageGet KPluginEnabled)))))
  /\ (forall B,
        Message.action message = "switchProfile" ->
        faults w = [] -> isSwitchingProfile w = false ->
        ((CM = CookieManagerSw.api B /\ saveAllThrows w = false)
         \/ CM = CookieManager.api B ->
         profileById (Message.profileId message) w = None ->
         fst out = Returned (Failed ProfileNotFound)
         /\ isSwitchingProfile (snd out) = false
         /\ activeProfileId (snd out) = activeProfileId w
         /\ jar (snd out) = jar w)
        /\ (CM = CookieManagerSw.api B -> saveAllThrows w = true ->
            fst out = Returned (Failed TypeError) /\ sameState w (snd out))).
Proof.
  cbv zeta. split; [apply MessageFacts.onMessage_returns|].
  unfold ServiceWorker.onMessage. split; [|split; [|split; [|split]]].
  - intros H1 H2 H3 H4. apply String.eqb_neq in H1, H2, H3, H4.
    now rewrite H1, H2, H3, H4.
  - intros -> Hflag. cbn [String.eqb Ascii.eqb Bool.eqb].
    unfold tryCatch, bind.
    now rewrite (MessageFacts.switch_reentered CM _ _ w Hflag).
  - intros ->. cbn [String.eqb Ascii.eqb Bool.eqb]. unfold tryCatch, bind.
    pose proof (ConfigFacts.getActiveProfile_sameState w) as Hsame.
    pose proof (ConfigFacts.getActiveProfile_result w) as Hres.
    destruct (ConfigManager.getActiveProfile w) as [r w1]; simpl in *.
    destruct Hres as [-> | [e ->]]; simpl; split; eauto.
  - intros ->. cbn [String.eqb Ascii.eqb Bool.eqb]. unfold tryCatch, bind.
    pose proof (ConfigFacts.isPluginEnabled_sameState w) as Hsame.
    pose proof (ListenerFacts.isPluginEnabled_result w) as Hres.
    destruct (ConfigManager.isPluginEnabled w) as [r w1]; simpl in *.
    destruct Hres as [-> | ->]; simpl; split; eauto.
  - intros B -> Hf Hflag. cbn [String.eqb Ascii.eqb Bool.eqb].
    unfold tryCatch, bind. split.
    + intros Hok Hnone.
      destruct (MessageFacts.switch_missing_quiet B CM (Message.profileId message)
                  (match Message.clearCookies message with
                   | Some false => false
                   | _ => true
                   end) w Hok Hf Hflag Hnone) as (Hthrow & Hrest).
      destruct (ServiceWorker.switchProfile CM _ _ w) as [r w1]; simpl in *.
      subst r. simpl. split; [reflexivity | exact Hrest].
    + intros -> Hbad.
      destruct (MessageFacts.switch_save_throws B (Message.profileId message)
                  (match Message.clearCookies message with
                   | Some false => false
                   | _ => true
                   end) w Hf Hflag Hbad) as (Hthrow & Hsame).
      destruct (ServiceWorker.switchProfile (CookieManagerSw.api B) _ _ w)
        as [r w1]; simpl in *.
      subst r. simpl. split; [reflexivity | exact Hsame].
Qed.

(** ** The bulk save over configured domains *)

Module BulkFacts.

Lemma forEach_ext {A} (xs : list A) (f g : A -> Task unit) :
  (forall x, In x xs -> f x = g x) -> forEach xs f = forEach xs g.
Proof.
  induction xs as [|x xs IH]; intros Hfg; [reflexivity|]. simpl.
  rewrite (Hfg x (or_introl eq_refl)), IH; [reflexivity|].
  intros y Hy. apply Hfg. now right.
Qed.

(** The loop over plain domains on a host that rejects nothing. *)
Lemma save_loop_quiet (B : Browser) (profileId : string) (ds : list string)
    (w : World) :
  faults w = [] ->
  exists w',
    forEach ds (fun d => CookieManagerSw.saveCookies B profileId d) w
    = (Returned tt, w')
    /\ faults w' = [] /\ sameButCookieData w w'
    /\ forall profileId' key,
         bucketAt profileId' key (cookieData w')
         = if decide (profileId = profileId' /\ key ∈ ds)
           then Some (cookieRecord <$> List.filter (domainFilter B key) (jar w))
           else bucketAt profileId' key (cookieData w).
Proof.
  revert w. induction ds as [|d ds IH]; intros w Hf.
  - exists w. split; [reflexivity|]. split; [exact Hf|].
    split; [reflexivity|]. intros pid k.
    rewrite decide_False; [reflexivity|]. intros [_ Hin]. inversion Hin.
  - destruct (BucketFacts.saveCookies_quiet B profileId d w Hf)
      as (w1 & Hrun1 & Hcd1 & Hs1 & Hf1 & _).
    destruct (IH w1 Hf1) as (w' & Hrun & Hf' & Hs & Hcd).
    exists w'. cbn [forEach]. unfold bind. rewrite Hrun1, Hrun.
    split; [reflexivity|]. split; [exact Hf'|].
    split; [now transitivity w1|]. intros pid k.
    assert (Hjar : jar w1 = jar w) by apply Hs1.
    rewrite Hcd, Hjar, Hcd1, BucketFacts.bucketAt_insert.
    destruct (decide (profileId = pid /\ k ∈ ds)) as [[-> Hin]|Hnot].
    + rewrite decide_True; [reflexivity|]. split; [reflexivity|].
      now apply list_elem_of_further.
    + destruct (decide (profileId = pid /\ d = k)) as [[-> ->]|Hnot'].
      * rewrite decide_True; [reflexivity|]. split; [reflexivity|].
        apply list_elem_of_here.
      * rewrite decide_False; [reflexivity|]. intros [-> Hin].
        apply elem_of_cons in Hin as [-> | Hin]; tauto.
Qed.

(** The ES-module bulk save on a host that rejects nothing. *)
Lemma es_save_quiet (B : Browser) (p : Profile.t) (ds : list string) (w : World) :
  faults w = [] -> activeProfileOf w = Some p -> Profile.domains p = Some ds ->
  exists w',
    CookieManager.saveCurrentProfileCookies B w = (Returned tt, w')
    /\ faults w' = [] /\ sameButCookieData w w'
    /\ forall profileId' key,
         bucketAt profileId' key (cookieData w')
         = if decide (Profile.id p = profileId' /\ key ∈ ds)
           then Some (cookieRecord <$> List.filter (domainFilter B key) (jar w))
           else bucketAt profileId' key (cookieData w).
Proof.
  intros Hf Hp Hd.
  destruct (SaveFacts.getActiveProfile_quiet w Hf) as (w1 & Hrun1 & Hs1 & Hf1).
  unfold CookieManager.saveCurrentProfileCookies, bind at 1.
  rewrite Hrun1, Hp, Hd.
  destruct (save_loop_quiet B (Profile.id p) ds w1 Hf1)
    as (w' & Hrun & Hf' & Hs & Hcd).
  assert (Hloop : match ds with
                  | [] => ret tt
                  | _ => forEach ds (fun domain =>
                           CookieManager.saveCookies B (Profile.id p) domain)
                  end w1 = (Returned tt, w'))
    by (destruct ds; exact Hrun).
  rewrite Hloop. exists w'. split; [reflexivity|]. split; [exact Hf'|].
  split.
  { transitivity w1; [now apply BucketFacts.sameState_sameButCookieData | exact Hs]. }
  intros pid k. rewrite Hcd.
  destruct Hs1 as (_ & _ & _ & -> & -> & _). reflexivity.
Qed.

(** Without wildcard patterns the two variants run the same loop. *)
Lemma sw_save_plain (B : Browser) (p : Profile.t) (ds : list string) (w : World) :
  faults w = [] -> activeProfileOf w = Some p -> Profile.domains p = Some ds ->
  ds <> [] -> Forall (fun d => Js.startsWith d "*." = false) ds ->
  CookieManagerSw.saveCurrentProfileCookies B w
  = CookieManager.saveCurrentProfileCookies B w.
Proof.
  intros Hf Hp Hd Hne Hplain.
  destruct (SaveFacts.getActiveProfile_quiet w Hf) as (w1 & Hrun1 & _).
  destruct ds as [|d ds]; [contradiction|].
  assert (Hes : CookieManager.saveCurrentProfileCookies B w
                = forEach (d :: ds)
                    (fun domain => CookieManager.saveCookies B (Profile.id p) domain)
                    w1).
  { unfold CookieManager.saveCurrentProfileCookies, bind at 1.
    now rewrite Hrun1, Hp, Hd. }
  rewrite Hes.
  unfold CookieManagerSw.saveCurrentProfileCookies, bind at 1.
  rewrite Hrun1, Hp. cbv zeta. rewrite Hd.
  rewrite (forEach_ext (d :: ds) _
             (fun domain => CookieManager.saveCookies B (Profile.id p) domain));
    [reflexivity|].
  intros x Hx. rewrite Forall_forall in Hplain. apply list_elem_of_In in Hx.
  now rewrite (Hplain x Hx).
Qed.

End BulkFacts.

(** X19.  On a host that rejects nothing, [saveCurrentProfileCookies] of an
    active profile with configured domains returns with, for every
    configured domain, the bucket of that domain replaced by the records of
    the cookies the browser returns for it; the buckets under every other
    key, stored earlier for domains no longer configured for instance, and
    the snapshots of the other profiles are as before, and so are the
    profiles, the pointer and the live cookies.  This is the ES-module loop;
    the service-worker variant runs the very same calls when no configured
    domain starts with "*.". *)
Theorem X19_bulk_save_configured_domains (B : Browser) (p : Profile.t)
    (ds : list string) (w : World) :
  faults w = [] -> activeProfileOf w = Some p -> Profile.domains p = Some ds ->
  let out := CookieManager.saveCurrentProfileCookies B w in
  fst out = Returned tt
  /\ (forall profileId' key,
        bucketAt profileId' key (cookieData (snd out))
        = if decide (Profile.id p = profileId' /\ key ∈ ds)
          then Some (cookieRecord <$> List.filter (domainFilter B key) (jar w))
          else bucketAt profileId' key (cookieData w))
  /\ sameButCookieData w (snd out)
  /\ (ds <> [] -> Forall (fun d => Js.startsWith d "*." = false) ds ->
      CookieManagerSw.saveCurrentProfileCookies B w = out).
Proof.
  intros Hf Hp Hd. cbv zeta. split; [|split; [|split]].
  - destruct (BulkFacts.es_save_quiet B p ds w Hf Hp Hd) as (w' & -> & _).
    reflexivity.
  - destruct (BulkFacts.es_save_quiet B p ds w Hf Hp Hd)
      as (w' & -> & _ & _ & Hcd). exact Hcd.
  - destruct (BulkFacts.es_save_quiet B p ds w Hf Hp Hd)
      as (w' & -> & _ & Hs & _). exact Hs.
  - intros Hne Hplain.
    now apply BulkFacts.sw_save_plain with (p := p) (ds := ds).
Qed.

(** The instance of X19: two configured domains, one stale bucket. *)
Lemma X19_bulk_save_configured_domains_witness :
  let w := sampleWorld [workProfile (Some ["a.com"; "b.com"])] (Some "p-work")
             {[ "p-work" := {[ "old.com" := [sampleCookie "sid" "old.com" "0"] ]} ]}
             [sampleCookie "sid" "a.com" "1"; sampleCookie "tok" "x.b.com" "2"] in
  let cd := cookieData (snd (CookieManagerSw.saveCurrentProfileCookies
                               sampleBrowser w)) in
  bucketAt "p-work" "a.com" cd = Some [sampleCookie "sid" "a.com" "1"]
  /\ bucketAt "p-work" "b.com" cd = Some [sampleCookie "tok" "x.b.com" "2"]
  /\ bucketAt "p-work" "old.com" cd = Some [sampleCookie "sid" "old.com" "0"].
Proof.
  intros w.
  destruct (X19_bulk_save_configured_domains sampleBrowser
              (workProfile (Some ["a.com"; "b.com"])) ["a.com"; "b.com"] w
              eq_refl eq_refl eq_refl) as (_ & Hcd & _ & Hsw).
  rewrite (Hsw ltac:(discriminate) ltac:(repeat constructor)).
  cbv zeta. rewrite !Hcd. vm_compute. repeat split.
Defined.

(** ** The wildcard branch of the service-worker bulk save *)

Module WildcardFacts.

Lemma appended_other (profileId : string) (cs : list Cookie)
    (cd : CookieData) (profileId' : string) :
  profileId' <> profileId ->
  appended profileId cs cd !! profileId' = cd !! profileId'.
Proof.
  intros Hne. unfold appended. revert cd.
  induction cs as [|c cs IH]; intros cd; [reflexivity|].
  cbn [foldl]. rewrite IH. now apply lookup_insert_ne.
Qed.

Lemma appended_profile (profileId : string) (cs : list Cookie)
    (cd : CookieData) (s : Snapshot) :
  cd !! profileId = Some s ->
  appended profileId cs cd !! profileId
  = Some (foldl (fun o c => pushed (stripLeadingDot (domain c))
                                       (cookieRecord c) o) s cs).
Proof.
  unfold appended. revert cd s.
  induction cs as [|c cs IH]; intros cd s Hs; [exact Hs|].
  cbn [foldl]. rewrite (IH _ (pushed (stripLeadingDot (domain c))
                                (cookieRecord c) s)).
  - reflexivity.
  - unfold profileCookiesOf. rewrite Hs. apply lookup_insert_eq.
Qed.

Lemma initProfile_lookup (profileId : string) (cd : CookieData) :
  initProfile profileId cd !! profileId = Some (profileCookiesOf profileId cd).
Proof.
  unfold initProfile, profileCookiesOf.
  destruct (cd !! profileId) eqn:Hp; [now rewrite Hp|]. apply lookup_insert_eq.
Qed.

Lemma initProfile_other (profileId : string) (cd : CookieData)
    (profileId' : string) :
  profileId' <> profileId -> initProfile profileId cd !! profileId' = cd !! profileId'.
Proof.
  intros Hne. unfold initProfile.
  destruct (cd !! profileId); [reflexivity|]. now apply lookup_insert_ne.
Qed.

(** One pattern: the matched cookies are pushed onto the buckets of their
    own domains. *)
Lemma appended_bucket (profileId key : string) (cs : list Cookie)
    (cd : CookieData) :
  bucketAt profileId key
    (appended profileId cs (initProfile profileId cd))
  = match List.filter (fun c => String.eqb (stripLeadingDot (domain c)) key) cs with
    | [] => bucketAt profileId key cd
    | l => Some (default [] (bucketAt profileId key cd) ++ (cookieRecord <$> l))
    end.
Proof.
  unfold bucketAt at 1.
  rewrite (appended_profile profileId cs _ _ (initProfile_lookup profileId cd)).
  cbn [mbind option_bind]. rewrite SaveFacts.push_all_lookup.
  assert (Hb : profileCookiesOf profileId cd !! key = bucketAt profileId key cd).
  { unfold profileCookiesOf, bucketAt. now destruct (cd !! profileId). }
  unfold bucketOf. now rewrite Hb.
Qed.

Lemma append_twice (b : option (list Cookie)) (l1 l2 : list Cookie) :
  match l2 with
  | [] => match l1 with [] => b | _ => Some (default [] b ++ l1) end
  | _ => Some (default [] (match l1 with
                           | [] => b
                           | _ => Some (default [] b ++ l1)
                           end) ++ l2)
  end
  = match l1 ++ l2 with [] => b | _ => Some (default [] b ++ (l1 ++ l2)) end.
Proof.
  destruct l1 as [|x l1], l2 as [|y l2]; simpl;
    rewrite ?app_nil_r, <- ?app_assoc; reflexivity.
Qed.

(** Pushes that do not throw leave every key reading as it did. *)
Lemma fold_pushed_reads (cs : list Cookie) (acc : Snapshot) (k : string) :
  existsb (fun c => readsInherited (stripLeadingDot (domain c)) acc) cs = false ->
  readsInherited k
    (foldl (fun o c => pushed (stripLeadingDot (domain c)) (cookieRecord c) o)
           acc cs)
  = readsInherited k acc.
Proof.
  revert acc. induction cs as [|c cs IH]; intros acc Hok; [reflexivity|].
  cbn [existsb] in Hok. apply orb_false_elim in Hok as [Hc Hcs].
  cbn [foldl]. rewrite IH.
  - now apply SaveFacts.readsInherited_pushed.
  - rewrite <- Hcs. apply SaveFacts.existsb_same. intros c0.
    now apply SaveFacts.readsInherited_pushed.
Qed.

Lemma afterPattern_reads (profileId : string) (cookies : list Cookie)
    (cd : CookieData) (pattern k : string) :
  readsInherited k (profileCookiesOf profileId
                      (afterPattern profileId cookies cd pattern))
  = readsInherited k (profileCookiesOf profileId cd).
Proof.
  unfold afterPattern.
  destruct (patternThrows profileId pattern cookies cd) eqn:Hthrows;
    [reflexivity|].
  unfold profileCookiesOf at 1.
  rewrite (appended_profile profileId _ _ _ (initProfile_lookup profileId cd)).
  simpl. now apply fold_pushed_reads.
Qed.

Lemma afterPattern_throws (profileId : string) (cookies : list Cookie)
    (cd : CookieData) (pattern pattern' : string) :
  patternThrows profileId pattern' cookies
    (afterPattern profileId cookies cd pattern)
  = patternThrows profileId pattern' cookies cd.
Proof.
  unfold patternThrows. apply SaveFacts.existsb_same. intros c.
  apply afterPattern_reads.
Qed.

(** One pattern, seen from one bucket. *)
Lemma afterPattern_bucket (profileId key : string) (cookies : list Cookie)
    (cd : CookieData) (pattern : string) :
  let added :=
    cookieRecord <$>
      (if patternThrows profileId pattern cookies cd then []
       else List.filter (fun c => String.eqb (stripLeadingDot (domain c)) key)
                        (matchedBy pattern cookies)) in
  bucketAt profileId key (afterPattern profileId cookies cd pattern)
  = match added with
    | [] => bucketAt profileId key cd
    | _ => Some (default [] (bucketAt profileId key cd) ++ added)
    end.
Proof.
  cbv zeta. unfold afterPattern.
  destruct (patternThrows profileId pattern cookies cd); [reflexivity|].
  rewrite appended_bucket.
  now destruct (List.filter _ (matchedBy pattern cookies)).
Qed.

(** Several patterns, one after the other, against the same live cookies. *)
Lemma fold_bucket (profileId key : string) (cookies : list Cookie)
    (ds : list string) (cd : CookieData) :
  let added :=
    cookieRecord <$>
      flat_map (fun pattern =>
                  if patternThrows profileId pattern cookies cd then []
                  else List.filter
                         (fun c => String.eqb (stripLeadingDot (domain c)) key)
                         (matchedBy pattern cookies)) ds in
  bucketAt profileId key (foldl (afterPattern profileId cookies) cd ds)
  = match added with
    | [] => bucketAt profileId key cd
    | _ => Some (default [] (bucketAt profileId key cd) ++ added)
    end.
Proof.
  cbv zeta. revert cd. induction ds as [|pattern ds IH]; intros cd; [reflexivity|].
  cbn [foldl flat_map]. rewrite IH, afterPattern_bucket, fmap_app.
  rewrite <- append_twice.
  replace (flat_map _ ds)
    with (flat_map (fun pattern0 =>
                      if patternThrows profileId pattern0 cookies cd then []
                      else List.filter
                             (fun c => String.eqb (stripLeadingDot (domain c)) key)
                             (matchedBy pattern0 cookies)) ds);
    [reflexivity|].
  apply flat_map_ext. intros pattern0. now rewrite afterPattern_throws.
Qed.

Lemma fold_other (profileId : string) (cookies : list Cookie)
    (ds : list string) (cd : CookieData) (profileId' : string) :
  profileId' <> profileId ->
  foldl (afterPattern profileId cookies) cd ds !! profileId' = cd !! profileId'.
Proof.
  intros Hne. revert cd. induction ds as [|pattern ds IH]; intros cd; [reflexivity|].
  cbn [foldl]. rewrite IH. unfold afterPattern.
  destruct (patternThrows _ _ _ _); [reflexivity|].
  rewrite appended_other by exact Hne. now apply initProfile_other.
Qed.

(** Every error of the wildcard branch is caught and dropped. *)
Lemma wildcard_loop_returns (B : Browser) (profileId : string)
    (ds : list string) (w : World) :
  Forall (fun d => Js.startsWith d "*." = true) ds ->
  fst (swDomainsLoop B profileId ds w) = Returned tt.
Proof.
  intros Hall. revert w. induction Hall as [|d ds Hd _ IH]; intros w;
    [reflexivity|].
  cbn [forEach]. rewrite Hd. unfold bind at 1, tryCatch at 1.
  match goal with
  | |- context [match ?m w with _ => _ end] => destruct (m w) as [[[]|e] w1]
  end; simpl; apply IH.
Qed.

Lemma wildcard_loop_quiet (B : Browser) (profileId : string)
    (ds : list string) (w : World) :
  Forall (fun d => Js.startsWith d "*." = true) ds -> faults w = [] ->
  exists w',
    swDomainsLoop B profileId ds w = (Returned tt, w')
    /\ faults w' = [] /\ sameButCookieData w w'
    /\ cookieData w'
       = foldl (afterPattern profileId (jar w)) (cookieData w) ds.
Proof.
  intros Hall. revert w. induction Hall as [|d ds Hd _ IH]; intros w Hf.
  - exists w. split; [reflexivity|]. split; [exact Hf|]. now split.
  - cbn [forEach foldl]. rewrite Hd.
    assert (Hstep : exists w1,
      tryCatch
        (let* allCookies := cookies_getAll B None in
         let* cookieData := getCookieData in
         match CookieManagerSw.appendMatched profileId
                 (List.filter (CookieManagerSw.underBase (Js.substring 2 d))
                              allCookies)
                 (initProfile profileId cookieData) with
         | Some cookieData => saveCookieData cookieData
         | None => throw TypeError
         end)
        (fun error => ret tt) w = (Returned tt, w1)
      /\ faults w1 = [] /\ sameButCookieData w w1
      /\ cookieData w1 = afterPattern profileId (jar w) (cookieData w) d).
    { destruct w as [ps aid pe cd j fl fs tr]; simpl in *. subst fs.
      unfold tryCatch, bind, cookies_getAll, getCookieData, getStorage, bind,
        host, gets, throw, ret, afterPattern, patternThrows, matchedBy.
      cbn [faults logCall tail jar cookieData].
      rewrite SaveFacts.appendMatched_spec,
        SnapshotFacts.profileCookiesOf_initProfile.
      destruct (existsb _ _); eexists; (split; [reflexivity|]); simpl;
        repeat split. }
    destruct Hstep as (w1 & Hrun1 & Hf1 & Hs1 & Hcd1).
    destruct (IH w1 Hf1) as (w' & Hrun & Hf' & Hs & Hcd).
    unfold bind at 1. rewrite Hrun1. exists w'.
    split; [exact Hrun|]. split; [exact Hf'|].
    split; [now transitivity w1|].
    assert (Hjar : jar w1 = jar w) by apply Hs1.
    now rewrite Hcd, Hjar, Hcd1.
Qed.

End WildcardFacts.

(** X20.  The service-worker [saveCurrentProfileCookies] of an active
    profile whose configured domains all start with "*.": whatever the host
    answers, the only errors it can throw are the rejections of the two reads
    that find the active profile, because the wildcard branch catches and
    drops its own.  On a host that rejects nothing it returns, the snapshots
    of the other profiles are as before, and a bucket of the active profile
    is the stored bucket followed by the records of the live cookies of that
    own domain that lie under each pattern, pattern after pattern: nothing
    stored is replaced or removed, and a cookie under two patterns is added
    twice.  A pattern adds nothing when one of its cookies has an own domain
    that only reads as a property every object inherits: the push throws and
    the branch drops the error before it writes. *)
Theorem X20_wildcard_save_appends (B : Browser) (p : Profile.t)
    (ds : list string) (w : World) :
  activeProfileOf w = Some p -> Profile.domains p = Some ds -> ds <> [] ->
  Forall (fun d => Js.startsWith d "*." = true) ds ->
  let out := CookieManagerSw.saveCurrentProfileCookies B w in
  (forall e, fst out = Thrown e ->
     e = HostError (StorageGet KActiveProfileId)
     \/ e = HostError (StorageGet KProfiles))
  /\ (faults w = [] ->
      fst out = Returned tt
      /\ sameButCookieData w (snd out)
      /\ (forall profileId', profileId' <> Profile.id p ->
            cookieData (snd out) !! profileId' = cookieData w !! profileId')
      /\ forall key,
           let added :=
             cookieRecord <$>
               flat_map (fun pattern =>
                           if patternThrows (Profile.id p) pattern (jar w)
                                            (cookieData w)
                           then []
                           else List.filter
                                  (fun c => String.eqb (stripLeadingDot (domain c))
                                                       key)
                                  (matchedBy pattern (jar w))) ds in
           bucketAt (Profile.id p) key (cookieData (snd out))
           = match added with
             | [] => bucketAt (Profile.id p) key (cookieData w)
             | _ => Some (default [] (bucketAt (Profile.id p) key (cookieData w))
                          ++ added)
             end).
Proof.
  intros Hp Hd Hne Hall. cbv zeta. split.
  - intros e.
    pose proof (ListenerFacts.getActiveProfile_throws w) as Hthrows.
    pose proof (ConfigFacts.getActiveProfile_result w) as Hres.
    unfold CookieManagerSw.saveCurrentProfileCookies, bind at 1.
    destruct (ConfigManager.getActiveProfile w) as [[a|e1] w1]; cbn [fst snd] in *.
    + destruct Hres as [[= ->] | [e2 [=]]]. rewrite Hp. cbv zeta. rewrite Hd.
      destruct ds as [|d ds]; [contradiction|].
      pose proof (WildcardFacts.wildcard_loop_returns B (Profile.id p) (d :: ds)
                    w1 Hall) as Hret.
      intros He. pose proof (eq_trans (eq_sym Hret) He) as Habs.
      discriminate Habs.
    + intros [= <-]. now apply Hthrows.
  - intros Hf.
    destruct (SaveFacts.getActiveProfile_quiet w Hf) as (w1 & Hrun1 & Hs1 & Hf1).
    destruct (WildcardFacts.wildcard_loop_quiet B (Profile.id p) ds w1 Hall Hf1)
      as (w' & Hrun & _ & Hs & Hcd).
    assert (Hout : CookieManagerSw.saveCurrentProfileCookies B w = (Returned tt, w')).
    { unfold CookieManagerSw.saveCurrentProfileCookies, bind at 1.
      rewrite Hrun1, Hp. cbv zeta. rewrite Hd.
      destruct ds as [|d ds]; [contradiction | exact Hrun]. }
    rewrite Hout. cbn [fst snd].
    assert (Hjar : jar w1 = jar w) by apply Hs1.
    assert (Hcd1 : cookieData w1 = cookieData w) by apply Hs1.
    rewrite Hjar, Hcd1 in Hcd.
    split; [reflexivity|]. split.
    { transitivity w1; [now apply BucketFacts.sameState_sameButCookieData | exact Hs]. }
    split.
    + intros pid Hpid. rewrite Hcd. now apply WildcardFacts.fold_other.
    + intros key. rewrite Hcd. apply WildcardFacts.fold_bucket.
Qed.

(** The instance of X20: the cookie of a.b.example.com lies under both
    patterns and is stored twice, after the record already there. *)
Lemma X20_wildcard_save_appends_witness :
  let w := sampleWorld [workProfile (Some ["*.example.com"; "*.b.example.com"])]
             (Some "p-work")
             {[ "p-work" := {[ "a.b.example.com" :=
                                 [sampleCookie "old" "a.b.example.com" "0"] ]} ]}
             [sampleCookie "sid" "a.b.example.com" "1"] in
  bucketAt "p-work" "a.b.example.com"
    (cookieData (snd (CookieManagerSw.saveCurrentProfileCookies sampleBrowser w)))
  = Some [sampleCookie "old" "a.b.example.com" "0";
          sampleCookie "sid" "a.b.example.com" "1";
          sampleCookie "sid" "a.b.example.com" "1"].
Proof.
  intros w.
  destruct (X20_wildcard_save_appends sampleBrowser
              (workProfile (Some ["*.example.com"; "*.b.example.com"]))
              ["*.example.com"; "*.b.example.com"] w eq_refl eq_refl
              ltac:(discriminate) ltac:(repeat constructor)) as [_ Hquiet].
  destruct (Hquiet eq_refl) as (_ & _ & _ & Hcd).
  rewrite Hcd. vm_compute. reflexivity.
Defined.

(** A pattern whose cookies include one of host "constructor": the push
    throws after the cookie of a.constructor was pushed onto the object in
    memory, the branch drops the error, and nothing of the pattern is
    stored.  The second pattern is saved as usual. *)
Example wildcard_save_inherited_key :
  let w := sampleWorld [workProfile (Some ["*.constructor"; "*.example.com"])]
             (Some "p-work") ∅
             [sampleCookie "a" "a.constructor" "1";
              sampleCookie "sid" "constructor" "2";
              sampleCookie "tok" "example.com" "3"] in
  let out := CookieManagerSw.saveCurrentProfileCookies sampleBrowser w in
  fst out = Returned tt
  /\ cookieData (snd out)
     = {[ "p-work" := {[ "example.com" := [sampleCookie "tok" "example.com" "3"] ]} ]}
  /\ trace (snd out)
     = [StorageGet KActiveProfileId; StorageGet KProfiles;
        CookiesGetAll None; StorageGet KCookieData;
        CookiesGetAll None; StorageGet KCookieData; StorageSet KCookieData].
Proof. vm_compute. repeat split. Qed.

(** ** The ES-module matcher as an order on domains *)

Module OrderFacts.
Import JsFacts.

Lemma append_assoc (p q r : string) : (p +:+ q) +:+ r = p +:+ (q +:+ r).
Proof.
  induction p as [|a p IH]; [reflexivity|].
  change (String a ((p +:+ q) +:+ r) = String a (p +:+ (q +:+ r))).
  now f_equal.
Qed.

Lemma endsWith_longer (s t : string) :
  Js.endsWith s ("." +:+ t) = true -> String.length t < String.length s.
Proof.
  intros H. apply endsWith_true_iff in H as [p ->].
  rewrite !length_append. simpl. lia.
Qed.

Lemma endsWith_trans (s t u : string) :
  Js.endsWith s ("." +:+ t) = true -> Js.endsWith t ("." +:+ u) = true ->
  Js.endsWith s ("." +:+ u) = true.
Proof.
  intros Hs Ht. apply endsWith_true_iff in Hs as [p ->].
  apply endsWith_true_iff in Ht as [q ->]. apply endsWith_true_iff.
  exists (p +:+ "." +:+ q). now rewrite !append_assoc.
Qed.

End OrderFacts.

(** X21.  The ES-module [isDomainMatch] orders domains: every domain
    matches itself; when a cookie domain matches a pattern and that pattern,
    read as a domain, matches a second pattern, the cookie domain matches
    the second pattern; and two domains that match each other are the same
    once one leading dot is stripped.  One leading dot on the cookie domain
    makes no difference. *)
Theorem X21_es_isDomainMatch_order (a b c : string) :
  CookieManager.isDomainMatch a a = true
  /\ (CookieManager.isDomainMatch a b = true ->
      CookieManager.isDomainMatch b c = true ->
      CookieManager.isDomainMatch a c = true)
  /\ (CookieManager.isDomainMatch a b = true ->
      CookieManager.isDomainMatch b a = true ->
      stripLeadingDot a = stripLeadingDot b)
  /\ (Js.startsWith a "." = false ->
      CookieManager.isDomainMatch ("." +:+ a) b
      = CookieManager.isDomainMatch a b).
Proof.
  rewrite !MatcherFacts.es_isDomainMatch_unfold.
  split; [now rewrite String.eqb_refl|]. split; [|split].
  - intros Hab Hbc.
    apply orb_true_iff in Hab as [Hab | Hab], Hbc as [Hbc | Hbc];
      apply orb_true_iff.
    + apply String.eqb_eq in Hab, Hbc. left. apply String.eqb_eq. congruence.
    + apply String.eqb_eq in Hab. right. now rewrite Hab.
    + apply String.eqb_eq in Hbc. right. now rewrite <- Hbc.
    + right. now apply OrderFacts.endsWith_trans with (t := stripLeadingDot b).
  - intros Hab Hba.
    apply orb_true_iff in Hab as [Hab | Hab]; [now apply String.eqb_eq|].
    apply orb_true_iff in Hba as [Hba | Hba];
      [apply String.eqb_eq in Hba; now symmetry|].
    apply OrderFacts.endsWith_longer in Hab, Hba. lia.
  - intros Hdot.
    assert (Ha : stripLeadingDot ("." +:+ a) = stripLeadingDot a).
    { unfold stripLeadingDot. rewrite Hdot.
      change ("." +:+ a) with (String "." a).
      now rewrite JsFacts.startsWith_cons, JsFacts.startsWith_empty. }
    now rewrite Ha.
Qed.

(** ** The steps of a switch, whatever the host answers *)

Module SequenceFacts.

(** The pointer step on any host: two storage calls at most, and the pointer
    moves only when the step returns. *)
Lemma pointer_step (profileId : string) (w : World) :
  let out := ConfigManager.switchProfile profileId w in
  emits isPointerEvent w (snd out)
  /\ profiles (snd out) = profiles w /\ cookieData (snd out) = cookieData w
  /\ jar (snd out) = jar w
  /\ (fst out = Returned tt ->
      (exists p, profileById profileId w = Some p)
      /\ activeProfileId (snd out) = Some profileId
      /\ trace (snd out)
         = trace w ++ [StorageGet KProfiles; StorageSet KActiveProfileId])
  /\ (forall e, fst out = Thrown e -> activeProfileId (snd out) = activeProfileId w).
Proof.
  cbv zeta.
  unfold profileById, ConfigManager.switchProfile, ConfigManager.getProfiles,
    getStorage, setStorage, bind, host, gets, modify, throw, emits.
  destruct w as [ps aid pe cd j fl fs tr]; simpl.
  destruct fs as [|[|] fs]; simpl;
    try (destruct (List.find _ ps) as [p|]; simpl;
         try (destruct fs as [|[|] fs']; simpl));
    repeat split;
    try (intros; discriminate);
    try (eexists; split; [reflexivity | repeat constructor]);
    try (eexists; reflexivity);
    try (now rewrite <- app_assoc);
    try (eexists; split; [now rewrite <- app_assoc | repeat constructor]).
Qed.

Lemma clearForIncoming_sameStorage (B : Browser) (CM : CookieManagerApi)
    (clearCookies : bool) :
  CM = CookieManagerSw.api B \/ CM = CookieManager.api B ->
  stable sameStorage (ServiceWorker.clearForIncoming CM clearCookies).
Proof.
  intros [-> | ->]; SwitchFacts.unfold_managers; stable_walk split_leaf.
Qed.

Lemma loadCookies_sameStorage (B : Browser) (CM : CookieManagerApi)
    (profileId : string) :
  CM = CookieManagerSw.api B \/ CM = CookieManager.api B ->
  stable sameStorage (api_loadCookies CM profileId).
Proof.
  intros [-> | ->]; SwitchFacts.unfold_managers; stable_walk split_leaf.
Qed.

End SequenceFacts.

(** X22.  A [switchProfile] call started with the guard flag clear, whatever
    the host answers: the four steps run one after the other, each on the
    world the step before left, and the first one that throws ends the run
    with its error; the flag is cleared either way.  The save step makes
    calls of the save step only and leaves the pointer, the profiles and
    the live cookies alone; the pointer step reads the profiles and writes
    the pointer, and returns only for a stored target; the clear step makes
    calls of the clear step only and touches no stored data, and does
    nothing when clearing was not asked for; the load step makes calls of
    the load step only and touches no stored data.  So the log of a call
    that returns is the log before it, then the save step's calls, then the
    read of the profiles and the write of the pointer, then the clear
    step's calls, then the load step's calls, with the pointer on the target
    and the cookie data as the save step left it; cookie calls the host
    rejected on the way are part of those logs.  On a host that rejects
    nothing the call returns for a stored target and throws the
    profile-not-found error at the pointer step for any other, provided the
    save step is not the service-worker bulk save stopped by a live cookie
    whose own domain names an inherited property. *)
Theorem X22_switch_steps_in_order (B : Browser) (CM : CookieManagerApi)
    (profileId : string) (clearCookies : bool) (w : World) :
  CM = CookieManagerSw.api B \/ CM = CookieManager.api B ->
  isSwitchingProfile w = false ->
  let w0 := setSwitching true w in
  let save := ServiceWorker.saveOutgoing CM w0 in
  let point := ConfigManager.switchProfile profileId (snd save) in
  let clear := ServiceWorker.clearForIncoming CM clearCookies (snd point) in
  let load := api_loadCookies CM profileId (snd clear) in
  let out := ServiceWorker.switchProfile CM profileId clearCookies w in
  out = match fst save with
        | Thrown e => (Thrown e, setSwitching false (snd save))
        | Returned _ =>
            match fst point with
            | Thrown e => (Thrown e, setSwitching false (snd point))
            | Returned _ =>
                match fst clear with
                | Thrown e => (Thrown e, setSwitching false (snd clear))
                | Returned _ => (fst load, setSwitching false (snd load))
                end
            end
        end
  /\ (emits isSaveEvent w0 (snd save)
      /\ activeProfileId (snd save) = activeProfileId w
      /\ jar (snd save) = jar w /\ profiles (snd save) = profiles w)
  /\ (emits isPointerEvent (snd save) (snd point)
      /\ cookieData (snd point) = cookieData (snd save)
      /\ jar (snd point) = jar (snd save)
      /\ (fst point = Returned tt ->
          (exists p, profileById profileId w = Some p)
          /\ activeProfileId (snd point) = Some profileId)
      /\ (forall e, fst point = Thrown e ->
            activeProfileId (snd point) = activeProfileId w))
  /\ (emits isClearEvent (snd point) (snd clear)
      /\ sameStorage (snd point) (snd clear)
      /\ (clearCookies = false -> clear = (Returned tt, snd point)))
  /\ (emits isLoadEvent (snd clear) (snd load)
      /\ sameStorage (snd clear) (snd load))
  /\ (fst out = Returned tt ->
      (exists p, profileById profileId w = Some p)
      /\ activeProfileId (snd out) = Some profileId
      /\ cookieData (snd out) = cookieData (snd save)
      /\ isSwitchingProfile (snd out) = false
      /\ exists saves clears loads,
           trace (snd out)
           = trace w ++ saves
             ++ [StorageGet KProfiles; StorageSet KActiveProfileId]
             ++ clears ++ loads
           /\ Forall isSaveEvent saves /\ Forall isClearEvent clears
           /\ Forall isLoadEvent loads)
  /\ (faults w = [] ->
      (CM = CookieManagerSw.api B /\ saveAllThrows w = false)
      \/ CM = CookieManager.api B ->
      match profileById profileId w with
      | Some _ => fst out = Returned tt
      | None =>
          out = (Thrown ProfileNotFound,
                 setSwitching false (logCall (StorageGet KProfiles) (snd save)))
      end).
Proof.
  intros HCM Hflag. cbv zeta.
  set (w0 := setSwitching true w).
  pose proof (SwitchFacts.saveOutgoing_emits B CM HCM w0) as Hev1.
  pose proof (SwitchFacts.saveOutgoing_keeps_active B CM HCM w0) as Hact1.
  pose proof (SwitchFacts.saveOutgoing_keeps_jar B CM HCM w0) as Hjar1.
  pose proof (SwitchFacts.saveOutgoing_keeps_profiles B CM HCM w0) as Hps1.
  unfold keeps in Hact1, Hjar1, Hps1.
  change (activeProfileId w0) with (activeProfileId w) in Hact1.
  change (jar w0) with (jar w) in Hjar1.
  change (profiles w0) with (profiles w) in Hps1.
  set (save := ServiceWorker.saveOutgoing CM w0) in *.
  destruct (SequenceFacts.pointer_step profileId (snd save))
    as (Hev2 & Hps2 & Hcd2 & Hjar2 & Hret2 & Hthrow2).
  assert (Hby : profileById profileId (snd save) = profileById profileId w)
    by (unfold profileById; now rewrite Hps1).
  rewrite Hby in Hret2.
  set (point := ConfigManager.switchProfile profileId (snd save)) in *.
  pose proof (SwitchFacts.clearForIncoming_emits B CM HCM clearCookies (snd point))
    as Hev3.
  pose proof (SequenceFacts.clearForIncoming_sameStorage B CM clearCookies HCM
                (snd point)) as Hs3.
  set (clear := ServiceWorker.clearForIncoming CM clearCookies (snd point)) in *.
  pose proof (SwitchFacts.loadCookies_emits B CM HCM profileId (snd clear)) as Hev4.
  pose proof (SequenceFacts.loadCookies_sameStorage B CM profileId HCM (snd clear))
    as Hs4.
  set (load := api_loadCookies CM profileId (snd clear)) in *.
  assert (Hout : ServiceWorker.switchProfile CM profileId clearCookies w
    = match fst save with
      | Thrown e => (Thrown e, setSwitching false (snd save))
      | Returned _ =>
          match fst point with
          | Thrown e => (Thrown e, setSwitching false (snd point))
          | Returned _ =>
              match fst clear with
              | Thrown e => (Thrown e, setSwitching false (snd clear))
              | Returned _ => (fst load, setSwitching false (snd load))
              end
          end
      end).
  { rewrite (SwitchFacts.switchProfile_idle CM profileId clearCookies w Hflag).
    fold w0. unfold ServiceWorker.switchSteps, bind. fold save.
    destruct save as [[[]|e1] w1]; [|reflexivity]. cbn [fst snd] in *.
    fold point. destruct point as [[[]|e2] w2]; [|reflexivity].
    cbn [fst snd] in *. fold clear.
    destruct clear as [[[]|e3] w3]; [|reflexivity]. cbn [fst snd] in *.
    fold load. now destruct load as [r4 w4]. }
  split; [exact Hout|].
  split; [now repeat split|].
  split.
  { split; [exact Hev2|]. split; [exact Hcd2|]. split; [exact Hjar2|].
    split; [intros Hr; now destruct (Hret2 Hr) as (? & ? & _)|].
    intros e He. now rewrite (Hthrow2 e He). }
  split.
  { split; [exact Hev3|]. split; [exact Hs3|].
    intros ->. reflexivity. }
  split; [now split|].
  split.
  - rewrite Hout. intros Hret.
    destruct (fst save) as [[]|e1]; [|discriminate Hret].
    destruct (fst point) as [[]|e2] eqn:Hpoint; [|discriminate Hret].
    destruct (fst clear) as [[]|e3]; [|discriminate Hret].
    cbn [fst snd] in *.
    destruct (Hret2 eq_refl) as (Hp & Hact2 & Htr2).
    split; [exact Hp|].
    destruct Hs3 as (_ & Ha3 & _ & Hc3 & _). destruct Hs4 as (_ & Ha4 & _ & Hc4 & _).
    split; [simpl; congruence|]. split; [simpl; congruence|].
    split; [reflexivity|].
    destruct Hev1 as (saves & Ht1 & Hall1). destruct Hev3 as (clears & Ht3 & Hall3).
    destruct Hev4 as (loads & Ht4 & Hall4).
    exists saves, clears, loads. split; [|now repeat split].
    simpl. rewrite Ht4, Ht3, Htr2, Ht1. simpl.
    now rewrite <- !app_assoc.
  - intros Hf Hok.
    assert (Hf0 : faults w0 = []) by exact Hf.
    assert (Hok0 : (CM = CookieManagerSw.api B /\ saveAllThrows w0 = false)
                   \/ CM = CookieManager.api B) by exact Hok.
    destruct (SwitchFacts.saveOutgoing_quiet B CM HCM w0 Hf0 Hok0) as [Hrun1 Hf1].
    fold save in Hrun1, Hf1.
    assert (Hfst1 : fst save = Returned tt) by now rewrite Hrun1.
    rewrite Hout, Hfst1. rewrite <- Hby.
    destruct (profileById profileId (snd save)) as [p|] eqn:Hp.
    + pose proof (ConfigFacts.switchProfile_found profileId p (snd save) Hp Hf1)
        as Hrun2.
      fold point in Hrun2.
      assert (Hfst2 : fst point = Returned tt) by now rewrite Hrun2.
      assert (Hf2 : faults (snd point) = [])
        by (rewrite Hrun2; simpl; now rewrite Hf1).
      destruct (clean_run _ (snd point)
                  (SwitchFacts.clearForIncoming_clean B CM HCM clearCookies) Hf2)
        as [Hrun3 Hf3].
      fold clear in Hrun3, Hf3.
      destruct (clean_run _ (snd clear)
                  (SwitchFacts.loadCookies_clean B CM HCM profileId) Hf3)
        as [Hrun4 _].
      fold load in Hrun4.
      rewrite Hfst2, Hrun3, Hrun4. reflexivity.
    + destruct (ConfigFacts.switchProfile_missing profileId (snd save) Hp)
        as (_ & Hthrow & _).
      fold point. unfold point. rewrite (Hthrow Hf1). reflexivity.
Qed.

(** The instance of X22: the host rejects the removal of the cookie of
    a.wps.com, the thirteenth call of the switch.  The rejection is dropped,
    the switch goes on and returns, and the log still reads save, pointer,
    clear, load. *)
Lemma X22_switch_steps_in_order_witness :
  let w := mkWorld [workProfile (Some ["*.wps.com"]); homeProfile (Some [])]
             (Some "p-work") None ∅
             [sampleCookie "sid" "a.wps.com" "1"; sampleCookie "tok" "other.com" "2"]
             false
             [false; false; false; false; false; false; false; false; false;
              false; false; false; true] [] in
  let out := ServiceWorker.switchProfile (CookieManagerSw.api sampleBrowser)
               "p-home" true w in
  fst out = Returned tt
  /\ jar (snd out) = [sampleCookie "sid" "a.wps.com" "1"]
  /\ activeProfileId (snd out) = Some "p-home"
  /\ exists saves clears loads,
       trace (snd out)
       = trace w ++ saves
         ++ [StorageGet KProfiles; StorageSet KActiveProfileId]
         ++ clears ++ loads
       /\ Forall isSaveEvent saves /\ Forall isClearEvent clears
       /\ Forall isLoadEvent loads.
Proof.
  intros w out.
  destruct (X22_switch_steps_in_order sampleBrowser
              (CookieManagerSw.api sampleBrowser) "p-home" true w
              (or_introl eq_refl) eq_refl)
    as (Hout & _ & _ & _ & _ & Hret & _).
  assert (Hfst : fst out = Returned tt).
  { unfold out. rewrite Hout. vm_compute. reflexivity. }
  destruct (Hret Hfst) as (_ & Hact & _ & _ & Htrace).
  split; [exact Hfst|]. split; [vm_compute; reflexivity|].
  split; [exact Hact | exact Htrace].
Defined.
